(** * Verification of [scripts/build_tables.py]

    The script reads a spreadsheet workbook from its packaged XML parts,
    projects the two worksheets into header-keyed records, coerces cell text
    to numbers and dates, allocates each order's cost over its line items and
    writes four sorted CSV reports.

    The development is a shallow embedding: every function of the script is a
    Rocq function of the same name.  Python [float] is IEEE binary64, modelled
    by Rocq's primitive floats; Python [int] is [Z]; [str] is [string];
    [dict] is stdpp's [gmap], [set] is [gset]; a raised exception is the
    [Raise] branch of [result], and the files written so far are threaded
    through the [io] type of [main].  Opening the archive and parsing its
    XML are outside the model: [main] starts from the parsed parts.

    Text is modelled at the ASCII level: a [string] is the UTF-8 encoding of
    the Python [str], and the character classes of [str.strip], [str.split],
    [str.lower], [\d], [int] and [float] are their ASCII parts (non-ASCII
    blanks and digits are ordinary characters here).  Byte-wise comparison of
    UTF-8 strings is comparison by code point, which is how Python orders
    [str]. *)

From Stdlib Require Import ZArith Bool Ascii Lia.
From Stdlib Require Import Floats.PrimFloat Floats.SpecFloat Floats.FloatOps Floats.FloatAxioms.
From stdpp Require Import base option list strings pretty gmap sorting.

Local Open Scope Z_scope.

(** * The Python runtime the script relies on *)
Module Py.

(** ** Exceptions and results *)

Inductive exn : Type :=
  | IndexError
  | AttributeError
  | ValueError
  | OverflowError
  | TypeError.

Global Instance exn_eq_dec : EqDecision exn.
Proof. solve_decision. Defined.

Inductive result (A : Type) : Type :=
  | Ok (a : A)
  | Raise (e : exn).
Global Arguments Ok {A} a.
Global Arguments Raise {A} e.

Global Instance result_ret : MRet result := fun _ a => Ok a.
Global Instance result_bind : MBind result := fun _ _ f m =>
  match m with
  | Ok a => f a
  | Raise e => Raise e
  end.
Global Instance result_fmap : FMap result := fun _ _ f m =>
  match m with
  | Ok a => Ok (f a)
  | Raise e => Raise e
  end.

(** [try: body except (handled): handler] *)
Definition try_except {A} (handled : list exn) (body handler : result A) : result A :=
  match body with
  | Ok a => Ok a
  | Raise e => if bool_decide (e ∈ handled) then handler else Raise e
  end.

Definition is_ok {A} (r : result A) : bool :=
  match r with Ok _ => true | Raise _ => false end.

(** ** Values a cell slot can hold *)

Inductive pyval : Type :=
  | VNone
  | VStr (s : string)
  | VInt (z : Z)
  | VFloat (f : float).

(** An [Optional[str]] seen as a Python object. *)
Definition of_cell (c : option string) : pyval :=
  match c with
  | None => VNone
  | Some s => VStr s
  end.

(** [x or ""] for an [Optional[str]]. *)
Definition or_empty (c : option string) : string :=
  match c with
  | Some s => s
  | None => ""
  end.

(** [x or 0] for an [Optional[str]]: the empty string is falsy too. *)
Definition or_zero (c : option string) : pyval :=
  match c with
  | Some (String a s) => VStr (String a s)
  | _ => VInt 0
  end.

(** ** Characters and strings *)

Definition code (c : ascii) : Z := Z.of_nat (nat_of_ascii c).

(** The ASCII characters [str.isspace] accepts: TAB, LF, VT, FF, CR, the four
    separators FS, GS, RS, US, and the blank. *)
Definition is_space (c : ascii) : bool :=
  ((9 <=? code c) && (code c <=? 13)) || ((28 <=? code c) && (code c <=? 32)).

Definition is_digit (c : ascii) : bool := (48 <=? code c) && (code c <=? 57).
Definition is_upper (c : ascii) : bool := (65 <=? code c) && (code c <=? 90).
Definition digit_value (c : ascii) : Z := code c - 48.

(** The blanks that [int] and [float] skip around a literal: the six of C's
    [isspace]; the separators FS to US are not among them. *)
Definition is_c_space (c : ascii) : bool :=
  ((9 <=? code c) && (code c <=? 13)) || (code c =? 32).

Fixpoint lstrip_of (blank : ascii → bool) (s : string) : string :=
  match s with
  | String c s' => if blank c then lstrip_of blank s' else s
  | EmptyString => EmptyString
  end.
Definition strip_of (blank : ascii → bool) (s : string) : string :=
  String.rev (lstrip_of blank (String.rev (lstrip_of blank s))).

(** [s.strip()] *)
Definition strip (s : string) : string := strip_of is_space s.

(** [s.replace(c, "")] for a one-character [c]. *)
Fixpoint remove_char (c : ascii) (s : string) : string :=
  match s with
  | EmptyString => EmptyString
  | String a s' => if Ascii.eqb a c then remove_char c s' else String a (remove_char c s')
  end.

Definition lower_char (c : ascii) : ascii :=
  if is_upper c then ascii_of_nat (nat_of_ascii c + 32) else c.
Fixpoint lower (s : string) : string :=
  match s with
  | EmptyString => EmptyString
  | String a s' => String (lower_char a) (lower s')
  end.

Fixpoint startswith (p s : string) : bool :=
  match p, s with
  | EmptyString, _ => true
  | String a p', String b s' => Ascii.eqb a b && startswith p' s'
  | String _ _, EmptyString => false
  end.

(** [needle in hay] *)
Fixpoint contains (needle hay : string) : bool :=
  startswith needle hay ||
  match hay with
  | EmptyString => false
  | String _ hay' => contains needle hay'
  end.

(** [s.split()]: the maximal runs of non-blank characters. *)
Fixpoint split_go (cur : option string) (s : string) : list string :=
  match s with
  | EmptyString => option_list (String.rev <$> cur)
  | String a s' =>
      if is_space a
      then option_list (String.rev <$> cur) ++ split_go None s'
      else split_go (Some (String a (default EmptyString cur))) s'
  end.
Definition split (s : string) : list string := split_go None s.

(** [sep.join(l)] *)
Fixpoint join (sep : string) (l : list string) : string :=
  match l with
  | [] => ""
  | [x] => x
  | x :: l' => x +:+ sep +:+ join sep l'
  end.

(** The longest prefix of characters in a class, and what follows it. *)
Fixpoint span (p : ascii → bool) (s : string) : string * string :=
  match s with
  | String a s' =>
      if p a then let '(l, r) := span p s' in (String a l, r) else (EmptyString, s)
  | EmptyString => (EmptyString, EmptyString)
  end.

Fixpoint digits_value (acc : Z) (s : string) : Z :=
  match s with
  | EmptyString => acc
  | String a s' => digits_value (10 * acc + digit_value a) s'
  end.

Definition string_length (s : string) : Z := Z.of_nat (String.length s).

(** ** Number literals: [int(str)] and [float(str)] *)

(** The underscore rule shared by [int] and [float]: an underscore is dropped
    when it stands between two digits and refused anywhere else. *)
Fixpoint drop_underscores (prev : ascii) (s : string) : option string :=
  match s with
  | EmptyString => if Ascii.eqb prev "_" then None else Some EmptyString
  | String c s' =>
      if Ascii.eqb c "_" then
        if is_digit prev then drop_underscores c s' else None
      else if Ascii.eqb prev "_" && negb (is_digit c) then None
      else String c <$> drop_underscores c s'
  end.

(** An optional sign: whether it is a minus, and the rest. *)
Definition take_sign (s : string) : bool * string :=
  match s with
  | String "-" s' => (true, s')
  | String "+" s' => (false, s')
  | _ => (false, s)
  end.

(** [int(s)] in base 10. *)
Definition int_of_string (s : string) : result Z :=
  let '(neg, body) := take_sign (strip_of is_c_space s) in
  match body with
  | String c _ =>
      if is_digit c then
        match drop_underscores "000" body with
        | Some t =>
            let '(ds, rest) := span is_digit t in
            match rest with
            | EmptyString => Ok (if neg then - digits_value 0 ds else digits_value 0 ds)
            | _ => Raise ValueError
            end
        | None => Raise ValueError
        end
      else Raise ValueError
  | EmptyString => Raise ValueError
  end.

(** The binary64 value nearest to [(-1)^neg * m * 10^k], ties to even. *)
Definition sf_of_decimal (neg : bool) (m k : Z) : spec_float :=
  match m with
  | Z0 => S754_zero neg
  | Zpos mp =>
      if 0 <=? k then
        match Zpos mp * 10 ^ k with
        | Zpos n => binary_round prec emax neg n 0
        | _ => S754_nan
        end
      else
        let '(q, e, l) := SFdiv_core_binary prec emax (Zpos mp) 0 (10 ^ (- k)) 0 in
        binary_round_aux prec emax neg q e l
  | Zneg _ => S754_nan
  end.

Definition float_of_decimal (neg : bool) (m k : Z) : float :=
  SF2Prim (sf_of_decimal neg m k).

(** The exponent part of a float literal: [None] when there is an [e] that
    no digits follow, so that the literal has unread characters. *)
Definition read_exponent (s : string) : option Z :=
  match s with
  | EmptyString => Some 0
  | String c s' =>
      if Ascii.eqb c "e" || Ascii.eqb c "E" then
        let '(neg, body) := take_sign s' in
        let '(ds, rest) := span is_digit body in
        match ds, rest with
        | String _ _, EmptyString =>
            Some (if neg then - digits_value 0 ds else digits_value 0 ds)
        | _, _ => None
        end
      else None
  end.

(** [float(s)]: blanks around are ignored, then a sign, then [inf],
    [infinity] or [nan] in any case, or a decimal literal with at least one
    digit and an optional exponent.  Too large a literal gives an infinity. *)
Definition float_of_string (s : string) : result float :=
  match drop_underscores "000" (strip_of is_c_space s) with
  | None => Raise ValueError
  | Some t =>
      let '(neg, body) := take_sign t in
      let word := lower body in
      if bool_decide (word = "inf") || bool_decide (word = "infinity") then
        Ok (if neg then neg_infinity else infinity)
      else if bool_decide (word = "nan") then Ok nan
      else
        let '(ip, r1) := span is_digit body in
        let '(fp, r2) :=
          match r1 with
          | String "." r => span is_digit r
          | _ => (EmptyString, r1)
          end in
        match ip +:+ fp with
        | EmptyString => Raise ValueError
        | ds =>
            match read_exponent r2 with
            | Some ex => Ok (float_of_decimal neg (digits_value 0 ds) (ex - string_length fp))
            | None => Raise ValueError
            end
        end
  end.

(** [float(n)] for an [int]: the nearest binary64, an error when that is
    beyond the largest finite one. *)
Definition float_of_int (z : Z) : result float :=
  match binary_normalize prec emax z 0 false with
  | S754_infinity _ => Raise OverflowError
  | sf => Ok (SF2Prim sf)
  end.

(** The builtin [float(x)]. *)
Definition float_of (v : pyval) : result float :=
  match v with
  | VNone => Raise TypeError
  | VStr s => float_of_string s
  | VInt z => float_of_int z
  | VFloat f => Ok f
  end.

(** Truth value of a [float]: false exactly for the two zeros. *)
Definition float_truthy (f : float) : bool := negb (PrimFloat.eqb f 0).

(** ** Calendar dates, as in [datetime] *)

Record date : Type := Date { year : Z; month : Z; day : Z }.

Global Instance date_eq_dec : EqDecision date.
Proof. solve_decision. Defined.

Definition MINYEAR : Z := 1.
Definition MAXYEAR : Z := 9999.
Definition MAXORDINAL : Z := 3652059.

Definition is_leap (y : Z) : bool :=
  (y mod 4 =? 0) && (negb (y mod 100 =? 0) || (y mod 400 =? 0)).

Definition days_before_year (y : Z) : Z :=
  let y' := y - 1 in y' * 365 + y' / 4 - y' / 100 + y' / 400.

Definition DAYS_IN_MONTH : list Z := [31; 28; 31; 30; 31; 30; 31; 31; 30; 31; 30; 31].
Definition DAYS_BEFORE_MONTH : list Z :=
  [0; 31; 59; 90; 120; 151; 181; 212; 243; 273; 304; 334].

(** The two tables are indexed by month, from 1. *)
Definition month_entry (table : list Z) (m : Z) : Z :=
  default 0 (table !! Z.to_nat (m - 1)).

Definition days_in_month (y m : Z) : Z :=
  if (m =? 2) && is_leap y then 29 else month_entry DAYS_IN_MONTH m.

Definition days_before_month (y m : Z) : Z :=
  month_entry DAYS_BEFORE_MONTH m + (if (2 <? m) && is_leap y then 1 else 0).

Definition ymd2ord (y m d : Z) : Z :=
  days_before_year y + days_before_month y m + d.

Definition DI400Y : Z := days_before_year 401.
Definition DI100Y : Z := days_before_year 101.
Definition DI4Y : Z := days_before_year 5.

Definition ord2ymd (n : Z) : date :=
  let n := n - 1 in
  let n400 := n / DI400Y in
  let n := n mod DI400Y in
  let y := n400 * 400 + 1 in
  let n100 := n / DI100Y in
  let n := n mod DI100Y in
  let n4 := n / DI4Y in
  let n := n mod DI4Y in
  let n1 := n / 365 in
  let n := n mod 365 in
  let y := y + n100 * 100 + n4 * 4 + n1 in
  if (n1 =? 4) || (n100 =? 4) then Date (y - 1) 12 31
  else
    let leapyear := (n1 =? 3) && (negb (n4 =? 24) || (n100 =? 3)) in
    let m := Z.shiftr (n + 50) 5 in
    let preceding :=
      month_entry DAYS_BEFORE_MONTH m + (if (2 <? m) && leapyear then 1 else 0) in
    if n <? preceding then
      let m := m - 1 in
      let preceding :=
        preceding - (month_entry DAYS_IN_MONTH m + (if (m =? 2) && leapyear then 1 else 0)) in
      Date y m (n - preceding + 1)
    else Date y m (n - preceding + 1).

(** The constructor [date(y, m, d)] checks its fields. *)
Definition date_new (y m d : Z) : result date :=
  if (MINYEAR <=? y) && (y <=? MAXYEAR) && (1 <=? m) && (m <=? 12)
     && (1 <=? d) && (d <=? days_in_month y m)
  then Ok (Date y m d) else Raise ValueError.

Definition toordinal (d : date) : Z := ymd2ord (year d) (month d) (day d).

(** ** [timedelta(days=x)] for a float [x] *)

(** The integral part of a finite float, towards zero. *)
Definition trunc_float (x : float) : Z :=
  match Prim2SF x with
  | S754_finite s m e =>
      let a := if 0 <=? e then Zpos m * 2 ^ e else Zpos m / 2 ^ (- e) in
      if s then - a else a
  | _ => 0
  end.

(** An integer that has a binary64 representation, as that float. *)
Definition float_of_Z (z : Z) : float :=
  SF2Prim (binary_normalize prec emax z 0 false).

Definition US_PER_DAY : Z := 86400000000.
Definition MAX_DELTA_DAYS : Z := 999999999.

Record timedelta : Type := Timedelta { td_days : Z; td_seconds : Z; td_microseconds : Z }.

(** The number of microseconds the constructor accumulates for [days=x]:
    the whole days exactly, the fraction of a day through one float product,
    and what is left of that rounded to the nearest microsecond, a half to
    the even total. *)
Definition microseconds_of_days (x : float) : result Z :=
  if is_nan x then Raise ValueError
  else if is_infinity x then Raise OverflowError
  else
    let whole := trunc_float x in
    let sum := whole * US_PER_DAY in
    let frac := PrimFloat.sub x (float_of_Z whole) in
    if PrimFloat.eqb frac 0 then Ok sum
    else
      let dnum := PrimFloat.mul (float_of_Z US_PER_DAY) frac in
      let us := trunc_float dnum in
      let leftover := PrimFloat.sub dnum (float_of_Z us) in
      let total := sum + us in
      let nudge :=
        if PrimFloat.eqb leftover 0.5 then (if Z.odd total then 1 else 0)
        else if PrimFloat.eqb leftover (-0.5) then (if Z.odd total then -1 else 0)
        else if PrimFloat.ltb 0.5 leftover then 1
        else if PrimFloat.ltb leftover (-0.5) then -1
        else 0 in
      Ok (total + nudge).

Definition timedelta_of_days (x : float) : result timedelta :=
  us ← microseconds_of_days x;
  let d := us / US_PER_DAY in
  let r := us mod US_PER_DAY in
  if (- MAX_DELTA_DAYS <=? d) && (d <=? MAX_DELTA_DAYS)
  then Ok (Timedelta d (r / 1000000) (r mod 1000000))
  else Raise OverflowError.

(** [(datetime(y, m, d) + delta).date()] for a midnight [datetime]. *)
Definition add_days (base : date) (delta : timedelta) : result date :=
  let n := toordinal base + td_days delta in
  if (1 <=? n) && (n <=? MAXORDINAL) then Ok (ord2ymd n) else Raise OverflowError.

(** ** [datetime.strptime] for formats of [%Y], [%m], [%d] and literals *)

Inductive directive : Type :=
  | DirY
  | DirM
  | DirD
  | Lit (c : ascii).

Record fields : Type := Fields { f_year : Z; f_month : Z; f_day : Z }.

(** What [%Y] can read at the head of [s]: four digits. *)
Definition year_alts (s : string) : list (Z * string) :=
  match s with
  | String a (String b (String c (String d r))) =>
      if is_digit a && is_digit b && is_digit c && is_digit d
      then [(digits_value 0 (String a (String b (String c (String d "")))), r)]
      else []
  | _ => []
  end.

Definition in_range (c : ascii) (lo hi : Z) : bool := (lo <=? code c) && (code c <=? hi).

(** What [%m] can read, in the order the pattern [1[0-2]|0[1-9]|[1-9]]
    tries its branches. *)
Definition month_alts (s : string) : list (Z * string) :=
  match s with
  | String a r =>
      (match r with
       | String b r' =>
           (if Ascii.eqb a "1" && in_range b 48 50 then [(10 + digit_value b, r')] else [])
           ++ (if Ascii.eqb a "0" && in_range b 49 57 then [(digit_value b, r')] else [])
       | EmptyString => []
       end)
      ++ (if in_range a 49 57 then [(digit_value a, r)] else [])
  | EmptyString => []
  end.

(** What [%d] can read, in the order of [3[0-1]|[1-2]\d|0[1-9]|[1-9]| [1-9]]. *)
Definition day_alts (s : string) : list (Z * string) :=
  match s with
  | String a r =>
      (match r with
       | String b r' =>
           (if Ascii.eqb a "3" && in_range b 48 49 then [(30 + digit_value b, r')] else [])
           ++ (if in_range a 49 50 && is_digit b
               then [(10 * digit_value a + digit_value b, r')] else [])
           ++ (if Ascii.eqb a "0" && in_range b 49 57 then [(digit_value b, r')] else [])
       | EmptyString => []
       end)
      ++ (if in_range a 49 57 then [(digit_value a, r)] else [])
      ++ (match r with
          | String b r' =>
              if Ascii.eqb a " " && in_range b 49 57 then [(digit_value b, r')] else []
          | EmptyString => []
          end)
  | EmptyString => []
  end.

(** The first alternative that works, as a backtracking matcher finds it. *)
Fixpoint first_some {A B} (f : A → option B) (l : list A) : option B :=
  match l with
  | [] => None
  | x :: l' => match f x with Some y => Some y | None => first_some f l' end
  end.

(** The match of the format's pattern at the head of [s]: the fields read
    and the unread rest. *)
Fixpoint match_format (fmt : list directive) (s : string) (acc : fields)
  : option (fields * string) :=
  match fmt with
  | [] => Some (acc, s)
  | Lit c :: fmt' =>
      match s with
      | String a s' => if Ascii.eqb a c then match_format fmt' s' acc else None
      | EmptyString => None
      end
  | DirY :: fmt' =>
      first_some (fun '(v, r) => match_format fmt' r (Fields v (f_month acc) (f_day acc)))
                 (year_alts s)
  | DirM :: fmt' =>
      first_some (fun '(v, r) => match_format fmt' r (Fields (f_year acc) v (f_day acc)))
                 (month_alts s)
  | DirD :: fmt' =>
      first_some (fun '(v, r) => match_format fmt' r (Fields (f_year acc) (f_month acc) v))
                 (day_alts s)
  end.

(** [datetime.strptime(s, fmt).date()]: the pattern must match, leave
    nothing unread, and the fields must make a date. *)
Definition strptime (s : string) (fmt : list directive) : result date :=
  match match_format fmt s (Fields 1900 1 1) with
  | Some (f, EmptyString) => date_new (f_year f) (f_month f) (f_day f)
  | _ => Raise ValueError
  end.

End Py.

(** * The script *)
Module BuildTables.
Import Py.

(** ** The worksheet parts, as the XML parser hands them over *)

(** A [<c>] element: its [r] and [t] attributes, the text of its first [<v>]
    child when it has one, and the text of every [<t>] below its first
    [<is>] child when it has one. *)
Record cell_elem : Type := Cell {
  c_r : option string;
  c_t : option string;
  c_v : option (option string);
  c_is : option (list (option string))
}.

(** A workbook: the [<si>] entries of the shared-string part when the
    archive has one (each with the text of its [<t>] elements), and the
    [<row>] elements of the two worksheets. *)
Record workbook : Type := Workbook {
  wb_shared_strings : option (list (list (option string)));
  wb_sheet1 : list (list cell_elem);
  wb_sheet2 : list (list cell_elem)
}.

Abbreviation grid := (list (list (option string))).
Abbreviation record := (gmap string (option string)).

(** [for x in l: st = body(st, x)], stopping at the first exception. *)
Fixpoint for_each {A S} (body : S → A → result S) (l : list A) (st : S) : result S :=
  match l with
  | [] => Ok st
  | x :: l' => st' ← body st x; for_each body l' st'
  end.

(** [l[i]] for a Python list: a negative index counts from the end. *)
Definition list_index {A} (l : list A) (i : Z) : result A :=
  let n := Z.of_nat (length l) in
  let j := if i <? 0 then i + n else i in
  if (0 <=? j) && (j <? n) then
    match l !! Z.to_nat j with
    | Some x => Ok x
    | None => Raise IndexError
    end
  else Raise IndexError.

(** ** Cell grid decoding *)

Definition col_to_idx (col : string) : Z :=
  (fix go (idx : Z) (s : string) : Z :=
     match s with
     | EmptyString => idx
     | String ch s' => go (idx * 26 + (code ch - 64)) s'
     end) 0 col - 1.

Definition text_runs (ts : list (option string)) : string :=
  join "" (or_empty <$> ts).

Definition parse_shared_strings (part : option (list (list (option string)))) : list string :=
  match part with
  | None => []
  | Some sis => text_runs <$> sis
  end.

(** The value a cell resolves to, by its type attribute. *)
Definition cell_value (shared_strings : list string) (cell : cell_elem)
  : result (option string) :=
  if bool_decide (c_t cell = Some "s") then
    match c_v cell with
    | Some (Some text) =>
        i ← int_of_string text;
        s ← list_index shared_strings i;
        Ok (Some s)
    | _ => Ok None
    end
  else if bool_decide (c_t cell = Some "inlineStr") then
    match c_is cell with
    | Some ts => Ok (Some (text_runs ts))
    | None => Ok None
    end
  else
    match c_v cell with
    | Some text => Ok text
    | None => Ok None
    end.

(** One cell of a row: [row_values] and [max_col] after it. *)
Definition parse_cell (shared_strings : list string)
    (st : gmap Z (option string) * Z) (cell : cell_elem)
  : result (gmap Z (option string) * Z) :=
  let '(row_values, max_col) := st in
  match c_r cell with
  | None | Some EmptyString => Ok st
  | Some cell_ref =>
      match fst (span is_upper cell_ref) with
      | EmptyString => Raise AttributeError
      | col_letters =>
          let col_idx := col_to_idx col_letters in
          value ← cell_value shared_strings cell;
          Ok (<[col_idx := value]> row_values, Z.max max_col col_idx)
      end
  end.

Definition dense_row (row_values : gmap Z (option string)) (max_col : Z)
  : list (option string) :=
  (fun i => default None (row_values !! i)) <$> seqZ 0 (max_col + 1).

Definition parse_row (shared_strings : list string) (rows : grid)
    (row : list cell_elem) : result grid :=
  '(row_values, max_col) ← for_each (parse_cell shared_strings) row (∅, -1);
  if bool_decide (row_values = ∅) then Ok rows
  else Ok (rows ++ [dense_row row_values max_col]).

Definition parse_sheet (part : option (list (list (option string))))
    (sheet : list (list cell_elem)) : result grid :=
  let shared_strings := parse_shared_strings part in
  for_each (parse_row shared_strings) sheet [].

(** ** Record projection *)

Definition normalize_header (value : option string) : string :=
  match value with
  | None | Some EmptyString => ""
  | Some v => join " " (split v)
  end.

(** [row[idx] if idx < len(row) else None] *)
Definition row_at (row : list (option string)) (idx : nat) : option string :=
  default None (row !! idx).

(** The inner loop over [enumerate(headers)], from position [idx] on. *)
Fixpoint fill_record (idx : nat) (headers : list string) (row : list (option string))
    (row_dict : record) : record :=
  match headers with
  | [] => row_dict
  | header :: rest =>
      fill_record (S idx) rest row
        (if bool_decide (header = "") then row_dict
         else <[header := row_at row idx]> row_dict)
  end.

Definition rows_to_dicts (rows : grid) : result (list record) :=
  match rows with
  | [] => Raise IndexError
  | first :: data =>
      let headers := normalize_header <$> first in
      Ok ((fun row => fill_record 0 headers row ∅) <$> data)
  end.

(** [row.get(key)]: absent keys and empty cells both read as [None]. *)
Definition get (row : record) (key : string) : option string :=
  default None (row !! key).

(** [(row.get(key) or "").strip()] *)
Definition get_text (row : record) (key : string) : string :=
  strip (or_empty (get row key)).

(** ** Value coercion *)

Definition to_float (value : pyval) : result float :=
  match value with
  | VNone => Ok 0%float
  | VStr s =>
      let cleaned := strip (remove_char "," s) in
      if bool_decide (cleaned = "") then Ok 0%float
      else try_except [ValueError] (float_of_string cleaned) (Ok 0%float)
  | _ => try_except [TypeError; ValueError] (float_of value) (Ok 0%float)
  end.

(** The pattern [^-?\d+(\.\d+)?$]; [$] also matches before a last newline. *)
Definition is_serial (s : string) : bool :=
  let body := match s with String "-" s' => s' | _ => s end in
  let '(ip, r1) := span is_digit body in
  let at_end (r : string) :=
    bool_decide (r = "") || bool_decide (r = String "010" "") in
  negb (bool_decide (ip = "")) &&
  (at_end r1 ||
   match r1 with
   | String "." r =>
       let '(fp, r2) := span is_digit r in
       negb (bool_decide (fp = "")) && at_end r2
   | _ => false
   end).

Definition FORMATS : list (list directive) :=
  [ [DirY; Lit "-"; DirM; Lit "-"; DirD];
    [DirM; Lit "/"; DirD; Lit "/"; DirY];
    [DirD; Lit "/"; DirM; Lit "/"; DirY];
    [DirY; Lit "/"; DirM; Lit "/"; DirD] ].

Definition EPOCH : date := Date 1899 12 30.

(** [for fmt in fmts: try: return strptime(...) except ValueError: continue],
    then [otherwise]. *)
Fixpoint try_formats (fmts : list (list directive)) (cleaned : string)
    (otherwise : result (option date)) : result (option date) :=
  match fmts with
  | [] => otherwise
  | fmt :: rest =>
      try_except [ValueError] (Some <$> strptime cleaned fmt)
                 (try_formats rest cleaned otherwise)
  end.

Section Runtime.

(** Two library functions are left open, since what they return is fixed by
    the interpreter and not by the script: [datetime.fromisoformat] on a
    [str], which gives a date or raises [ValueError] ([None] here), and
    [repr] of a [float], which [csv] writes for a number. *)
Context (fromisoformat : string → option date) (float_repr : float → string).

(** The serial-date attempt: [Ok (Some d)] when it returns [d], [Ok None]
    when control passes to the textual formats. *)
Definition serial_date (cleaned : string) : result (option date) :=
  try_except [ValueError]
    (if is_serial cleaned then
       serial ← float_of_string cleaned;
       delta ← timedelta_of_days serial;
       d ← add_days EPOCH delta;
       Ok (Some d)
     else Ok None)
    (Ok None).

Definition parse_date (value : pyval) : result (option date) :=
  match value with
  | VNone => Ok None
  | VStr s =>
      let cleaned := strip s in
      if bool_decide (cleaned = "") then Ok None
      else
        r ← serial_date cleaned;
        match r with
        | Some d => Ok (Some d)
        | None =>
            try_formats FORMATS cleaned
              (match fromisoformat cleaned with
               | Some d => Ok (Some d)
               | None => Ok None
               end)
        end
  | VInt z =>
      x ← float_of_int z;
      delta ← timedelta_of_days x;
      d ← add_days EPOCH delta;
      Ok (Some d)
  | VFloat x =>
      delta ← timedelta_of_days x;
      d ← add_days EPOCH delta;
      Ok (Some d)
  end.

Definition classify_customer (customer_name : option string) : string :=
  match customer_name with
  | Some (String a s) =>
      if contains "ethos" (lower (String a s)) then "Internal" else "External"
  | _ => "External"
  end.

(** ** The files written and the outcome of a run *)

Record io (A : Type) : Type := IO {
  written : list (string * string);
  outcome : result A
}.
Global Arguments IO {A} written outcome.
Global Arguments written {A} i.
Global Arguments outcome {A} i.

Global Instance io_ret : MRet io := fun _ a => IO [] (Ok a).
Global Instance io_bind : MBind io := fun _ _ f m =>
  match outcome m with
  | Ok a => IO (written m ++ written (f a)) (outcome (f a))
  | Raise e => IO (written m) (Raise e)
  end.

(** A computation that writes nothing. *)
Definition lift {A} (r : result A) : io A := IO [] r.

(** ** The report writer *)

Inductive csv_cell : Type :=
  | CStr (s : string)
  | CFloat (f : float)
  | CInt (z : Z).

Definition QUOTE : ascii := "034".
Definition NEWLINE : string := String "010" "".

(** A field is quoted when it holds the delimiter, the quote character or a
    character of the line terminator; a quote inside is doubled. *)
Fixpoint needs_quotes (s : string) : bool :=
  match s with
  | EmptyString => false
  | String a s' =>
      Ascii.eqb a "," || Ascii.eqb a QUOTE || Ascii.eqb a "010" || needs_quotes s'
  end.

Fixpoint double_quotes (s : string) : string :=
  match s with
  | EmptyString => EmptyString
  | String a s' =>
      if Ascii.eqb a QUOTE then String a (String a (double_quotes s'))
      else String a (double_quotes s')
  end.

Definition csv_text_field (s : string) : string :=
  if needs_quotes s then String QUOTE (double_quotes s +:+ String QUOTE "") else s.

Definition csv_field (c : csv_cell) : string :=
  match c with
  | CStr s => csv_text_field s
  | CFloat f => csv_text_field (float_repr f)
  | CInt z => csv_text_field (pretty z)
  end.

(** [writer.writerow(row)] with the line terminator of the script. *)
Definition csv_line (row : list csv_cell) : string :=
  join "," (csv_field <$> row) +:+ NEWLINE.

Definition csv_text (headers : list string) (rows : list (list csv_cell)) : string :=
  csv_line (CStr <$> headers) +:+ join "" (csv_line <$> rows).

Definition write_csv (path : string) (headers : list string)
    (rows : list (list csv_cell)) : io unit :=
  IO [(path, csv_text headers rows)] (Ok tt).

(** ** Sorting the items of a dictionary by key *)

(** Python compares tuples at the first position where they differ. *)
Definition lex_leb {A B} `{EqDecision A} (le1 : A → A → bool) (le2 : B → B → bool)
    (x y : A * B) : bool :=
  if bool_decide (x.1 = y.1) then le2 x.2 y.2 else le1 x.1 y.1.

Definition pair_leb : string * string → string * string → bool :=
  lex_leb String.leb String.leb.

Definition triple_leb : string * Z * string → string * Z * string → bool :=
  lex_leb (lex_leb String.leb Z.leb) String.leb.

Definition by_key {K V} (leb : K → K → bool) : relation (K * V) :=
  fun x y => Is_true (leb x.1 y.1).

(** [sorted(d.items())]: the keys of a dictionary are distinct, so that the
    comparison of two items is decided by their keys. *)
Definition sorted_items {K V} `{Countable K} (leb : K → K → bool) (d : gmap K V)
  : list (K * V) :=
  merge_sort (by_key leb) (map_to_list d).

(** ** [round(x, 2)] *)

(** The integer nearest to [n / d], a half to the even one. *)
Definition div_half_even (n d : Z) : Z :=
  let q := n / d in
  match 2 * (n mod d) ?= d with
  | Lt => q
  | Gt => q + 1
  | Eq => if Z.even q then q else q + 1
  end.

(** The float nearest to the two-decimal number nearest to [x]. *)
Definition round2 (x : float) : float :=
  match Prim2SF x with
  | S754_finite s m e =>
      let hundredths :=
        if 0 <=? e then Zpos m * 2 ^ e * 100
        else div_half_even (Zpos m * 100) (2 ^ (- e)) in
      float_of_decimal s hundredths (-2)
  | _ => x
  end.

Definition nonempty (s : string) : bool := negb (bool_decide (s = "")).

(** ** Inventory totals *)

Definition inventory_step (inventory_totals : gmap (string * string) float)
    (row : record) : result (gmap (string * string) float) :=
  let site := get_text row "Site" in
  let part_no := get_text row "Part No" in
  onhand_qty ← to_float (of_cell (get row "Onhand Qty"));
  if nonempty site && nonempty part_no then
    Ok (<[(site, part_no) :=
            PrimFloat.add (default 0%float (inventory_totals !! (site, part_no))) onhand_qty]>
          inventory_totals)
  else Ok inventory_totals.

Definition inventory_output_rows (inventory_totals : gmap (string * string) float)
  : list (list csv_cell) :=
  (fun '((site, part), qty) => [CStr site; CStr part; CFloat qty])
    <$> sorted_items pair_leb inventory_totals.

(** ** The year filter and the per-order sums *)

(** A record of the working set: the cells of the row and the entries the
    script adds to it under [_parsed_year], [_revenue_gbp] and, in the second
    pass, [_cost_alloc_usd].  None of these keys is read as a cell. *)
Record sales_row : Type := SalesRow {
  sr_cells : record;
  sr_parsed_year : Z;
  sr_revenue_gbp : float;
  sr_cost_alloc_usd : option float
}.

Record sales_state : Type := SalesState {
  sales_filtered : list sales_row;
  order_revenue : gmap string float;
  order_cost : gmap string float
}.

Definition order_year (row : record) : result (option Z) :=
  date_value ← parse_date (of_cell (get row "Order Creation Date"));
  Ok (match date_value with
      | Some d => Some (year d)
      | None => None
      end).

Definition in_window (y : Z) : bool := negb ((y <? 2019) || (2025 <? y)).

Definition sales_step (st : sales_state) (row : record) : result sales_state :=
  y ← order_year row;
  match y with
  | None => Ok st
  | Some y =>
      if negb (in_window y) then Ok st
      else
        revenue_gbp ← to_float (of_cell (get row "Revenue (£££)"));
        let order_number := get_text row "Sales Order Number" in
        sums ←
          (if nonempty order_number then
             cost_value ← to_float (or_zero (get row "(As Sold Cost) $"));
             Ok (<[order_number :=
                     PrimFloat.add (default 0%float (order_revenue st !! order_number))
                                   revenue_gbp]> (order_revenue st),
                 match order_cost st !! order_number with
                 | None =>
                     if float_truthy cost_value
                     then <[order_number := cost_value]> (order_cost st)
                     else order_cost st
                 | Some _ => order_cost st
                 end)
           else Ok (order_revenue st, order_cost st));
        Ok (SalesState (sales_filtered st ++ [SalesRow row y revenue_gbp None])
                       sums.1 sums.2)
  end.

Definition sales_loop (sales : list record) : result sales_state :=
  for_each sales_step sales (SalesState [] ∅ ∅).

(** ** Cost allocation *)

Definition cost_alloc (order_revenue order_cost : gmap string float)
    (row : sales_row) : float :=
  let order_number := get_text (sr_cells row) "Sales Order Number" in
  let revenue_gbp := sr_revenue_gbp row in
  let total_revenue := default 0%float (order_revenue !! order_number) in
  let cost_total := default 0%float (order_cost !! order_number) in
  if PrimFloat.ltb 0 total_revenue
  then PrimFloat.mul cost_total (PrimFloat.div revenue_gbp total_revenue)
  else 0%float.

Definition allocate (st : sales_state) : list sales_row :=
  (fun row =>
     SalesRow (sr_cells row) (sr_parsed_year row) (sr_revenue_gbp row)
              (Some (cost_alloc (order_revenue st) (order_cost st) row)))
    <$> sales_filtered st.

(** [row.get("_cost_alloc_usd", 0.0)] *)
Definition get_cost_alloc (row : sales_row) : float :=
  default 0%float (sr_cost_alloc_usd row).

(** ** Part-level pareto *)

Record part_group : Type := PartGroup {
  pg_revenue_gbp : float;
  pg_units : float;
  pg_customers : gset string;
  pg_internal_revenue_gbp : float;
  pg_external_revenue_gbp : float;
  pg_internal_units : float;
  pg_external_units : float;
  pg_internal_customers : gset string;
  pg_external_customers : gset string;
  pg_cost_alloc_usd : float
}.

Definition new_part_group : part_group :=
  PartGroup 0 0 ∅ 0 0 0 0 ∅ ∅ 0.

(** The updates of a group by one row: the sums, the sets of customers, and
    their split by the class of the customer. *)
Definition add_to_part_group (group : part_group) (revenue_gbp qty : float)
    (customer_name : string) (cost_alloc_usd : float) : part_group :=
  let customer_type := classify_customer (Some customer_name) in
  let internal := bool_decide (customer_type = "Internal") in
  PartGroup
    (PrimFloat.add (pg_revenue_gbp group) revenue_gbp)
    (PrimFloat.add (pg_units group) qty)
    ({[customer_name]} ∪ pg_customers group)
    (if internal then PrimFloat.add (pg_internal_revenue_gbp group) revenue_gbp
     else pg_internal_revenue_gbp group)
    (if internal then pg_external_revenue_gbp group
     else PrimFloat.add (pg_external_revenue_gbp group) revenue_gbp)
    (if internal then PrimFloat.add (pg_internal_units group) qty
     else pg_internal_units group)
    (if internal then pg_external_units group
     else PrimFloat.add (pg_external_units group) qty)
    (if internal then {[customer_name]} ∪ pg_internal_customers group
     else pg_internal_customers group)
    (if internal then pg_external_customers group
     else {[customer_name]} ∪ pg_external_customers group)
    (PrimFloat.add (pg_cost_alloc_usd group) cost_alloc_usd).

Definition part_step (part_groups : gmap (string * string) part_group)
    (row : sales_row) : result (gmap (string * string) part_group) :=
  let site := get_text (sr_cells row) "Site" in
  let part_no := get_text (sr_cells row) "Part Number" in
  if negb (nonempty site) || negb (nonempty part_no) then Ok part_groups
  else
    let key := (site, part_no) in
    let group := default new_part_group (part_groups !! key) in
    let revenue_gbp := sr_revenue_gbp row in
    qty ← to_float (of_cell (get (sr_cells row) "Qty Shipped"));
    let customer_name := get_text (sr_cells row) "Customer Name" in
    Ok (<[key := add_to_part_group group revenue_gbp qty customer_name
                   (get_cost_alloc row)]> part_groups).

Definition len (s : gset string) : Z := Z.of_nat (size s).

Definition part_row (inventory_totals : gmap (string * string) float)
    (item : string * string * part_group) : list csv_cell :=
  let '((site, part_no), group) := item in
  let onhand_qty := default 0%float (inventory_totals !! (site, part_no)) in
  [ CStr site;
    CStr part_no;
    CFloat (round2 (pg_revenue_gbp group));
    CFloat (round2 (pg_units group));
    CInt (len (pg_customers group));
    CFloat (round2 (pg_internal_revenue_gbp group));
    CFloat (round2 (pg_external_revenue_gbp group));
    CFloat (round2 (pg_internal_units group));
    CFloat (round2 (pg_external_units group));
    CInt (len (pg_internal_customers group));
    CInt (len (pg_external_customers group));
    CFloat (round2 onhand_qty);
    CFloat (round2 (pg_cost_alloc_usd group));
    CStr "";
    CStr "" ].

Definition part_rows (inventory_totals : gmap (string * string) float)
    (part_groups : gmap (string * string) part_group) : list (list csv_cell) :=
  part_row inventory_totals <$> sorted_items pair_leb part_groups.

(** ** Customer-level pareto *)

Record customer_group : Type := CustomerGroup {
  cg_revenue_gbp : float;
  cg_units : float;
  cg_opportunities : gset string;
  cg_cost_alloc_usd : float
}.

Definition new_customer_group : customer_group := CustomerGroup 0 0 ∅ 0.

Definition customer_step (customer_groups : gmap (string * string) customer_group)
    (row : sales_row) : result (gmap (string * string) customer_group) :=
  let site := get_text (sr_cells row) "Site" in
  let customer_name := get_text (sr_cells row) "Customer Name" in
  if negb (nonempty site) || negb (nonempty customer_name) then Ok customer_groups
  else
    let key := (site, customer_name) in
    let group := default new_customer_group (customer_groups !! key) in
    let revenue_gbp := sr_revenue_gbp row in
    qty ← to_float (of_cell (get (sr_cells row) "Qty Shipped"));
    let opportunity := get_text (sr_cells row) "Saleforce Oppurtunity" in
    Ok (<[key := CustomerGroup
            (PrimFloat.add (cg_revenue_gbp group) revenue_gbp)
            (PrimFloat.add (cg_units group) qty)
            (if nonempty opportunity then {[opportunity]} ∪ cg_opportunities group
             else cg_opportunities group)
            (PrimFloat.add (cg_cost_alloc_usd group) (get_cost_alloc row))]>
          customer_groups).

Definition customer_row (item : string * string * customer_group) : list csv_cell :=
  let '((site, customer_name), group) := item in
  [ CStr site;
    CStr customer_name;
    CStr (classify_customer (Some customer_name));
    CFloat (round2 (cg_revenue_gbp group));
    CFloat (round2 (cg_units group));
    CInt (len (cg_opportunities group));
    CFloat (round2 (cg_cost_alloc_usd group));
    CStr "";
    CStr "" ].

Definition customer_rows (customer_groups : gmap (string * string) customer_group)
  : list (list csv_cell) :=
  customer_row <$> sorted_items pair_leb customer_groups.

(** ** Customer counts by site, year and part *)

Record count_group : Type := CountGroup {
  ng_customers : gset string;
  ng_internal_customers : gset string;
  ng_external_customers : gset string
}.

Definition new_count_group : count_group := CountGroup ∅ ∅ ∅.

Definition count_step (customer_counts : gmap (string * Z * string) count_group)
    (row : sales_row) : gmap (string * Z * string) count_group :=
  let site := get_text (sr_cells row) "Site" in
  let part_no := get_text (sr_cells row) "Part Number" in
  let y := sr_parsed_year row in
  let customer_name := get_text (sr_cells row) "Customer Name" in
  if negb (nonempty site) || negb (nonempty part_no) || (y =? 0)
     || negb (nonempty customer_name)
  then customer_counts
  else
    let key := (site, y, part_no) in
    let group := default new_count_group (customer_counts !! key) in
    let internal :=
      bool_decide (classify_customer (Some customer_name) = "Internal") in
    <[key := CountGroup
        ({[customer_name]} ∪ ng_customers group)
        (if internal then {[customer_name]} ∪ ng_internal_customers group
         else ng_internal_customers group)
        (if internal then ng_external_customers group
         else {[customer_name]} ∪ ng_external_customers group)]>
      customer_counts.

Definition count_row (item : string * Z * string * count_group) : list csv_cell :=
  let '((site, y, part_no), group) := item in
  [ CStr site;
    CInt y;
    CStr part_no;
    CInt (len (ng_customers group));
    CInt (len (ng_internal_customers group));
    CInt (len (ng_external_customers group)) ].

Definition count_rows (customer_counts : gmap (string * Z * string) count_group)
  : list (list csv_cell) :=
  count_row <$> sorted_items triple_leb customer_counts.

(** ** The entry point *)

Definition INVENTORY_HEADERS : list string := ["Site"; "Part No"; "Onhand Qty"].
Definition PART_HEADERS : list string :=
  [ "Site"; "Part Number"; "Revenue_GBP"; "Units"; "Customer_Count";
    "Internal_Revenue_GBP"; "External_Revenue_GBP"; "Internal_Units";
    "External_Units"; "Internal_Customer_Count"; "External_Customer_Count";
    "Onhand_Qty"; "Cost_Allocated_USD"; "Revenue_USD"; "Margin_USD" ].
Definition CUSTOMER_HEADERS : list string :=
  [ "Site"; "Customer Name"; "Customer_Type"; "Revenue_GBP"; "Units";
    "Opportunity_Count"; "Cost_Allocated_USD"; "Revenue_USD"; "Margin_USD" ].
Definition COUNT_HEADERS : list string :=
  [ "Site"; "Year"; "Part Number"; "Customer_Count"; "Internal_Customer_Count";
    "External_Customer_Count" ].

Definition INVENTORY_PATH : string := "outputs/Inventory_Normalized.csv".
Definition PART_PATH : string := "outputs/part_level_pareto.csv".
Definition CUSTOMER_PATH : string := "outputs/customer_level_pareto.csv".
Definition COUNT_PATH : string := "outputs/customer_counts_by_site_year_part.csv".

(** The four tables, from the working set and the inventory totals. *)
Definition part_table (inventory_totals : gmap (string * string) float)
    (rows : list sales_row) : result (list (list csv_cell)) :=
  part_rows inventory_totals <$> for_each part_step rows ∅.

Definition customer_table (rows : list sales_row) : result (list (list csv_cell)) :=
  customer_rows <$> for_each customer_step rows ∅.

Definition count_table (rows : list sales_row) : list (list csv_cell) :=
  count_rows (foldl count_step ∅ rows).

(** [main] from the point where both sheets are lists of records. *)
Definition reports (sales inventory : list record) : io unit :=
  inventory_totals ← lift (for_each inventory_step inventory ∅);
  write_csv INVENTORY_PATH INVENTORY_HEADERS (inventory_output_rows inventory_totals);;
  st ← lift (sales_loop sales);
  let working_set := allocate st in
  part ← lift (part_table inventory_totals working_set);
  write_csv PART_PATH PART_HEADERS part;;
  customer ← lift (customer_table working_set);
  write_csv CUSTOMER_PATH CUSTOMER_HEADERS customer;;
  write_csv COUNT_PATH COUNT_HEADERS (count_table working_set).

(** [main] once the archive is open and its parts are parsed as XML. *)
Definition main (wb : workbook) : io unit :=
  sales_rows ← lift (parse_sheet (wb_shared_strings wb) (wb_sheet1 wb));
  inventory_rows ← lift (parse_sheet (wb_shared_strings wb) (wb_sheet2 wb));
  sales ← lift (rows_to_dicts sales_rows);
  inventory ← lift (rows_to_dicts inventory_rows);
  reports sales inventory.

(** ** The vocabulary of the statements *)

(** The coerced number of a value on which [to_float] returns. *)
Definition coerced (v : pyval) : float :=
  match to_float v with
  | Ok f => f
  | Raise _ => 0%float
  end.

(** What the loop reads from a record. *)
Definition order_of (row : record) : string := get_text row "Sales Order Number".
Definition line_revenue (row : record) : float :=
  coerced (of_cell (get row "Revenue (£££)")).
Definition line_cost (row : record) : float :=
  coerced (or_zero (get row "(As Sold Cost) $")).

(** The line items of an order among some records, in their order. *)
Definition order_lines (o : string) (rows : list record) : list record :=
  List.filter (fun row => bool_decide (order_of row = o)) rows.

(** Python's running sum [0.0 + x1 + x2 + ...]. *)
Definition float_sum (l : list float) : float := foldl PrimFloat.add 0%float l.

(** One iteration of the loop on each of the two dictionaries. *)
Definition revenue_after (m : gmap string float) (row : record) : gmap string float :=
  if nonempty (order_of row)
  then <[order_of row := PrimFloat.add (default 0%float (m !! order_of row)) (line_revenue row)]> m
  else m.

Definition cost_after (m : gmap string float) (row : record) : gmap string float :=
  if nonempty (order_of row) then
    match m !! order_of row with
    | None => if float_truthy (line_cost row) then <[order_of row := line_cost row]> m else m
    | Some _ => m
    end
  else m.

(** Whether the loop keeps a record: its order date coerces to a date whose
    year is in the window. *)
Definition kept (row : record) : bool :=
  match order_year row with
  | Ok (Some y) => in_window y
  | _ => false
  end.

Definition parsed_year (row : record) : Z :=
  match order_year row with
  | Ok (Some y) => y
  | _ => 0
  end.

(** The record as the loop adds it to the working set. *)
Definition keep (row : record) : sales_row :=
  SalesRow row (parsed_year row) (line_revenue row) None.

Definition coerces (row : record) : Prop :=
  is_ok (order_year row) = true.


(** The key a data row starts with. *)
Definition row_key2 (row : list csv_cell) : string * string :=
  match row with
  | CStr a :: CStr b :: _ => (a, b)
  | _ => ("", "")
  end.

Definition row_key3 (row : list csv_cell) : string * Z * string :=
  match row with
  | CStr a :: CInt y :: CStr b :: _ => (a, y, b)
  | _ => ("", 0, "")
  end.

(** A cell the decoder can resolve: when it has a reference, the reference
    starts with a column letter, and a shared-string cell holds an index of
    the table. *)
Definition cell_decodes (shared_strings : list string) (cell : cell_elem) : Prop :=
  ∀ ref, c_r cell = Some ref → ref ≠ "" →
    fst (span is_upper ref) ≠ "" ∧
    (c_t cell = Some "s" →
     ∀ text, c_v cell = Some (Some text) →
       ∃ i, int_of_string text = Ok i ∧ 0 ≤ i < Z.of_nat (length shared_strings)).

Definition part_key (row : sales_row) : string * string :=
  (get_text (sr_cells row) "Site", get_text (sr_cells row) "Part Number").

Definition line_qty (row : record) : float :=
  coerced (of_cell (get row "Qty Shipped")).
Definition customer_of (row : record) : string := get_text row "Customer Name".

(** A sales record of site S1 and part P1 with a given revenue, quantity and
    class of customer. *)
Definition line_is (row : record) (revenue qty : float) (class : string) : Prop :=
  get_text row "Site" = "S1" ∧ get_text row "Part Number" = "P1" ∧
  line_revenue row = revenue ∧ line_qty row = qty ∧
  classify_customer (Some (customer_of row)) = class.

(** The part-level row of the end-to-end example. *)
Definition example_part_row : list csv_cell :=
  [ CStr "S1"; CStr "P1"; CFloat 150; CFloat 15; CInt 2;
    CFloat 100; CFloat 50; CFloat 10; CFloat 5; CInt 1; CInt 1;
    CFloat 20; CFloat 30; CStr ""; CStr "" ].

End Runtime.


(** A workbook with two sales rows of one order and one inventory row. *)
Definition text_cell (ref s : string) : cell_elem :=
  Cell (Some ref) (Some "inlineStr") None (Some [Some s]).
Definition number_cell (ref s : string) : cell_elem :=
  Cell (Some ref) None (Some (Some s)) None.

Definition example_sales_sheet : list (list cell_elem) :=
  [ [ text_cell "A1" "Site"; text_cell "B1" "Part Number";
      text_cell "C1" "Sales Order Number"; text_cell "D1" "Order Creation Date";
      text_cell "E1" "Revenue (£££)"; text_cell "F1" "Qty Shipped";
      text_cell "G1" "Customer Name"; text_cell "H1" "(As Sold Cost) $" ];
    [ text_cell "A2" "S1"; text_cell "B2" "P1"; text_cell "C2" "SO-1";
      text_cell "D2" "2024-03-01"; number_cell "E2" "100"; number_cell "F2" "10";
      text_cell "G2" "Ethos Ltd"; number_cell "H2" "30" ];
    [ text_cell "A3" "S1"; text_cell "B3" "P1"; text_cell "C3" "SO-1";
      text_cell "D3" "2024-03-02"; number_cell "E3" "50"; number_cell "F3" "5";
      text_cell "G3" "Acme"; number_cell "H3" "30" ] ].

Definition example_inventory_sheet : list (list cell_elem) :=
  [ [ text_cell "A1" "Site"; text_cell "B1" "Part No"; text_cell "C1" "Onhand Qty" ];
    [ text_cell "A2" "S1"; text_cell "B2" "P1"; number_cell "C2" "20" ] ].

Definition example_workbook : workbook :=
  Workbook None example_sales_sheet example_inventory_sheet.


(** Instances of the two library functions for the closed examples below,
    none of which depends on what they return. *)
Definition iso_none : string → option date := fun _ => None.
Definition repr_none : float → string := fun _ => "".

(** The value of a computation that returned. *)
Definition from_ok {A} (d : A) (r : result A) : A :=
  match r with
  | Ok a => a
  | Raise _ => d
  end.

Definition final_state (sales : list record) : sales_state :=
  from_ok (SalesState [] ∅ ∅) (sales_loop iso_none sales).

(** Sales records for the examples. *)
Definition sales_record (date order revenue cost : string) : record :=
  list_to_map
    [ ("Order Creation Date", Some date); ("Sales Order Number", Some order);
      ("Revenue (£££)", Some revenue); ("(As Sold Cost) $", Some cost);
      ("Site", Some "S1"); ("Part Number", Some "P1") ].

Definition two_line_order : list record :=
  [ sales_record "2024-03-01" "SO-1" "60" "10";
    sales_record "2024-03-02" "SO-1" "40" "10" ].

Definition dated_sales : list record :=
  [ sales_record "2018-12-31" "A" "1" "1";
    sales_record "2019-01-01" "B" "2" "2";
    sales_record "2025-12-31" "C" "3" "3";
    sales_record "2026-01-01" "D" "4" "4";
    sales_record "" "E" "5" "5" ].

Definition costed_order : list record :=
  [ sales_record "2024-01-05" "SO-9" "10" "0";
    sales_record "2024-01-06" "SO-9" "10" "7";
    sales_record "2024-01-07" "SO-9" "10" "9" ].

Definition part_line (revenue qty customer cost : string) : record :=
  list_to_map
    [ ("Order Creation Date", Some "2024-03-01"); ("Sales Order Number", Some " SO-1 ");
      ("Revenue (£££)", Some revenue); ("(As Sold Cost) $", Some cost);
      ("Site", Some "S1"); ("Part Number", Some " P1"); ("Qty Shipped", Some qty);
      ("Customer Name", Some customer) ].

Definition inventory_line : record :=
  list_to_map [ ("Site", Some "S1 "); ("Part No", Some "P1"); ("Onhand Qty", Some "20.0") ].

Definition shared_sheet : list (list cell_elem) :=
  [ [ Cell (Some "A1") (Some "s") (Some (Some "0")) None;
      Cell (Some "B1") (Some "s") (Some (Some "1")) None ] ].

Definition shared_part : option (list (list (option string))) :=
  Some [ [Some "Site"]; [Some "Part "; Some "No"] ].

Definition duplicate_first : list (option string) := [Some "A"; Some "B"; Some " A "].
Definition duplicate_data : grid := [ [Some "1"; Some "2"; Some "3"]; [Some "4"] ].

(** ** The vocabulary of the decoder and of the projector *)

(** A string of capital letters only, as the pattern [[A-Z]+] matches it. *)
Fixpoint all_upper (s : string) : bool :=
  match s with
  | EmptyString => true
  | String a s' => is_upper a && all_upper s'
  end.

(** A cell the decoder does not skip: it has a non-empty reference. *)
Definition referenced (cell : cell_elem) : bool :=
  match c_r cell with
  | Some (String _ _) => true
  | _ => false
  end.

(** The column index the decoder computes for a cell: that of the capital
    letters its reference starts with. *)
Definition cell_col (cell : cell_elem) : Z :=
  col_to_idx (fst (span is_upper (or_empty (c_r cell)))).

(** The largest column index among the referenced cells of a [<row>]
    element, -1 when there is none. *)
Definition max_column (cells : list cell_elem) : Z :=
  foldr Z.max (-1) (cell_col <$> List.filter referenced cells).

(** The referenced cells of an element that stand in column [i], in their
    order. *)
Definition cells_at (i : Z) (cells : list cell_elem) : list cell_elem :=
  List.filter (fun cell => referenced cell && (cell_col cell =? i)) cells.

(** What a row of the grid is, in terms of the cells of its element: its
    width, and what each of its positions holds. *)
Definition row_width (cells : list cell_elem) (r : list (option string)) : Prop :=
  r ≠ [] ∧ length r = Z.to_nat (max_column cells + 1).

Definition row_content (shared_strings : list string) (cells : list cell_elem)
    (r : list (option string)) : Prop :=
  ∀ i : nat, (i < length r)%nat →
    match last (cells_at (Z.of_nat i) cells) with
    | Some cell => ∃ v, cell_value shared_strings cell = Ok v ∧ r !! i = Some v
    | None => r !! i = Some None
    end.

(** A string without a blank character. *)
Fixpoint no_blank (s : string) : bool :=
  match s with
  | EmptyString => true
  | String a s' => negb (is_space a) && no_blank s'
  end.

(** A word as [str.split] produces it: not empty, no blank in it. *)
Definition is_word (s : string) : Prop := s ≠ "" ∧ no_blank s = true.

(** ** The vocabulary of the grouping loops *)

(** The four aggregates are built by loops of one shape: a record that is
    taken updates the group of its key, and a key that has no group yet
    starts from a fresh one ([defaultdict(float)] for the inventory,
    [setdefault] with a new group for the other three).  [group_step] is one
    iteration of such a loop. *)
Definition group_step {K V R} `{Countable K} (key : R → K) (valid : R → bool)
    (add : V → R → V) (init : V) (m : gmap K V) (row : R) : gmap K V :=
  if valid row then <[key row := add (default init (m !! key row)) row]> m else m.

(** The records such a loop takes for a key, and the records of a key, in
    their order. *)
Definition group_lines {K R} `{EqDecision K} (key : R → K) (valid : R → bool)
    (k : K) (rows : list R) : list R :=
  List.filter (fun row => valid row && bool_decide (key row = k)) rows.

Definition lines_of {K R} `{EqDecision K} (key : R → K) (k : K) (rows : list R) : list R :=
  List.filter (fun row => bool_decide (key row = k)) rows.

(** A pair of two non-blank texts: [site and part_no]. *)
Definition keyed (k : string * string) : bool := nonempty k.1 && nonempty k.2.

(** The inventory loop: the key of a record, its quantity, and what it adds
    to the total of its key. *)
Definition inventory_key (row : record) : string * string :=
  (get_text row "Site", get_text row "Part No").
Definition onhand (row : record) : float := coerced (of_cell (get row "Onhand Qty")).
Definition add_onhand (total : float) (row : record) : float :=
  PrimFloat.add total (onhand row).

(** What the loops over the working set read from a record. *)
Definition row_customer (row : sales_row) : string := customer_of (sr_cells row).
Definition row_qty (row : sales_row) : float := line_qty (sr_cells row).
Definition opportunity_of (row : sales_row) : string :=
  get_text (sr_cells row) "Saleforce Oppurtunity".
Definition is_internal (row : sales_row) : bool :=
  bool_decide (classify_customer (Some (row_customer row)) = "Internal").
Definition is_external (row : sales_row) : bool := negb (is_internal row).

(** The part loop: what a record adds to the group of its key. *)
Definition add_part_line (group : part_group) (row : sales_row) : part_group :=
  add_to_part_group group (sr_revenue_gbp row) (row_qty row) (row_customer row)
    (get_cost_alloc row).

(** The customer loop: the key of a record, and what it adds to the group
    of its key. *)
Definition customer_key (row : sales_row) : string * string :=
  (get_text (sr_cells row) "Site", row_customer row).
Definition add_customer_line (group : customer_group) (row : sales_row)
  : customer_group :=
  CustomerGroup
    (PrimFloat.add (cg_revenue_gbp group) (sr_revenue_gbp row))
    (PrimFloat.add (cg_units group) (row_qty row))
    (if nonempty (opportunity_of row)
     then {[opportunity_of row]} ∪ cg_opportunities group
     else cg_opportunities group)
    (PrimFloat.add (cg_cost_alloc_usd group) (get_cost_alloc row)).

(** The counting loop: the key of a record, the records it takes (site,
    part, year and customer all truthy), and what a record adds to the group
    of its key. *)
Definition count_key (row : sales_row) : string * Z * string :=
  (get_text (sr_cells row) "Site", sr_parsed_year row,
   get_text (sr_cells row) "Part Number").
Definition counted (row : sales_row) : bool :=
  nonempty (get_text (sr_cells row) "Site")
  && nonempty (get_text (sr_cells row) "Part Number")
  && negb (sr_parsed_year row =? 0)
  && nonempty (row_customer row).
Definition add_count_line (group : count_group) (row : sales_row) : count_group :=
  CountGroup
    ({[row_customer row]} ∪ ng_customers group)
    (if is_internal row then {[row_customer row]} ∪ ng_internal_customers group
     else ng_internal_customers group)
    (if is_internal row then ng_external_customers group
     else {[row_customer row]} ∪ ng_external_customers group).

(** ** Further examples *)

(** A sheet whose first row skips a column, whose second row has no
    referenced cell, and whose third row has two cells for one column. *)
Definition gapped_sheet : list (list cell_elem) :=
  [ [ text_cell "A1" "Site"; text_cell "C1" "Qty" ];
    [ Cell None None (Some (Some "x")) None ];
    [ number_cell "B3" "1"; number_cell "B3" "2" ] ].

(** A workbook whose sales sheet holds a serial date beyond the calendar. *)
Definition overflow_workbook : workbook :=
  Workbook None
    [ [ text_cell "A1" "Order Creation Date" ]; [ number_cell "A2" "3000000" ] ]
    [ [ text_cell "A1" "Site" ] ].

(** A workbook whose two sheets have a header row and no data row. *)
Definition header_workbook : workbook :=
  Workbook None [[text_cell "A1" "Site"]] [[text_cell "B1" "Part No"]].

(** Sales records of one order, site and part, with a customer and an
    opportunity. *)
Definition customer_line (customer opportunity : string) : record :=
  list_to_map
    [ ("Order Creation Date", Some "2024-03-01"); ("Sales Order Number", Some "SO-1");
      ("Revenue (£££)", Some "10"); ("Site", Some "S1"); ("Part Number", Some "P1");
      ("Customer Name", Some customer); ("Saleforce Oppurtunity", Some opportunity) ].

Definition counted_sales : list record :=
  [ customer_line "Ethos Ltd" "OP-1"; customer_line "Acme" ""; customer_line "" "OP-2" ].

(** The rows of the part and customer reports on these records. *)
Definition counted_part_row : list csv_cell :=
  [ CStr "S1"; CStr "P1"; CFloat 30; CFloat 0; CInt 3; CFloat 10; CFloat 20;
    CFloat 0; CFloat 0; CInt 1; CInt 2; CFloat 0; CFloat 0; CStr ""; CStr "" ].
Definition counted_acme_row : list csv_cell :=
  [ CStr "S1"; CStr "Acme"; CStr "External"; CFloat 10; CFloat 0; CInt 0;
    CFloat 0; CStr ""; CStr "" ].
Definition counted_ethos_row : list csv_cell :=
  [ CStr "S1"; CStr "Ethos Ltd"; CStr "Internal"; CFloat 10; CFloat 0; CInt 1;
    CFloat 0; CStr ""; CStr "" ].

(** * Properties *)

(** ** Numeric coercion *)

Lemma float_of_string_raises (s : string) (e : exn) :
  float_of_string s = Raise e → e = ValueError.
Proof.
  unfold float_of_string.
  repeat (case_match; try congruence).
Qed.

Lemma try_value_error_ok (r : result float) (d : float) :
  (∀ e, r = Raise e → e = ValueError) →
  ∃ f, try_except [ValueError] r (Ok d) = Ok f.
Proof.
  intros Hr. destruct r as [f|e]; simpl; [by eexists|].
  rewrite (Hr e eq_refl). by eexists.
Qed.

Lemma to_float_str (s : string) : ∃ f, to_float (VStr s) = Ok f.
Proof.
  unfold to_float. case_bool_decide; [by eexists|].
  apply try_value_error_ok, float_of_string_raises.
Qed.

Lemma to_float_of_cell (c : option string) :
  to_float (of_cell c) = Ok (coerced (of_cell c)).
Proof.
  unfold coerced. destruct c as [s|]; [|done].
  simpl of_cell. by destruct (to_float_str s) as [f ->].
Qed.

Lemma to_float_or_zero (c : option string) :
  to_float (or_zero c) = Ok (coerced (or_zero c)).
Proof.
  unfold coerced. destruct c as [[|a s]|]; try done.
  simpl or_zero. by destruct (to_float_str (String a s)) as [f ->].
Qed.

(** C6. The numeric coercion returns a number on every [Optional[str]]:
    0.0 for an absent value; for text, with every comma removed and the
    blanks around trimmed, 0.0 when nothing is left, the number read when
    the text is a float literal and 0.0 when it is not.  So "1,234.50" gives
    1234.5, and the empty text, "abc" and an absent value give 0.0.  A value
    that is a number already comes back as it is: a float unchanged, an
    integer as the float it converts to (the script passes the integer 0). *)
Theorem to_float_spec :
  (∀ c : option string, ∃ f, to_float (of_cell c) = Ok f) ∧
  to_float VNone = Ok 0%float ∧
  (∀ s, strip (remove_char "," s) = "" → to_float (VStr s) = Ok 0%float) ∧
  (∀ s f, strip (remove_char "," s) ≠ "" →
     float_of_string (strip (remove_char "," s)) = Ok f →
     to_float (VStr s) = Ok f) ∧
  (∀ s e, float_of_string (strip (remove_char "," s)) = Raise e →
     to_float (VStr s) = Ok 0%float) ∧
  to_float (VStr "1,234.50") = Ok 1234.5%float ∧
  to_float (VStr "") = Ok 0%float ∧
  to_float (VStr "abc") = Ok 0%float ∧
  (∀ f, to_float (VFloat f) = Ok f) ∧
  (∀ z f, float_of_int z = Ok f → to_float (VInt z) = Ok f) ∧
  to_float (VInt 0) = Ok 0%float.
Proof.
  split_and!.
  - intros c. rewrite to_float_of_cell. by eexists.
  - done.
  - intros s Hs. unfold to_float. by rewrite bool_decide_eq_true_2.
  - intros s f Hs Hf. unfold to_float.
    rewrite bool_decide_eq_false_2 by done. by rewrite Hf.
  - intros s e He. unfold to_float. case_bool_decide; [done|].
    rewrite He, (float_of_string_raises _ _ He). done.
  - by vm_compute.
  - by vm_compute.
  - by vm_compute.
  - done.
  - intros z f Hz. unfold to_float, float_of. by rewrite Hz.
  - by vm_compute.
Qed.

(** ** Column letters and customer classes *)

Lemma col_to_idx_examples :
  col_to_idx "A" = 0 ∧ col_to_idx "Z" = 25 ∧ col_to_idx "AA" = 26 ∧ col_to_idx "AB" = 27.
Proof. by vm_compute. Qed.

Lemma classify_customer_examples :
  classify_customer (Some "Ethos Ltd") = "Internal" ∧
  classify_customer (Some "ACME ETHOS") = "Internal" ∧
  classify_customer (Some "my ethos") = "Internal" ∧
  classify_customer (Some "Acme") = "External" ∧
  classify_customer (Some "") = "External" ∧
  classify_customer None = "External".
Proof. by vm_compute. Qed.

(** A name is internal exactly when its lower-case form holds "ethos". *)
Lemma classify_customer_internal (name : string) :
  classify_customer (Some name) = "Internal" ↔ contains "ethos" (lower name) = true.
Proof.
  unfold classify_customer. destruct name as [|a name]; [done|].
  by destruct (contains _ _).
Qed.

(** ** Date coercion *)

Lemma strptime_raises (s : string) (fmt : list directive) (e : exn) :
  strptime s fmt = Raise e → e = ValueError.
Proof.
  unfold strptime, date_new.
  repeat (case_match; try congruence).
Qed.

Lemma try_formats_ok (fmts : list (list directive)) (cleaned : string)
    (otherwise : result (option date)) :
  is_ok otherwise = true → is_ok (try_formats fmts cleaned otherwise) = true.
Proof.
  intros Ho. induction fmts as [|fmt rest IH]; simpl; [done|].
  destruct (strptime cleaned fmt) as [d|e] eqn:E; simpl; [done|].
  by rewrite (strptime_raises _ _ _ E).
Qed.

Section DateCoercion.
Context (fromisoformat : string → option date).

Lemma serial_date_not_serial (cleaned : string) :
  is_serial cleaned = false → serial_date cleaned = Ok None.
Proof. intros Hs. unfold serial_date. by rewrite Hs. Qed.

Lemma parse_date_text (s : string) :
  strip s ≠ "" → is_serial (strip s) = false →
  parse_date fromisoformat (VStr s) =
  try_formats FORMATS (strip s)
    (match fromisoformat (strip s) with
     | Some d => Ok (Some d)
     | None => Ok None
     end).
Proof.
  intros Hne Hs. unfold parse_date.
  rewrite bool_decide_eq_false_2 by done.
  by rewrite serial_date_not_serial.
Qed.

(** Text that is not a serial number always coerces: to the date of the
    first format that reads it, to what the ISO parser makes of it, or to no
    date. *)
Lemma parse_date_text_ok (s : string) :
  is_serial (strip s) = false →
  is_ok (parse_date fromisoformat (VStr s)) = true.
Proof.
  intros Hs. destruct (decide (strip s = "")) as [He|Hne].
  - unfold parse_date. by rewrite bool_decide_eq_true_2.
  - rewrite parse_date_text by done.
    apply try_formats_ok. by destruct (fromisoformat _).
Qed.

Lemma parse_date_unmatched (s : string) :
  is_serial (strip s) = false →
  (∀ fmt, fmt ∈ FORMATS → strptime (strip s) fmt = Raise ValueError) →
  fromisoformat (strip s) = None →
  parse_date fromisoformat (VStr s) = Ok None.
Proof.
  intros Hs Hf Hi. destruct (decide (strip s = "")) as [He|Hne].
  - unfold parse_date. by rewrite bool_decide_eq_true_2.
  - rewrite parse_date_text by done. unfold FORMATS. cbn [try_formats].
    rewrite !Hf by (unfold FORMATS; set_solver). by rewrite Hi.
Qed.

(** What the specification says of date coercion on the inputs it names:
    these hold. *)
Lemma parse_date_examples :
  parse_date fromisoformat VNone = Ok None ∧
  parse_date fromisoformat (VStr "") = Ok None ∧
  parse_date fromisoformat (VStr "   ") = Ok None ∧
  parse_date fromisoformat (VStr "1") = Ok (Some (Date 1899 12 31)) ∧
  parse_date fromisoformat (VStr "45000") = Ok (Some (Date 2023 3 15)) ∧
  parse_date fromisoformat (VStr "2024-03-01") = Ok (Some (Date 2024 3 1)) ∧
  parse_date fromisoformat (VStr "03/01/2024") = Ok (Some (Date 2024 3 1)) ∧
  parse_date fromisoformat (VStr "13/01/2024") = Ok (Some (Date 2024 1 13)) ∧
  parse_date fromisoformat (VStr "2024/03/01") = Ok (Some (Date 2024 3 1)).
Proof. split_and!; vm_compute; reflexivity. Qed.

(** C7. The date coercion is not total.  A cell of the date column that
    holds the serial number 3000000 matches the numeric pattern; the day
    that many days after 1899-12-30 lies after the year 9999, so adding the
    days to the epoch raises [OverflowError], and the handler around the
    serial attempt catches [ValueError] only: the exception leaves
    [parse_date], where the specification has it return no date. *)
Theorem parse_date_serial_overflow :
  is_serial "3000000" = true ∧
  parse_date fromisoformat (VStr "3000000") = Raise OverflowError ∧
  parse_date fromisoformat (VStr "-700000") = Raise OverflowError.
Proof. split_and!; vm_compute; reflexivity. Qed.

End DateCoercion.

(** ** The sales loop *)

Lemma nonempty_true (s : string) : nonempty s = true ↔ s ≠ "".
Proof. unfold nonempty. case_bool_decide; simpl; split; congruence. Qed.

Lemma nonempty_false (s : string) : nonempty s = false ↔ s = "".
Proof. unfold nonempty. case_bool_decide; simpl; split; congruence. Qed.

Lemma revenue_after_blank (rows : list record) (m : gmap string float) :
  foldl revenue_after m rows !! "" = m !! "".
Proof.
  revert m. induction rows as [|row rows IH]; intros m; simpl; [done|].
  rewrite IH. unfold revenue_after.
  destruct (nonempty (order_of row)) eqn:E; [|done].
  apply nonempty_true in E. by rewrite lookup_insert_ne.
Qed.

Lemma cost_after_blank (rows : list record) (m : gmap string float) :
  foldl cost_after m rows !! "" = m !! "".
Proof.
  revert m. induction rows as [|row rows IH]; intros m; simpl; [done|].
  rewrite IH. unfold cost_after.
  destruct (nonempty (order_of row)) eqn:E; [|done].
  apply nonempty_true in E.
  destruct (m !! order_of row); [done|].
  destruct (float_truthy _); [|done]. by rewrite lookup_insert_ne.
Qed.

(** The total the loop holds for an order is the running sum of the
    revenues of its line items. *)
Lemma revenue_after_total (rows : list record) (m : gmap string float) (o : string) :
  o ≠ "" →
  default 0%float (foldl revenue_after m rows !! o) =
  foldl PrimFloat.add (default 0%float (m !! o)) (line_revenue <$> order_lines o rows).
Proof.
  intros Ho. revert m. induction rows as [|row rows IH]; intros m; simpl; [done|].
  rewrite IH. unfold revenue_after.
  case_bool_decide as Hrow; simpl.
  - rewrite Hrow. rewrite (proj2 (nonempty_true o) Ho).
    by rewrite lookup_insert_eq.
  - destruct (nonempty (order_of row)); [|done].
    by rewrite lookup_insert_ne.
Qed.

(** An order has a total exactly when it has a line item. *)
Lemma revenue_after_is_Some (rows : list record) (m : gmap string float) (o : string) :
  o ≠ "" →
  is_Some (foldl revenue_after m rows !! o) ↔ is_Some (m !! o) ∨ order_lines o rows ≠ [].
Proof.
  intros Ho. revert m. induction rows as [|row rows IH]; intros m; simpl.
  - split; [by left|intros [H|H]; done].
  - rewrite IH. unfold revenue_after.
    case_bool_decide as Hrow; simpl.
    + rewrite Hrow, (proj2 (nonempty_true o) Ho), lookup_insert_eq.
      split; [by right|by left].
    + destruct (nonempty (order_of row)); [|done].
      by rewrite lookup_insert_ne.
Qed.

(** The cost the loop holds for an order is the one it held before, or else
    the first cost with a true truth value among the order's line items. *)
Lemma cost_after_first (rows : list record) (m : gmap string float) (o : string) :
  o ≠ "" →
  foldl cost_after m rows !! o =
  match m !! o with
  | Some c => Some c
  | None => head (List.filter float_truthy (line_cost <$> order_lines o rows))
  end.
Proof.
  intros Ho. revert m. induction rows as [|row rows IH]; intros m; simpl.
  - by destruct (m !! o).
  - rewrite IH. unfold cost_after.
    case_bool_decide as Hrow; simpl.
    + rewrite Hrow, (proj2 (nonempty_true o) Ho).
      destruct (m !! o) as [c|] eqn:Hm; [by rewrite Hm|].
      destruct (float_truthy (line_cost row)) eqn:Ht.
      * by rewrite lookup_insert_eq.
      * by rewrite Hm.
    + destruct (nonempty (order_of row)); [|done].
      destruct (m !! order_of row); [done|].
      destruct (float_truthy _); [|done].
      by rewrite lookup_insert_ne.
Qed.

Section SalesLoop.
Context (fromisoformat : string → option date).

Lemma kept_iff (row : record) :
  kept fromisoformat row = true ↔
  ∃ y, order_year fromisoformat row = Ok (Some y) ∧ 2019 ≤ y ≤ 2025.
Proof.
  unfold kept, in_window.
  destruct (order_year fromisoformat row) as [[y|]|e].
  - split.
    + intros H. exists y. split; [done|]. lia.
    + intros (y' & [= <-] & Hy). apply negb_true_iff, orb_false_iff. lia.
  - split; [done|]. by intros (y & Hy & _).
  - split; [done|]. by intros (y & Hy & _).
Qed.

Lemma sales_step_eq (st : sales_state) (row : record) :
  sales_step fromisoformat st row =
  match order_year fromisoformat row with
  | Raise e => Raise e
  | Ok _ =>
      Ok (if kept fromisoformat row
          then SalesState (sales_filtered st ++ [keep fromisoformat row])
                 (revenue_after (order_revenue st) row)
                 (cost_after (order_cost st) row)
          else st)
  end.
Proof.
  unfold sales_step, kept, keep, parsed_year, revenue_after, cost_after.
  destruct (order_year fromisoformat row) as [[y|]|e]; simpl; try done.
  destruct (in_window y); simpl; [|done].
  rewrite to_float_of_cell. simpl. fold (order_of row). fold (line_revenue row).
  destruct (nonempty (order_of row)); simpl; [|done].
  rewrite to_float_or_zero. simpl. done.
Qed.

Lemma for_each_sales_step (rows : list record) (st : sales_state) :
  Forall (coerces fromisoformat) rows →
  for_each (sales_step fromisoformat) rows st =
  Ok (SalesState (sales_filtered st ++ (keep fromisoformat <$> List.filter (kept fromisoformat) rows))
        (foldl revenue_after (order_revenue st) (List.filter (kept fromisoformat) rows))
        (foldl cost_after (order_cost st) (List.filter (kept fromisoformat) rows))).
Proof.
  intros Hrows. revert st.
  induction Hrows as [|row rows Hrow _ IH]; intros st; simpl.
  - rewrite app_nil_r. by destruct st.
  - rewrite sales_step_eq. unfold coerces in Hrow.
    destruct (order_year fromisoformat row) as [oy|e] eqn:E; [|done].
    simpl. rewrite IH. destruct (kept fromisoformat row); simpl; [|done].
    by rewrite <- app_assoc.
Qed.

Lemma for_each_sales_step_ok (rows : list record) (st st' : sales_state) :
  for_each (sales_step fromisoformat) rows st = Ok st' → Forall (coerces fromisoformat) rows.
Proof.
  revert st. induction rows as [|row rows IH]; intros st; simpl; [done|].
  rewrite sales_step_eq. unfold coerces.
  destruct (order_year fromisoformat row) as [oy|e] eqn:E; simpl; [|done].
  intros H. constructor; [by rewrite E|]. eauto.
Qed.

(** The state the loop ends in, in terms of the records it keeps. *)
Lemma sales_loop_result (sales : list record) (st : sales_state) :
  sales_loop fromisoformat sales = Ok st →
  st = SalesState (keep fromisoformat <$> List.filter (kept fromisoformat) sales)
         (foldl revenue_after ∅ (List.filter (kept fromisoformat) sales))
         (foldl cost_after ∅ (List.filter (kept fromisoformat) sales)).
Proof.
  unfold sales_loop. intros H.
  rewrite for_each_sales_step in H by eauto using for_each_sales_step_ok.
  by injection H as <-.
Qed.

Lemma sales_loop_filtered (sales : list record) :
  Forall (coerces fromisoformat) sales →
  sales_loop fromisoformat (List.filter (kept fromisoformat) sales) = sales_loop fromisoformat sales.
Proof.
  intros Hs. unfold sales_loop.
  assert (Forall (coerces fromisoformat) (List.filter (kept fromisoformat) sales)) as Hf.
  { apply Forall_forall. intros row Hin. apply list_elem_of_In, filter_In in Hin.
    rewrite Forall_forall in Hs. apply Hs, list_elem_of_In, Hin. }
  rewrite !for_each_sales_step by done.
  assert (List.filter (kept fromisoformat) (List.filter (kept fromisoformat) sales) = List.filter (kept fromisoformat) sales) as ->; [|done].
  clear. induction sales as [|row rows IH]; simpl; [done|].
  destruct (kept fromisoformat row) eqn:E; simpl; rewrite ?E; [f_equal|]; exact IH.
Qed.

(** The rows of the working set once costs are allocated. *)
Lemma allocate_result (sales : list record) (st : sales_state) :
  sales_loop fromisoformat sales = Ok st →
  allocate st =
  (fun row => SalesRow row (parsed_year fromisoformat row) (line_revenue row)
                (Some (cost_alloc (order_revenue st) (order_cost st) (keep fromisoformat row))))
    <$> List.filter (kept fromisoformat) sales.
Proof.
  intros H. unfold allocate.
  assert (sales_filtered st = keep fromisoformat <$> List.filter (kept fromisoformat) sales) as ->.
  { by rewrite (sales_loop_result _ _ H). }
  by rewrite <- list_fmap_compose.
Qed.

Lemma elem_of_allocate (sales : list record) (st : sales_state) (row : sales_row) :
  sales_loop fromisoformat sales = Ok st →
  row ∈ allocate st →
  sr_cells row ∈ sales ∧ kept fromisoformat (sr_cells row) = true ∧
  sr_parsed_year row = parsed_year fromisoformat (sr_cells row) ∧
  sr_revenue_gbp row = line_revenue (sr_cells row) ∧
  sr_cost_alloc_usd row = Some (cost_alloc (order_revenue st) (order_cost st) row).
Proof.
  intros H. rewrite (allocate_result _ _ H).
  intros (cells & -> & Hin)%list_elem_of_fmap.
  apply list_elem_of_In, filter_In in Hin as [Hin Hk].
  apply list_elem_of_In in Hin. done.
Qed.

End SalesLoop.

Lemma float_zero_not_positive (t : float) :
  PrimFloat.eqb t 0 = true → PrimFloat.ltb 0 t = false.
Proof.
  rewrite FloatAxioms.eqb_spec, FloatAxioms.ltb_spec.
  change (Prim2SF 0) with (S754_zero false).
  by destruct (Prim2SF t) as [[]|[]| |[] m e].
Qed.

Section Allocation.
Context (fromisoformat : string → option date).

(** The allocations of one order's line items, from their revenues. *)
Lemma allocated_lines (st : sales_state) (o : string) (rows : list record)
    (total cost : float) :
  default 0%float (order_revenue st !! o) = total →
  default 0%float (order_cost st !! o) = cost →
  sr_cost_alloc_usd <$>
    List.filter (fun row => bool_decide (order_of (sr_cells row) = o))
      ((fun row => SalesRow row (parsed_year fromisoformat row) (line_revenue row)
          (Some (cost_alloc (order_revenue st) (order_cost st) (keep fromisoformat row))))
         <$> rows)
  = (fun r => Some (if PrimFloat.ltb 0 total
                    then PrimFloat.mul cost (PrimFloat.div r total)
                    else 0%float))
      <$> (line_revenue <$> order_lines o rows).
Proof.
  intros Htotal Hcost. induction rows as [|row rows IH]; [done|]. simpl.
  case_bool_decide as Hrow; simpl; [|done].
  f_equal; [|exact IH]. unfold cost_alloc. simpl.
  fold (order_of row). by rewrite Hrow, Htotal, Hcost.
Qed.

(** C3. For an order with a non-blank trimmed number, the cost the loop
    records is the first coerced cost with a true truth value (nonzero)
    among the order's line items, in input order; the line items are those
    the loop reaches, the records whose order year is in the window.  A
    step of the loop never changes a cost that is recorded, and a line item
    whose cost is zero records nothing. *)
Theorem first_nonzero_cost_wins (sales : list record) (st : sales_state) (o : string) :
  sales_loop fromisoformat sales = Ok st →
  o ≠ "" →
  order_cost st !! o =
    head (List.filter float_truthy
            (line_cost <$> order_lines o (List.filter (kept fromisoformat) sales))) ∧
  (∀ st0 row st1 c,
     sales_step fromisoformat st0 row = Ok st1 →
     order_cost st0 !! o = Some c → order_cost st1 !! o = Some c) ∧
  (∀ st0 row st1,
     sales_step fromisoformat st0 row = Ok st1 →
     float_truthy (line_cost row) = false → order_cost st1 = order_cost st0).
Proof.
  intros H Ho. split_and!.
  - rewrite (sales_loop_result _ _ _ H). simpl.
    rewrite cost_after_first by done. by rewrite lookup_empty.
  - intros st0 row st1 c Hstep Hc. rewrite sales_step_eq in Hstep.
    destruct (order_year fromisoformat row); [|done].
    injection Hstep as <-. destruct (kept fromisoformat row); [|done].
    simpl. unfold cost_after.
    destruct (nonempty (order_of row)); [|done].
    destruct (order_cost st0 !! order_of row) eqn:E; [done|].
    destruct (float_truthy _); [|done].
    rewrite lookup_insert_ne; [done|]. intros Heq. rewrite Heq in E. congruence.
  - intros st0 row st1 Hstep Hz. rewrite sales_step_eq in Hstep.
    destruct (order_year fromisoformat row); [|done].
    injection Hstep as <-. destruct (kept fromisoformat row); [|done].
    simpl. unfold cost_after. rewrite Hz. by repeat case_match.
Qed.

(** C1. For every record of the working set, the allocated cost is the
    order's recorded cost times (the record's revenue over the order's total
    revenue) when that total is positive, and 0.0 otherwise; the total is
    the running sum of the revenues of the order's line items in the
    working set (0.0 for a record without an order number).  When an order
    has two line items of revenue 60 and 40 and cost 10, they are allocated
    6.0 and 4.0, which add up to 10.0; when an order's total is zero, every
    line item is allocated 0.0, whatever the cost. *)
Theorem allocation_spec (sales : list record) (st : sales_state) :
  sales_loop fromisoformat sales = Ok st →
  (∀ row, row ∈ allocate st →
     let o := order_of (sr_cells row) in
     let total := default 0%float (order_revenue st !! o) in
     let cost := default 0%float (order_cost st !! o) in
     total =
       (if nonempty o
        then float_sum (line_revenue <$> order_lines o (List.filter (kept fromisoformat) sales))
        else 0%float) ∧
     sr_revenue_gbp row = line_revenue (sr_cells row) ∧
     sr_cost_alloc_usd row =
       Some (if PrimFloat.ltb 0 total
             then PrimFloat.mul cost (PrimFloat.div (sr_revenue_gbp row) total)
             else 0%float) ∧
     (PrimFloat.eqb total 0 = true → sr_cost_alloc_usd row = Some 0%float)) ∧
  (∀ o, o ≠ "" →
     line_revenue <$> order_lines o (List.filter (kept fromisoformat) sales)
       = [60%float; 40%float] →
     order_cost st !! o = Some 10%float →
     sr_cost_alloc_usd <$>
       List.filter (fun row => bool_decide (order_of (sr_cells row) = o)) (allocate st)
       = [Some 6%float; Some 4%float] ∧
     PrimFloat.add 6 4 = 10%float).
Proof.
  intros H. split.
  - intros row Hrow o total cost.
    destruct (elem_of_allocate _ _ _ _ H Hrow) as (_ & _ & _ & Hrev & Halloc).
    assert (total =
      if nonempty o
      then float_sum (line_revenue <$> order_lines o (List.filter (kept fromisoformat) sales))
      else 0%float) as Htotal.
    { unfold total. rewrite (sales_loop_result _ _ _ H). simpl.
      destruct (nonempty o) eqn:E.
      - apply nonempty_true in E. rewrite revenue_after_total by done.
        by rewrite lookup_empty.
      - apply nonempty_false in E. rewrite E, revenue_after_blank.
        by rewrite lookup_empty. }
    split_and!; [done..| |].
    + rewrite Halloc. done.
    + intros Hz. rewrite Halloc. unfold cost_alloc.
      fold (order_of (sr_cells row)). fold o. fold total.
      by rewrite (float_zero_not_positive _ Hz).
  - intros o Ho Hlines Hcost. split; [|by vm_compute].
    rewrite (allocate_result _ _ _ H).
    assert (default 0%float (order_revenue st !! o) = 100%float) as Htotal.
    { rewrite (sales_loop_result _ _ _ H). simpl.
      rewrite revenue_after_total by done. rewrite Hlines. by vm_compute. }
    assert (default 0%float (order_cost st !! o) = 10%float) as Hcost'.
    { by rewrite Hcost. }
    rewrite (allocated_lines st o _ _ _ Htotal Hcost'), Hlines. by vm_compute.
Qed.

End Allocation.

(** ** Record projection *)

Lemma fill_record_absent (headers : list string) (row : list (option string))
    (idx : nat) (d : record) (h : string) :
  h ∉ headers → fill_record idx headers row d !! h = d !! h.
Proof.
  revert idx d. induction headers as [|x rest IH]; intros idx d Hh; simpl; [done|].
  apply not_elem_of_cons in Hh as [Hx Hrest].
  rewrite IH by done. case_bool_decide; [done|].
  by rewrite lookup_insert_ne.
Qed.

Lemma fill_record_rightmost (headers : list string) (row : list (option string))
    (idx : nat) (d : record) (h : string) (i : nat) :
  h ≠ "" →
  headers !! i = Some h →
  (∀ j, (i < j)%nat → headers !! j ≠ Some h) →
  fill_record idx headers row d !! h = Some (row_at row (idx + i)).
Proof.
  intros Hne. revert idx d i.
  induction headers as [|x rest IH]; intros idx d i Hi Hlast; [done|].
  destruct i as [|i]; simpl in *.
  - injection Hi as ->. rewrite fill_record_absent.
    + rewrite bool_decide_eq_false_2 by done.
      rewrite lookup_insert_eq. by rewrite Nat.add_0_r.
    + intros (j & Hj)%list_elem_of_lookup. by apply (Hlast (S j)); [lia|].
  - rewrite (IH (S idx) _ i Hi).
    + f_equal. f_equal. lia.
    + intros j Hj. apply (Hlast (S j)). lia.
Qed.

(** What a record holds under a name depends on the row only through the
    cells of the columns that have this name. *)
Lemma fill_record_same (headers : list string) (row row' : list (option string))
    (idx : nat) (d d' : record) (h : string) :
  d !! h = d' !! h →
  (∀ p, headers !! p = Some h → row_at row (idx + p) = row_at row' (idx + p)) →
  fill_record idx headers row d !! h = fill_record idx headers row' d' !! h.
Proof.
  revert idx d d'. induction headers as [|x rest IH]; intros idx d d' Hd Hrow; simpl; [done|].
  apply IH.
  - case_bool_decide; [done|].
    destruct (decide (h = x)) as [->|Hne].
    + rewrite !lookup_insert_eq. f_equal.
      specialize (Hrow 0%nat eq_refl). by rewrite Nat.add_0_r in Hrow.
    + by rewrite !lookup_insert_ne.
  - intros p Hp. specialize (Hrow (S p) Hp).
    by rewrite <- !Nat.add_succ_comm in Hrow.
Qed.

(** C10. When several columns have headers that normalize to the same
    non-blank name, every record maps that name to the cell that its row
    holds in the rightmost of these columns: to the value of that cell when
    the row reaches the column, to an absent value when the row is shorter.
    The cells of the columns of that name further left are discarded from
    every record: rows that differ in these cells only give the same
    records. *)
Theorem duplicate_header_rightmost (first : list (option string)) (data : grid)
    (h : string) (i : nat) :
  h ≠ "" →
  (normalize_header <$> first) !! i = Some h →
  (∀ j, (i < j)%nat → (normalize_header <$> first) !! j ≠ Some h) →
  ∃ records,
    rows_to_dicts (first :: data) = Ok records ∧
    length records = length data ∧
    (∀ k row, data !! k = Some row →
       ∃ r, records !! k = Some r ∧
         (∀ v, row !! i = Some v → r !! h = Some v) ∧
         ((length row ≤ i)%nat → r !! h = Some None)) ∧
    (∀ data',
       Forall2 (fun row row' : list (option string) =>
                  ∀ p, ((normalize_header <$> first) !! p = Some h → p = i) →
                       row !! p = row' !! p) data data' →
       rows_to_dicts (first :: data') = Ok records).
Proof.
  intros Hne Hi Hlast. eexists. split; [done|]. split_and!.
  - by rewrite length_fmap.
  - intros k row Hk. eexists. split.
    + rewrite list_lookup_fmap, Hk. done.
    + rewrite (fill_record_rightmost _ _ 0 _ h i) by done. cbn [Nat.add].
      unfold row_at. split.
      * intros v Hv. by rewrite Hv.
      * intros Hlen. by rewrite (lookup_ge_None_2 row i).
  - intros data' Hdata. unfold rows_to_dicts. f_equal.
    induction Hdata as [|row row' data data' Hrow _ IH]; [done|].
    rewrite !fmap_cons. f_equal; [|exact IH].
    apply map_eq. intros h'. destruct (decide (h' = h)) as [->|Hh'].
    + rewrite !(fill_record_rightmost _ _ 0 _ h i) by done.
      cbn [Nat.add]. unfold row_at. by rewrite (Hrow i).
    + apply fill_record_same; [done|].
      intros p Hp. cbn [Nat.add]. unfold row_at. rewrite (Hrow p); [done|].
      intros Hp'. rewrite Hp in Hp'. congruence.
Qed.

(** ** Cell grid decoding *)

Lemma for_each_total {A S} (body : S → A → result S) (l : list A) (st : S) :
  (∀ st x, x ∈ l → ∃ st', body st x = Ok st') →
  ∃ st', for_each body l st = Ok st'.
Proof.
  revert st. induction l as [|x l IH]; intros st Hbody; simpl; [by eexists|].
  destruct (Hbody st x) as [st' ->]; [by left|]. simpl.
  apply IH. intros st0 y Hy. apply Hbody. by right.
Qed.

Lemma list_index_in_range {A} (l : list A) (i : Z) (x : A) :
  0 ≤ i → l !! Z.to_nat i = Some x → list_index l i = Ok x.
Proof.
  intros Hi Hx. unfold list_index.
  pose proof (lookup_lt_Some _ _ _ Hx) as Hlt.
  assert ((i <? 0) = false) as -> by lia.
  assert ((0 <=? i) && (i <? Z.of_nat (length l)) = true) as -> by lia.
  by rewrite Hx.
Qed.

Lemma list_index_beyond {A} (l : list A) (i : Z) :
  Z.of_nat (length l) ≤ i → list_index l i = Raise IndexError.
Proof.
  intros Hi. unfold list_index.
  assert ((i <? 0) = false) as -> by lia.
  assert ((0 <=? i) && (i <? Z.of_nat (length l)) = false) as -> by lia.
  done.
Qed.

Lemma list_index_wraps {A} (l : list A) (i : Z) (x : A) :
  - Z.of_nat (length l) ≤ i < 0 →
  l !! Z.to_nat (i + Z.of_nat (length l)) = Some x →
  list_index l i = Ok x.
Proof.
  intros Hi Hx. unfold list_index.
  assert ((i <? 0) = true) as -> by lia.
  assert ((0 <=? i + Z.of_nat (length l))
          && (i + Z.of_nat (length l) <? Z.of_nat (length l)) = true) as -> by lia.
  by rewrite Hx.
Qed.

(** A shared-string cell whose index is in range resolves to the entry of
    the table at that index. *)
Lemma shared_string_in_range (shared_strings : list string) (cell : cell_elem)
    (text : string) (i : Z) (s : string) :
  c_t cell = Some "s" →
  c_v cell = Some (Some text) →
  int_of_string text = Ok i →
  0 ≤ i →
  shared_strings !! Z.to_nat i = Some s →
  cell_value shared_strings cell = Ok (Some s).
Proof.
  intros Ht Hv Hi Hpos Hs. unfold cell_value.
  rewrite bool_decide_eq_true_2 by done. rewrite Hv, Hi. simpl.
  by rewrite (list_index_in_range _ _ s).
Qed.

(** An index at or beyond the length of the table raises. *)
Lemma shared_string_beyond (shared_strings : list string) (cell : cell_elem)
    (text : string) (i : Z) :
  c_t cell = Some "s" →
  c_v cell = Some (Some text) →
  int_of_string text = Ok i →
  Z.of_nat (length shared_strings) ≤ i →
  cell_value shared_strings cell = Raise IndexError.
Proof.
  intros Ht Hv Hi Hbig. unfold cell_value.
  rewrite bool_decide_eq_true_2 by done. rewrite Hv, Hi. simpl.
  by rewrite list_index_beyond.
Qed.

Section Abort.
Context (fromisoformat : string → option date) (float_repr : float → string).

(** An exception while a sheet is decoded ends the run with nothing
    written. *)
Lemma main_aborts_on_sheet1 (wb : workbook) (e : exn) :
  parse_sheet (wb_shared_strings wb) (wb_sheet1 wb) = Raise e →
  main fromisoformat float_repr wb = IO [] (Raise e).
Proof. intros H. unfold main. by rewrite H. Qed.

Lemma main_aborts_on_sheet2 (wb : workbook) (e : exn) :
  is_ok (parse_sheet (wb_shared_strings wb) (wb_sheet1 wb)) = true →
  parse_sheet (wb_shared_strings wb) (wb_sheet2 wb) = Raise e →
  main fromisoformat float_repr wb = IO [] (Raise e).
Proof.
  intros H1 H2. unfold main.
  destruct (parse_sheet _ (wb_sheet1 wb)) as [g|]; [|done].
  by rewrite H2.
Qed.

End Abort.

(** C5. A shared-string cell whose stored index is negative is out of the
    range of a table that is indexed from 0, and the specification has decoding
    fail on it.  The script indexes the table with the number as it is
    read, and a Python list takes -1 for its last position: with the table
    ["alpha"; "beta"], the cell of index -1 decodes to "beta" and the sheet
    decodes to a grid, no error raised. *)
Theorem shared_string_negative_index :
  int_of_string "-1" = Ok (-1) ∧
  cell_value ["alpha"; "beta"] (Cell (Some "A1") (Some "s") (Some (Some "-1")) None)
    = Ok (Some "beta") ∧
  parse_sheet (Some [[Some "alpha"]; [Some "beta"]])
    [[Cell (Some "A1") (Some "s") (Some (Some "-1")) None]]
    = Ok [[Some "beta"]].
Proof. split_and!; vm_compute; reflexivity. Qed.

(** ** Sorted output *)








Lemma elem_of_sorted_items {K V} `{Countable K} (leb : K → K → bool) (d : gmap K V)
    (k : K) (v : V) :
  (k, v) ∈ sorted_items leb d ↔ d !! k = Some v.
Proof.
  unfold sorted_items. rewrite merge_sort_Permutation.
  apply elem_of_map_to_list.
Qed.

(** ** The run as a whole *)

Lemma inventory_step_ok (totals : gmap (string * string) float) (row : record) :
  ∃ totals', inventory_step totals row = Ok totals'.
Proof.
  unfold inventory_step. rewrite to_float_of_cell. simpl.
  destruct (_ && _); by eexists.
Qed.

Lemma part_step_ok (groups : gmap (string * string) part_group) (row : sales_row) :
  ∃ groups', part_step groups row = Ok groups'.
Proof.
  unfold part_step. destruct (_ || _); [by eexists|].
  rewrite to_float_of_cell. simpl. by eexists.
Qed.

Lemma customer_step_ok (groups : gmap (string * string) customer_group)
    (row : sales_row) :
  ∃ groups', customer_step groups row = Ok groups'.
Proof.
  unfold customer_step. destruct (_ || _); [by eexists|].
  rewrite to_float_of_cell. simpl. by eexists.
Qed.

(** One step of a run, with the loops and tables left folded. *)
Ltac run_step :=
  cbn -[for_each allocate sales_loop csv_text inventory_output_rows
        part_rows customer_rows count_rows reports rows_to_dicts parse_sheet].


Section Reports.
Context (fromisoformat : string → option date) (float_repr : float → string).

(** The four files of a run whose sales loop ends. *)
Lemma reports_written (sales inventory : list record) (st : sales_state) :
  sales_loop fromisoformat sales = Ok st →
  ∃ it pg cg,
    for_each inventory_step inventory ∅ = Ok it ∧
    for_each part_step (allocate st) ∅ = Ok pg ∧
    for_each customer_step (allocate st) ∅ = Ok cg ∧
    reports fromisoformat float_repr sales inventory =
    IO [ (INVENTORY_PATH,
          csv_text float_repr INVENTORY_HEADERS (inventory_output_rows it));
         (PART_PATH, csv_text float_repr PART_HEADERS (part_rows it pg));
         (CUSTOMER_PATH, csv_text float_repr CUSTOMER_HEADERS (customer_rows cg));
         (COUNT_PATH,
          csv_text float_repr COUNT_HEADERS
            (count_rows (foldl count_step ∅ (allocate st)))) ]
       (Ok tt).
Proof.
  intros Hst.
  destruct (for_each_total inventory_step inventory ∅) as [it Hit];
    [intros; apply inventory_step_ok|].
  destruct (for_each_total part_step (allocate st) ∅) as [pg Hpg];
    [intros; apply part_step_ok|].
  destruct (for_each_total customer_step (allocate st) ∅) as [cg Hcg];
    [intros; apply customer_step_ok|].
  exists it, pg, cg. split_and!; [done..|].
  unfold reports, part_table, customer_table, count_table.
  rewrite Hit. run_step. rewrite Hst. run_step. rewrite Hpg. run_step.
  rewrite Hcg. done.
Qed.

(** When the sales loop raises, the inventory report is on disk already. *)
Lemma reports_abort (sales inventory : list record) (e : exn) :
  sales_loop fromisoformat sales = Raise e →
  ∃ it,
    for_each inventory_step inventory ∅ = Ok it ∧
    reports fromisoformat float_repr sales inventory =
    IO [ (INVENTORY_PATH,
          csv_text float_repr INVENTORY_HEADERS (inventory_output_rows it)) ]
       (Raise e).
Proof.
  intros Hst.
  destruct (for_each_total inventory_step inventory ∅) as [it Hit];
    [intros; apply inventory_step_ok|].
  exists it. split; [done|].
  unfold reports. rewrite Hit. run_step. by rewrite Hst.
Qed.



End Reports.

(** ** The year filter *)

Section YearFilter.
Context (fromisoformat : string → option date) (float_repr : float → string).

Lemma allocate_cells (sales : list record) (st : sales_state) :
  sales_loop fromisoformat sales = Ok st →
  sr_cells <$> allocate st = List.filter (kept fromisoformat) sales.
Proof.
  intros H. rewrite (allocate_result _ _ _ H), <- list_fmap_compose.
  apply list_fmap_id.
Qed.

Lemma kept_coerces (sales : list record) :
  Forall (coerces fromisoformat) (List.filter (kept fromisoformat) sales).
Proof.
  apply Forall_forall. intros row Hin.
  apply list_elem_of_In, filter_In in Hin as [_ Hk].
  unfold kept in Hk. unfold coerces.
  by destruct (order_year fromisoformat row).
Qed.

(** C2. The loop keeps a record exactly when its order date gives a year
    from 2019 to 2025: a record with no date, or with a year outside the
    window such as 2018 or 2026, is dropped.  When the loop ends, the
    working set holds the kept records, in input order, and the whole run,
    with its four reports, is the run on the kept records alone; and in any
    run, every file written is the file that the run on the kept records
    writes.  So a dropped record contributes to no report. *)
Theorem year_filter_spec (sales inventory : list record) :
  (∀ row, kept fromisoformat row = true ↔
          ∃ y, order_year fromisoformat row = Ok (Some y) ∧ 2019 ≤ y ≤ 2025) ∧
  (∀ row y, order_year fromisoformat row = Ok (Some y) →
            y = 2018 ∨ y = 2026 → kept fromisoformat row = false) ∧
  (∀ row, order_year fromisoformat row = Ok None → kept fromisoformat row = false) ∧
  (∀ st, sales_loop fromisoformat sales = Ok st →
         sr_cells <$> allocate st = List.filter (kept fromisoformat) sales ∧
         Forall (fun row => 2019 ≤ sr_parsed_year row ≤ 2025) (allocate st) ∧
         reports fromisoformat float_repr (List.filter (kept fromisoformat) sales) inventory
         = reports fromisoformat float_repr sales inventory) ∧
  (∀ file, file ∈ written (reports fromisoformat float_repr sales inventory) →
           file ∈ written (reports fromisoformat float_repr
                             (List.filter (kept fromisoformat) sales) inventory)).
Proof.
  split_and!.
  - apply kept_iff.
  - intros row y Hy [-> | ->]; unfold kept; by rewrite Hy.
  - intros row Hy. unfold kept. by rewrite Hy.
  - intros st Hst. split_and!.
    + by apply allocate_cells.
    + apply Forall_forall. intros row Hrow.
      destruct (elem_of_allocate _ _ _ _ Hst Hrow) as (_ & Hk & Hy & _).
      apply kept_iff in Hk as (y & Hoy & Hwin).
      rewrite Hy. unfold parsed_year. by rewrite Hoy.
    + unfold reports. rewrite sales_loop_filtered; [done|].
      by eapply for_each_sales_step_ok.
  - intros file.
    destruct (sales_loop fromisoformat sales) as [st|e] eqn:Hst.
    + unfold reports. rewrite sales_loop_filtered; [by rewrite Hst|].
      by eapply for_each_sales_step_ok.
    + destruct (reports_abort _ float_repr _ inventory _ Hst) as (it & Hit & ->).
      assert (∃ st', sales_loop fromisoformat (List.filter (kept fromisoformat) sales)
                     = Ok st') as [st' Hst'].
      { unfold sales_loop. rewrite for_each_sales_step by apply kept_coerces.
        by eexists. }
      destruct (reports_written _ float_repr _ inventory _ Hst')
        as (it' & pg & cg & Hit' & _ & _ & ->).
      rewrite Hit in Hit'. injection Hit' as <-. simpl.
      intros ->%list_elem_of_singleton. by left.
Qed.

End YearFilter.

(** ** The report files *)



Section ReportFiles.
Context (fromisoformat : string → option date) (float_repr : float → string).



End ReportFiles.

(** ** Which stages return *)

Lemma cell_value_ok (shared_strings : list string) (cell : cell_elem) :
  (c_t cell = Some "s" →
   ∀ text, c_v cell = Some (Some text) →
     ∃ i, int_of_string text = Ok i ∧ 0 ≤ i < Z.of_nat (length shared_strings)) →
  ∃ v, cell_value shared_strings cell = Ok v.
Proof.
  intros Hs. unfold cell_value. case_bool_decide as Ht.
  - destruct (c_v cell) as [[text|]|] eqn:Hv; try by eexists.
    destruct (Hs Ht text eq_refl) as (i & -> & Hi). simpl.
    destruct (lookup_lt_is_Some_2 shared_strings (Z.to_nat i)) as [s Hlook]; [lia|].
    rewrite (list_index_in_range _ _ s) by (done || lia). by eexists.
  - case_bool_decide.
    + destruct (c_is cell); by eexists.
    + destruct (c_v cell); by eexists.
Qed.

Lemma parse_cell_ok (shared_strings : list string)
    (st : gmap Z (option string) * Z) (cell : cell_elem) :
  cell_decodes shared_strings cell →
  ∃ st', parse_cell shared_strings st cell = Ok st'.
Proof.
  intros Hcell. unfold parse_cell. destruct st as [row_values max_col].
  destruct (c_r cell) as [[|a ref]|] eqn:Hr; try by eexists.
  destruct (Hcell (String a ref) Hr) as [Hletters Hs]; [done|].
  destruct (fst (span is_upper (String a ref))) as [|b letters]; [done|].
  destruct (cell_value_ok shared_strings cell Hs) as [v ->]. simpl. by eexists.
Qed.

Lemma parse_sheet_ok (part : option (list (list (option string))))
    (sheet : list (list cell_elem)) :
  Forall (Forall (cell_decodes (parse_shared_strings part))) sheet →
  ∃ rows, parse_sheet part sheet = Ok rows.
Proof.
  intros Hsheet. unfold parse_sheet. apply for_each_total.
  intros rows row Hrow. unfold parse_row.
  destruct (for_each_total (parse_cell (parse_shared_strings part)) row (∅, -1))
    as [[row_values max_col] ->].
  - intros st cell Hcell. apply parse_cell_ok.
    rewrite Forall_forall in Hsheet. specialize (Hsheet row Hrow).
    rewrite Forall_forall in Hsheet. by apply Hsheet.
  - simpl. case_bool_decide; by eexists.
Qed.

Section Stages.
Context (fromisoformat : string → option date) (float_repr : float → string).

(** C9, as the code has it.  Numeric coercion returns a number on every
    optional text; record projection returns on every grid that has a first
    row; cell-grid decoding returns on every worksheet whose referenced
    cells start with a column letter and whose shared-string cells hold an
    index of the table; date coercion returns on every text that is not a
    serial number; and when the order dates of the sales records coerce,
    allocation and aggregation return and the four reports are written. *)
Theorem stages_return (part : option (list (list (option string))))
    (sheet : list (list cell_elem)) (rows : grid) (sales inventory : list record) :
  Forall (Forall (cell_decodes (parse_shared_strings part))) sheet →
  rows ≠ [] →
  Forall (coerces fromisoformat) sales →
  (∃ g, parse_sheet part sheet = Ok g) ∧
  (∃ records, rows_to_dicts rows = Ok records) ∧
  (∀ c : option string, ∃ f, to_float (of_cell c) = Ok f) ∧
  (∀ s, is_serial (strip s) = false →
        ∃ d, parse_date fromisoformat (VStr s) = Ok d) ∧
  (∃ st, sales_loop fromisoformat sales = Ok st) ∧
  outcome (reports fromisoformat float_repr sales inventory) = Ok tt ∧
  length (written (reports fromisoformat float_repr sales inventory)) = 4%nat.
Proof.
  intros Hsheet Hrows Hsales.
  assert (∃ st, sales_loop fromisoformat sales = Ok st) as [st Hst].
  { unfold sales_loop. rewrite for_each_sales_step by done. by eexists. }
  destruct (reports_written _ float_repr _ inventory _ Hst)
    as (it & pg & cg & _ & _ & _ & Hrep).
  split_and!.
  - by apply parse_sheet_ok.
  - destruct rows; [done|]. by eexists.
  - intros c. rewrite to_float_of_cell. by eexists.
  - intros s Hs. pose proof (parse_date_text_ok fromisoformat s Hs) as Hok.
    destruct (parse_date fromisoformat (VStr s)); [by eexists|done].
  - by eexists.
  - by rewrite Hrep.
  - by rewrite Hrep.
Qed.

End Stages.

(** C9, as stated, fails: projecting a sheet that decoded to no row raises
    [IndexError]; a cell whose reference has no leading uppercase letter
    raises [AttributeError]; and a shared-string index beyond the table
    raises [IndexError]. *)
Lemma stages_not_total :
  rows_to_dicts [] = Raise IndexError ∧
  parse_sheet None [[Cell (Some "1") None (Some (Some "x")) None]]
    = Raise AttributeError ∧
  parse_sheet None [[Cell (Some "A1") (Some "s") (Some (Some "0")) None]]
    = Raise IndexError.
Proof. split_and!; vm_compute; reflexivity. Qed.

(** ** The part-level report *)

Lemma part_step_keys (groups groups' : gmap (string * string) part_group)
    (row : sales_row) (key : string * string) :
  part_step groups row = Ok groups' →
  is_Some (groups' !! key) ↔
  is_Some (groups !! key) ∨ (key = part_key row ∧ key.1 ≠ "" ∧ key.2 ≠ "").
Proof.
  unfold part_step, part_key.
  destruct (nonempty (get_text (sr_cells row) "Site")) eqn:Hsite;
    destruct (nonempty (get_text (sr_cells row) "Part Number")) eqn:Hpart; simpl.
  - rewrite to_float_of_cell. simpl. intros [= <-].
    apply nonempty_true in Hsite, Hpart.
    destruct (decide (key = (get_text (sr_cells row) "Site",
                             get_text (sr_cells row) "Part Number"))) as [->|Hne].
    + rewrite lookup_insert_eq. split; [|by eauto]. intros _. by right.
    + rewrite lookup_insert_ne by done. split; [by left|]. by intros [H|[H _]].
  - intros [= <-]. apply nonempty_false in Hpart.
    split; [by left|]. intros [H|(-> & _ & H)]; done.
  - intros [= <-]. apply nonempty_false in Hsite.
    split; [by left|]. intros [H|(-> & H & _)]; done.
  - intros [= <-]. apply nonempty_false in Hsite.
    split; [by left|]. intros [H|(-> & H & _)]; done.
Qed.

Lemma part_groups_keys (rows : list sales_row)
    (groups groups' : gmap (string * string) part_group) (key : string * string) :
  for_each part_step rows groups = Ok groups' →
  is_Some (groups' !! key) ↔
  is_Some (groups !! key) ∨
  ∃ row, row ∈ rows ∧ key = part_key row ∧ key.1 ≠ "" ∧ key.2 ≠ "".
Proof.
  revert groups. induction rows as [|row rows IH]; intros groups; simpl.
  - intros [= <-]. split; [by left|]. intros [H|(row & Hin & _)]; [done|].
    by apply elem_of_nil in Hin.
  - destruct (part_step groups row) as [g1|] eqn:Hstep; [|done]. simpl.
    intros Hrest. rewrite (IH _ Hrest), (part_step_keys _ _ _ _ Hstep).
    split.
    + intros [[H|H]|(r & Hin & H)]; [by left| |].
      * right. exists row. split; [by left|done].
      * right. exists r. split; [by right|done].
    + intros [H|(r & Hin & H)]; [by left; left|].
      apply elem_of_cons in Hin as [->|Hin]; [by left; right|].
      right. by exists r.
Qed.

Lemma part_step_eq (groups : gmap (string * string) part_group) (row : sales_row) :
  (part_key row).1 ≠ "" → (part_key row).2 ≠ "" →
  part_step groups row =
  Ok (<[part_key row :=
          add_to_part_group (default new_part_group (groups !! part_key row))
            (sr_revenue_gbp row) (line_qty (sr_cells row))
            (customer_of (sr_cells row)) (get_cost_alloc row)]> groups).
Proof.
  unfold part_key. simpl. intros Hsite Hpart. unfold part_step.
  rewrite (proj2 (nonempty_true _) Hsite), (proj2 (nonempty_true _) Hpart).
  simpl. by rewrite to_float_of_cell.
Qed.

Lemma sorted_items_singleton {K V} `{Countable K} (leb : K → K → bool) (k : K) (v : V) :
  sorted_items leb ({[k := v]} : gmap K V) = [(k, v)].
Proof. unfold sorted_items. by rewrite map_to_list_singleton. Qed.

Lemma len_two (a b : string) : a ≠ b → len ({[a]} ∪ ({[b]} ∪ ∅)) = 2.
Proof.
  intros Hab. unfold len. rewrite (right_id_L ∅ (∪)).
  rewrite size_union by set_solver. by rewrite !size_singleton.
Qed.

Lemma len_one (a : string) : len ({[a]} ∪ ∅) = 1.
Proof. unfold len. by rewrite (right_id_L ∅ (∪)), size_singleton. Qed.

Lemma cost_alloc_two (fromisoformat : string → option date)
    (r1 r2 r : record) (o : string) :
  o ≠ "" → order_of r1 = o → order_of r2 = o → order_of r = o →
  cost_alloc (foldl revenue_after ∅ [r1; r2]) (foldl cost_after ∅ [r1; r2])
             (keep fromisoformat r) =
  let total := PrimFloat.add (PrimFloat.add 0 (line_revenue r1)) (line_revenue r2) in
  let cost :=
    default 0%float (head (List.filter float_truthy [line_cost r1; line_cost r2])) in
  if PrimFloat.ltb 0 total
  then PrimFloat.mul cost (PrimFloat.div (line_revenue r) total) else 0%float.
Proof.
  intros Ho Ho1 Ho2 Hr. unfold cost_alloc, keep. cbn [sr_cells sr_revenue_gbp].
  fold (order_of r). rewrite Hr.
  rewrite revenue_after_total, cost_after_first by done.
  rewrite !lookup_empty. unfold order_lines. cbn [List.filter].
  rewrite !bool_decide_eq_true_2 by done. done.
Qed.

Lemma inventory_one (inv : record) (k : string * string) :
  (get_text inv "Site", get_text inv "Part No") = k →
  k.1 ≠ "" → k.2 ≠ "" →
  for_each inventory_step [inv] ∅ =
  Ok {[k := PrimFloat.add 0 (coerced (of_cell (get inv "Onhand Qty")))]}.
Proof.
  intros <- Hsite Hpart. simpl in Hsite, Hpart.
  cbn [for_each]. unfold inventory_step. rewrite to_float_of_cell.
  cbn [mbind result_bind].
  rewrite (proj2 (nonempty_true _) Hsite), (proj2 (nonempty_true _) Hpart).
  cbn [andb]. rewrite lookup_empty. done.
Qed.

Lemma part_groups_two (a b : sales_row) (k : string * string) :
  part_key a = k → part_key b = k → k.1 ≠ "" → k.2 ≠ "" →
  for_each part_step [a; b] ∅ =
  Ok {[k := add_to_part_group
              (add_to_part_group new_part_group
                 (sr_revenue_gbp a) (line_qty (sr_cells a))
                 (customer_of (sr_cells a)) (get_cost_alloc a))
              (sr_revenue_gbp b) (line_qty (sr_cells b))
              (customer_of (sr_cells b)) (get_cost_alloc b)]}.
Proof.
  intros Ha Hb Hsite Hpart. cbn [for_each].
  rewrite part_step_eq by (by rewrite Ha). cbn [mbind result_bind].
  rewrite part_step_eq by (by rewrite Hb). cbn [mbind result_bind].
  rewrite Ha, Hb, lookup_empty, lookup_insert_eq, insert_insert_eq. done.
Qed.

Section PartLevel.
Context (fromisoformat : string → option date) (float_repr : float → string).

(** The part-level report of a run on two sales records of one order and
    one part, and one inventory record of that part. *)
Lemma two_line_report (r1 r2 inv : record) (o : string) (k : string * string) :
  o ≠ "" → order_of r1 = o → order_of r2 = o →
  kept fromisoformat r1 = true → kept fromisoformat r2 = true →
  k.1 ≠ "" → k.2 ≠ "" →
  (get_text r1 "Site", get_text r1 "Part Number") = k →
  (get_text r2 "Site", get_text r2 "Part Number") = k →
  (get_text inv "Site", get_text inv "Part No") = k →
  let total := PrimFloat.add (PrimFloat.add 0 (line_revenue r1)) (line_revenue r2) in
  let cost :=
    default 0%float (head (List.filter float_truthy [line_cost r1; line_cost r2])) in
  let alloc r :=
    if PrimFloat.ltb 0 total
    then PrimFloat.mul cost (PrimFloat.div (line_revenue r) total) else 0%float in
  let group :=
    add_to_part_group
      (add_to_part_group new_part_group
         (line_revenue r1) (line_qty r1) (customer_of r1) (alloc r1))
      (line_revenue r2) (line_qty r2) (customer_of r2) (alloc r2) in
  let it : gmap (string * string) float :=
    {[k := PrimFloat.add 0 (coerced (of_cell (get inv "Onhand Qty")))]} in
  outcome (reports fromisoformat float_repr [r1; r2] [inv]) = Ok tt ∧
  written (reports fromisoformat float_repr [r1; r2] [inv]) !! 1%nat =
    Some (PART_PATH, csv_text float_repr PART_HEADERS [part_row it (k, group)]).
Proof.
  intros Ho Ho1 Ho2 Hk1 Hk2 Hsite Hpart Hkey1 Hkey2 Hinv total cost alloc group it.
  assert (Forall (coerces fromisoformat) [r1; r2]) as Hc.
  { repeat constructor; unfold coerces.
    - unfold kept in Hk1. by destruct (order_year fromisoformat r1).
    - unfold kept in Hk2. by destruct (order_year fromisoformat r2). }
  pose proof (for_each_sales_step fromisoformat [r1; r2] (SalesState [] ∅ ∅) Hc) as Hst.
  fold (sales_loop fromisoformat [r1; r2]) in Hst.
  destruct (reports_written _ float_repr _ [inv] _ Hst)
    as (it' & pg & cg & Hit & Hpg & _ & ->).
  split; [done|]. cbn [written lookup list_lookup]. do 3 f_equal.
  rewrite (inventory_one inv k Hinv Hsite Hpart) in Hit. injection Hit as <-.
  rewrite (allocate_result _ _ _ Hst) in Hpg.
  cbn [List.filter] in Hpg. rewrite Hk1, Hk2 in Hpg. cbn [fmap list_fmap] in Hpg.
  rewrite (part_groups_two _ _ k) in Hpg by done.
  injection Hpg as <-.
  cbn [sr_revenue_gbp sr_cells get_cost_alloc sr_cost_alloc_usd default
       order_revenue order_cost].
  rewrite !(cost_alloc_two fromisoformat r1 r2 _ o) by done.
  unfold part_rows. rewrite sorted_items_singleton. done.
Qed.

(** C4. A run on two sales records of site S1 and part P1 that belong to one
    order whose recorded cost is 30, both dated in the window, one of revenue
    100 and quantity 10 for an internal customer and one of revenue 50 and
    quantity 5 for an external customer (in either order), and on one
    inventory record of S1 and P1 with 20 on hand, ends and writes as the
    part-level report the header and one data row: S1, P1, revenue 150,
    units 15, two customers, the split 100/50 and 10/5 and 1/1, 20 on hand
    and allocated cost 30.  So does the run on the example workbook, from
    its XML parts.  In every report, the on-hand cell of a row is the rounded
    inventory total of the row's key, 0.0 when the inventory has no such key;
    and the rows are those of the (site, part) keys of the working set with
    both parts non-blank, whatever the inventory holds: a key that only the
    inventory has gives no row. *)
Theorem part_level_spec :
  (∀ (r1 r2 inv : record) (o : string),
     o ≠ "" → order_of r1 = o → order_of r2 = o →
     kept fromisoformat r1 = true → kept fromisoformat r2 = true →
     (line_is r1 100 10 "Internal" ∧ line_is r2 50 5 "External" ∨
      line_is r1 50 5 "External" ∧ line_is r2 100 10 "Internal") →
     head (List.filter float_truthy [line_cost r1; line_cost r2]) = Some 30%float →
     get_text inv "Site" = "S1" → get_text inv "Part No" = "P1" →
     coerced (of_cell (get inv "Onhand Qty")) = 20%float →
     outcome (reports fromisoformat float_repr [r1; r2] [inv]) = Ok tt ∧
     written (reports fromisoformat float_repr [r1; r2] [inv]) !! 1%nat =
       Some (PART_PATH, csv_text float_repr PART_HEADERS [example_part_row])) ∧
  (outcome (main fromisoformat float_repr example_workbook) = Ok tt ∧
   written (main fromisoformat float_repr example_workbook) !! 1%nat =
     Some (PART_PATH,
           csv_text float_repr PART_HEADERS
             [example_part_row])) ∧
  (∀ it key g,
     part_row it (key, g) !! 11%nat = Some (CFloat (round2 (default 0%float (it !! key)))) ∧
     (it !! key = None → part_row it (key, g) !! 11%nat = Some (CFloat 0))) ∧
  (∀ it rows pg,
     for_each part_step rows ∅ = Ok pg →
     (∀ r, r ∈ part_rows it pg ↔ ∃ key g, pg !! key = Some g ∧ r = part_row it (key, g)) ∧
     (∀ key, is_Some (pg !! key) ↔
             ∃ row, row ∈ rows ∧ key = part_key row ∧ key.1 ≠ "" ∧ key.2 ≠ "")).
Proof.
  split_and!.
  - intros r1 r2 inv o Ho Ho1 Ho2 Hk1 Hk2 Hlines Hcost Hsite Hpart Hqty.
    assert (customer_of r1 ≠ customer_of r2) as Hnames.
    { intros Heq. destruct Hlines as [[(_ & _ & _ & _ & H1) (_ & _ & _ & _ & H2)]
                                     |[(_ & _ & _ & _ & H1) (_ & _ & _ & _ & H2)]];
        rewrite Heq in H1; by rewrite H1 in H2. }
    destruct Hlines as [[(Hs1 & Hp1 & Hr1 & Hq1 & Hc1) (Hs2 & Hp2 & Hr2 & Hq2 & Hc2)]
                       |[(Hs1 & Hp1 & Hr1 & Hq1 & Hc1) (Hs2 & Hp2 & Hr2 & Hq2 & Hc2)]].
    all: destruct (two_line_report r1 r2 inv o ("S1", "P1")) as [Hout Hw];
      try done; try (by rewrite ?Hs1, ?Hp1, ?Hs2, ?Hp2, ?Hsite, ?Hpart).
    all: split; [done|]; rewrite Hw; do 4 f_equal.
    all: rewrite Hr1, Hr2, Hq1, Hq2, Hcost, Hqty.
    all: unfold part_row, add_to_part_group, new_part_group.
    all: rewrite Hc1, Hc2, lookup_singleton_eq.
    all: cbn [pg_revenue_gbp pg_units pg_customers pg_internal_revenue_gbp
              pg_external_revenue_gbp pg_internal_units pg_external_units
              pg_internal_customers pg_external_customers pg_cost_alloc_usd default].
    all: rewrite !(bool_decide_eq_true_2 ("Internal" = "Internal")) by done.
    all: rewrite !(bool_decide_eq_false_2 ("External" = "Internal")) by done.
    all: rewrite len_two, !len_one by done.
    all: unfold example_part_row; repeat f_equal; by vm_compute.
  - by vm_compute.
  - by vm_compute.
  - intros it [site part_no] g. split; [done|]. intros Hnone. simpl.
    rewrite Hnone. by vm_compute.
  - intros it rows pg Hpg. split.
    + intros r. unfold part_rows. rewrite list_elem_of_fmap. split.
      * intros ([key g] & -> & Hin). apply elem_of_sorted_items in Hin. eauto.
      * intros (key & g & Hlook & ->). exists (key, g). split; [done|].
        by apply elem_of_sorted_items.
    + intros key. rewrite (part_groups_keys _ _ _ _ Hpg), lookup_empty.
      split; [intros [[? H]|H]; done|by right].
Qed.

End PartLevel.

(** ** Column letters *)

Lemma col_to_idx_snoc (s : string) (c : ascii) :
  col_to_idx (s +:+ String c "") = 26 * (col_to_idx s + 1) + (code c - 64) - 1.
Proof.
  unfold col_to_idx. generalize 0 as idx.
  induction s as [|a s IH]; intros idx; simpl; [lia|]. apply IH.
Qed.

Lemma string_snoc_case (s : string) :
  s = "" ∨ ∃ s' c, s = s' +:+ String c "".
Proof.
  induction s as [|a s IH]; [by left|]. right.
  destruct IH as [->|(s' & c & ->)].
  - by exists "", a.
  - by exists (String a s'), c.
Qed.

Lemma string_length_snoc (s : string) (c : ascii) :
  String.length (s +:+ String c "") = S (String.length s).
Proof. induction s as [|a s IH]; simpl; [done|]. by rewrite IH. Qed.

Lemma all_upper_snoc (s : string) (c : ascii) :
  all_upper (s +:+ String c "") = all_upper s && is_upper c.
Proof.
  induction s as [|a s IH]; simpl; [by rewrite andb_true_r|].
  by rewrite IH, andb_assoc.
Qed.

Lemma is_upper_code (c : ascii) : is_upper c = true → 1 ≤ code c - 64 ≤ 26.
Proof. unfold is_upper. lia. Qed.

Lemma code_inj (a b : ascii) : code a = code b → a = b.
Proof.
  unfold code. intros H%Nat2Z.inj.
  by rewrite <- (ascii_nat_embedding a), <- (ascii_nat_embedding b), H.
Qed.

Lemma col_to_idx_lower_bound (s : string) :
  all_upper s = true → -1 ≤ col_to_idx s ∧ (s ≠ "" → 0 ≤ col_to_idx s).
Proof.
  remember (String.length s) as n eqn:Hn. revert s Hn.
  induction n as [|n IH]; intros s Hn Hs.
  - destruct s; [|done]. by vm_compute.
  - destruct (string_snoc_case s) as [->|(s' & c & ->)]; [done|].
    rewrite string_length_snoc in Hn. injection Hn as Hn.
    rewrite all_upper_snoc in Hs. apply andb_true_iff in Hs as [Hs' Hc].
    apply is_upper_code in Hc. destruct (IH s' Hn Hs') as [Hlo _].
    rewrite col_to_idx_snoc. lia.
Qed.

Lemma col_to_idx_inj (s t : string) :
  all_upper s = true → all_upper t = true → col_to_idx s = col_to_idx t → s = t.
Proof.
  remember (String.length s) as n eqn:Hn. revert s t Hn.
  induction n as [|n IH]; intros s t Hn Hs Ht Heq.
  - destruct s; [|done].
    destruct (string_snoc_case t) as [->|(t' & c & ->)]; [done|].
    rewrite all_upper_snoc in Ht. apply andb_true_iff in Ht as [Ht' Hc].
    apply is_upper_code in Hc. destruct (col_to_idx_lower_bound t' Ht') as [Hlo _].
    rewrite col_to_idx_snoc in Heq. change (col_to_idx "") with (-1) in Heq. lia.
  - destruct (string_snoc_case s) as [->|(s' & a & ->)]; [done|].
    rewrite string_length_snoc in Hn. injection Hn as Hn.
    rewrite all_upper_snoc in Hs. apply andb_true_iff in Hs as [Hs' Ha].
    apply is_upper_code in Ha. destruct (col_to_idx_lower_bound s' Hs') as [Hlo _].
    rewrite col_to_idx_snoc in Heq.
    destruct (string_snoc_case t) as [->|(t' & b & ->)].
    + change (col_to_idx "") with (-1) in Heq. lia.
    + rewrite all_upper_snoc in Ht. apply andb_true_iff in Ht as [Ht' Hb].
      apply is_upper_code in Hb. destruct (col_to_idx_lower_bound t' Ht') as [Hlo' _].
      rewrite col_to_idx_snoc in Heq.
      assert (col_to_idx s' = col_to_idx t') as Hst by lia.
      assert (code a = code b) as Hab by lia.
      by rewrite (IH s' t' Hn Hs' Ht' Hst), (code_inj a b Hab).
Qed.

(** X1. On strings of capital letters, [col_to_idx] is the bijective
    base-26 numeral counted from 0: two strings of letters with the same
    index are equal, the index of a non-empty string is not negative, and
    the index of a string extended by a letter is 26 times one more than the
    index of the string, plus the place of the letter in the alphabet,
    counted from 0. *)
Theorem col_to_idx_letters (s t : string) :
  all_upper s = true → all_upper t = true →
  (col_to_idx s = col_to_idx t → s = t) ∧
  (s ≠ "" → 0 ≤ col_to_idx s) ∧
  (∀ c, is_upper c = true →
     col_to_idx (s +:+ String c "") = 26 * (col_to_idx s + 1) + (code c - 65)).
Proof.
  intros Hs Ht. split_and!.
  - by apply col_to_idx_inj.
  - by apply col_to_idx_lower_bound.
  - intros c _. rewrite col_to_idx_snoc. lia.
Qed.

(** ** The rows of a decoded sheet *)

Lemma span_upper_letters (s : string) : all_upper (fst (span is_upper s)) = true.
Proof.
  induction s as [|a s IH]; simpl; [done|].
  destruct (is_upper a) eqn:Ha; [|done].
  destruct (span is_upper s) as [l r]. simpl in *. by rewrite Ha.
Qed.

Lemma parse_cell_eq (shared_strings : list string) (row_values : gmap Z (option string))
    (max_col : Z) (cell : cell_elem) (st' : gmap Z (option string) * Z) :
  parse_cell shared_strings (row_values, max_col) cell = Ok st' →
  if referenced cell then
    ∃ v, cell_value shared_strings cell = Ok v ∧ 0 ≤ cell_col cell ∧
         st' = (<[cell_col cell := v]> row_values, Z.max max_col (cell_col cell))
  else st' = (row_values, max_col).
Proof.
  unfold parse_cell, referenced, cell_col.
  destruct (c_r cell) as [[|a ref]|]; simpl or_empty; try by intros [= <-].
  pose proof (span_upper_letters (String a ref)) as Hup.
  destruct (fst (span is_upper (String a ref))) as [|b letters] eqn:Hl; [done|].
  destruct (cell_value shared_strings cell) as [v|e]; [|done]. simpl.
  intros [= <-]. exists v. split_and!; [done| |done].
  by apply col_to_idx_lower_bound.
Qed.

Lemma parse_cells_spec (shared_strings : list string) (cells : list cell_elem)
    (rv0 rv : gmap Z (option string)) (mc0 mc : Z) :
  for_each (parse_cell shared_strings) cells (rv0, mc0) = Ok (rv, mc) →
  -1 ≤ mc0 →
  mc = Z.max mc0 (max_column cells) ∧
  (existsb referenced cells = true → 0 ≤ max_column cells) ∧
  ∀ i, match last (cells_at i cells) with
       | Some cell => ∃ v, cell_value shared_strings cell = Ok v ∧ rv !! i = Some v
       | None => rv !! i = rv0 !! i
       end.
Proof.
  revert rv0 mc0. induction cells as [|cell cells IH]; intros rv0 mc0; cbn [for_each].
  - intros [= <- <-] Hmc. unfold max_column, cells_at. simpl. split_and!; [lia|done|done].
  - destruct (parse_cell shared_strings (rv0, mc0) cell) as [[rv1 mc1]|e] eqn:Hcell;
      cbn [mbind result_bind]; [|done].
    intros Hrest Hmc. apply parse_cell_eq in Hcell.
    unfold max_column, cells_at in *. cbn [List.filter existsb].
    destruct (referenced cell) eqn:Href; cbn [andb orb fmap list_fmap foldr].
    + destruct Hcell as (v & Hv & Hcol & [= -> ->]).
      destruct (IH _ _ Hrest) as (-> & Hpos & Hlook); [lia|].
      split_and!; [lia| |].
      * intros _. lia.
      * intros i. specialize (Hlook i).
        destruct (cell_col cell =? i) eqn:Hi.
        -- rewrite last_cons.
           destruct (last _) as [cell'|]; [done|].
           exists v. split; [done|]. rewrite Hlook.
           apply Z.eqb_eq in Hi. subst i. by rewrite lookup_insert_eq.
        -- destruct (last _) as [cell'|]; [done|].
           rewrite Hlook. apply Z.eqb_neq in Hi. by rewrite lookup_insert_ne.
    + injection Hcell as -> ->.
      destruct (IH _ _ Hrest) as (-> & Hpos & Hlook); [lia|]. done.
Qed.

Lemma parse_cells_empty (shared_strings : list string) (cells : list cell_elem)
    (rv : gmap Z (option string)) (mc : Z) :
  for_each (parse_cell shared_strings) cells (∅, -1) = Ok (rv, mc) →
  rv = ∅ ↔ existsb referenced cells = false.
Proof.
  intros Hrun. destruct (parse_cells_spec _ _ _ _ _ _ Hrun) as (_ & _ & Hlook); [lia|].
  split.
  - intros ->. apply not_true_iff_false. intros (cell & Hin & Href)%existsb_exists.
    specialize (Hlook (cell_col cell)).
    destruct (last (cells_at (cell_col cell) cells)) as [c|] eqn:Hlast.
    + destruct Hlook as (v & _ & Hv). by rewrite lookup_empty in Hv.
    + apply last_None in Hlast.
      assert (In cell (cells_at (cell_col cell) cells)) as Hc.
      { apply filter_In. split; [done|]. rewrite Href. simpl. lia. }
      rewrite Hlast in Hc. done.
  - intros Hnone. apply map_eq. intros i. specialize (Hlook i).
    destruct (last (cells_at i cells)) as [c|] eqn:Hlast; [|done].
    apply last_Some_elem_of, list_elem_of_In, filter_In in Hlast as [Hin Hc].
    apply andb_true_iff in Hc as [Href _].
    assert (existsb referenced cells = true) as Hex; [|congruence].
    apply existsb_exists. eauto.
Qed.

Lemma dense_row_length (rv : gmap Z (option string)) (mc : Z) :
  length (dense_row rv mc) = Z.to_nat (mc + 1).
Proof. unfold dense_row. by rewrite length_fmap, length_seqZ. Qed.

Lemma dense_row_lookup (rv : gmap Z (option string)) (mc : Z) (i : nat) :
  (i < length (dense_row rv mc))%nat →
  dense_row rv mc !! i = Some (default None (rv !! Z.of_nat i)).
Proof.
  rewrite dense_row_length. intros Hi. unfold dense_row.
  rewrite list_lookup_fmap, lookup_seqZ_lt by lia. done.
Qed.

Lemma parse_row_spec (shared_strings : list string) (rows rows' : grid)
    (cells : list cell_elem) :
  parse_row shared_strings rows cells = Ok rows' →
  if existsb referenced cells then
    ∃ r, rows' = rows ++ [r] ∧ row_width cells r ∧ row_content shared_strings cells r
  else rows' = rows.
Proof.
  unfold parse_row.
  destruct (for_each _ cells _) as [[rv mc]|e] eqn:Hrun; [|done]. simpl.
  pose proof (parse_cells_empty _ _ _ _ Hrun) as Hempty.
  destruct (parse_cells_spec _ _ _ _ _ _ Hrun) as (-> & Hpos & Hlook); [lia|].
  case_bool_decide as Hrv.
  - intros [= <-]. by rewrite (proj1 Hempty Hrv).
  - intros [= <-]. destruct (existsb referenced cells) eqn:Hex.
    + specialize (Hpos eq_refl). eexists. split; [done|].
      assert (length (dense_row rv (Z.max (-1) (max_column cells)))
              = Z.to_nat (max_column cells + 1)) as Hlen.
      { rewrite dense_row_length. f_equal. lia. }
      split; [split|].
      * intros Hnil. rewrite Hnil in Hlen. simpl in Hlen. lia.
      * done.
      * intros i Hi. rewrite dense_row_lookup by done.
        specialize (Hlook (Z.of_nat i)).
        destruct (last _) as [cell|].
        -- destruct Hlook as (v & Hv & ->). by exists v.
        -- by rewrite Hlook, lookup_empty.
    + by destruct Hrv; apply Hempty.
Qed.

Lemma parse_rows_spec (shared_strings : list string) (sheet : list (list cell_elem))
    (g0 g : grid) :
  for_each (parse_row shared_strings) sheet g0 = Ok g →
  ∃ g1, g = g0 ++ g1 ∧
    Forall2 (fun cells r => row_width cells r ∧ row_content shared_strings cells r)
            (List.filter (existsb referenced) sheet) g1.
Proof.
  revert g0. induction sheet as [|cells sheet IH]; intros g0; simpl.
  - intros [= <-]. exists []. by rewrite app_nil_r.
  - destruct (parse_row shared_strings g0 cells) as [g'|e] eqn:Hrow; [|done]. simpl.
    intros Hrest. apply parse_row_spec in Hrow.
    destruct (IH _ Hrest) as (g1 & -> & Hall).
    destruct (existsb referenced cells).
    + destruct Hrow as (r & -> & Hw & Hc). exists (r :: g1).
      split; [by rewrite <- app_assoc|]. by constructor.
    + subst g'. by exists g1.
Qed.

(** X2. When a sheet decodes, the grid has one row for each [<row>]
    element that holds a referenced cell, in the order of the sheet, and
    none for the others; a row of the grid is never empty, and it is as wide
    as the rightmost referenced column of its element requires, no wider. *)
Theorem parse_sheet_rows (part : option (list (list (option string))))
    (sheet : list (list cell_elem)) (g : grid) :
  parse_sheet part sheet = Ok g →
  Forall2 row_width (List.filter (existsb referenced) sheet) g.
Proof.
  intros H. destruct (parse_rows_spec _ _ _ _ H) as (g1 & -> & Hall). simpl.
  eapply Forall2_impl; [exact Hall|]. by intros cells r [Hw _].
Qed.

(** X3. In a row of the grid, the position of a column holds the value of
    the last referenced cell of the element that stands in this column (a
    later cell overwrites an earlier one of the same column), and no value
    where the element has no cell for the column. *)
Theorem parse_sheet_cells (part : option (list (list (option string))))
    (sheet : list (list cell_elem)) (g : grid) :
  parse_sheet part sheet = Ok g →
  Forall2 (row_content (parse_shared_strings part))
          (List.filter (existsb referenced) sheet) g.
Proof.
  intros H. destruct (parse_rows_spec _ _ _ _ H) as (g1 & -> & Hall). simpl.
  eapply Forall2_impl; [exact Hall|]. by intros cells r [_ Hc].
Qed.

(** ** Normalized headers *)

Lemma string_app_empty_r (s : string) : s +:+ "" = s.
Proof.
  induction s as [|a s IH]; [done|].
  change (String a s +:+ "") with (String a (s +:+ "")). by f_equal.
Qed.

Lemma rev_app_rev_app (s a b : string) :
  String.rev_app (String.rev_app s a) b = String.rev_app a (s +:+ b).
Proof.
  revert a b. induction s as [|c s IH]; intros a b; simpl; [done|].
  by rewrite IH.
Qed.

Lemma string_rev_rev_app (w : string) : String.rev (String.rev_app w "") = w.
Proof. unfold String.rev. rewrite rev_app_rev_app. simpl. apply string_app_empty_r. Qed.

Lemma rev_app_word (s acc : string) :
  no_blank s = true → is_word acc → is_word (String.rev_app s acc).
Proof.
  revert acc. induction s as [|a s IH]; intros acc Hs Hacc; simpl; [done|].
  simpl in Hs. apply andb_true_iff in Hs as [Ha Hs].
  apply IH; [done|]. split; [done|]. simpl. rewrite Ha. apply Hacc.
Qed.

Lemma rev_word (acc : string) : is_word acc → is_word (String.rev acc).
Proof.
  intros Hacc. unfold String.rev. destruct acc as [|a acc]; [by destruct Hacc|].
  simpl. destruct Hacc as [_ Hacc]. simpl in Hacc. apply andb_true_iff in Hacc as [Ha Hacc].
  apply rev_app_word; [done|]. split; [done|]. simpl. by rewrite Ha.
Qed.

Lemma split_go_words (cur : option string) (s : string) :
  (∀ acc, cur = Some acc → is_word acc) → Forall is_word (split_go cur s).
Proof.
  revert cur. induction s as [|a s IH]; intros cur Hcur; simpl.
  - destruct cur as [acc|]; simpl; [|done].
    constructor; [|done]. apply rev_word. by apply Hcur.
  - destruct (is_space a) eqn:Ha.
    + apply Forall_app. split.
      * destruct cur as [acc|]; simpl; [|done].
        constructor; [|done]. apply rev_word. by apply Hcur.
      * by apply IH.
    + apply IH. intros acc [= <-]. split; [done|]. simpl. rewrite Ha. simpl.
      destruct cur as [acc|]; simpl; [|done]. by apply Hcur.
Qed.

Lemma split_go_word (w s acc : string) :
  no_blank w = true →
  split_go (Some acc) (w +:+ s) = split_go (Some (String.rev_app w acc)) s.
Proof.
  revert acc. induction w as [|a w IH]; intros acc Hw; simpl; [done|].
  simpl in Hw. apply andb_true_iff in Hw as [Ha Hw].
  apply negb_true_iff in Ha. rewrite Ha. simpl. by apply IH.
Qed.

Lemma split_go_first_word (w s : string) :
  is_word w → split_go None (w +:+ s) = split_go (Some (String.rev_app w "")) s.
Proof.
  intros [Hne Hw]. destruct w as [|a w]; [done|]. simpl in *.
  apply andb_true_iff in Hw as [Ha Hw]. apply negb_true_iff in Ha. rewrite Ha.
  simpl. by apply split_go_word.
Qed.

Lemma split_join (ws : list string) :
  Forall is_word ws → split (join " " ws) = ws.
Proof.
  unfold split. induction 1 as [|w ws Hw Hws IH]; [done|].
  destruct ws as [|w2 ws].
  - cbn [join]. rewrite <- (string_app_empty_r w) at 1.
    rewrite split_go_first_word by done. simpl.
    by rewrite string_rev_rev_app.
  - change (join " " (w :: w2 :: ws)) with (w +:+ " " +:+ join " " (w2 :: ws)).
    rewrite split_go_first_word by done.
    change (" " +:+ join " " (w2 :: ws)) with (String " " (join " " (w2 :: ws))).
    cbn [split_go]. change (is_space " ") with true. cbn iota.
    rewrite IH. simpl. by rewrite string_rev_rev_app.
Qed.

(** X4. [normalize_header] is idempotent: a normalized header is left as
    it is by a second normalization.  It consists of words, none empty and
    none with a blank inside, joined by single spaces. *)
Theorem normalize_header_idempotent (value : option string) :
  normalize_header (Some (normalize_header value)) = normalize_header value ∧
  Forall is_word (split (normalize_header value)) ∧
  normalize_header value = join " " (split (normalize_header value)).
Proof.
  assert (∀ s, split (join " " (split s)) = split s) as Hsplit.
  { intros s. apply split_join, split_go_words. done. }
  assert (normalize_header (Some (normalize_header value)) = normalize_header value) as Hidem.
  { destruct value as [[|a v]|]; try done.
    unfold normalize_header at 2.
    destruct (join " " (split (String a v))) as [|b t] eqn:Hj; [done|].
    unfold normalize_header. by rewrite <- Hj, Hsplit. }
  split_and!; [done| |].
  - apply split_go_words. done.
  - rewrite <- Hidem at 1. unfold normalize_header at 1.
    by destruct (normalize_header value).
Qed.

(** ** The keys and the width of the records *)

Lemma fill_record_keys (headers : list string) (row : list (option string))
    (idx : nat) (d : record) (h : string) :
  is_Some (fill_record idx headers row d !! h) ↔
  is_Some (d !! h) ∨ (h ≠ "" ∧ h ∈ headers).
Proof.
  revert idx d. induction headers as [|x rest IH]; intros idx d; simpl.
  - split; [by left|]. intros [H|[_ H]]; [done|]. by apply elem_of_nil in H.
  - rewrite IH. case_bool_decide as Hx.
    + subst x. split.
      * intros [H|[Hne H]]; [by left|]. right. split; [done|]. by right.
      * intros [H|[Hne H]]; [by left|]. right. split; [done|].
        apply elem_of_cons in H as [->|H]; done.
    + destruct (decide (h = x)) as [->|Hne].
      * rewrite lookup_insert_eq. split.
        -- intros _. right. split; [done|]. by left.
        -- intros _. left. by eexists.
      * rewrite lookup_insert_ne by done. split.
        -- intros [H|[Hh H]]; [by left|]. right. split; [done|]. by right.
        -- intros [H|[Hh H]]; [by left|]. right. split; [done|].
           apply elem_of_cons in H as [->|H]; done.
Qed.

(** X5. Projecting a grid that has a first row returns one record for each
    data row, and all records have the same keys, whatever the length of
    their row: the normalized headers that are not blank. *)
Theorem rows_to_dicts_keys (first : list (option string)) (data : grid) :
  ∃ records,
    rows_to_dicts (first :: data) = Ok records ∧
    length records = length data ∧
    ∀ r h, r ∈ records →
      is_Some (r !! h) ↔ h ≠ "" ∧ h ∈ normalize_header <$> first.
Proof.
  eexists. split; [done|]. split; [by rewrite length_fmap|].
  intros r h (row & -> & _)%list_elem_of_fmap.
  rewrite fill_record_keys, lookup_empty. split.
  - intros [[? H]|H]; done.
  - by right.
Qed.

Lemma fill_record_ext (headers : list string) (row row' : list (option string))
    (idx : nat) (d : record) :
  (∀ j, (idx ≤ j < idx + length headers)%nat → row_at row j = row_at row' j) →
  fill_record idx headers row d = fill_record idx headers row' d.
Proof.
  revert idx d. induction headers as [|x rest IH]; intros idx d Hrow; simpl; [done|].
  rewrite (Hrow idx) by (simpl; lia).
  apply IH. intros j Hj. apply Hrow. simpl. lia.
Qed.

Lemma row_at_resize (row : list (option string)) (n j : nat) :
  (j < n)%nat → row_at (resize n None row) j = row_at row j.
Proof.
  intros Hj. unfold row_at.
  destruct (decide (j < length row)%nat) as [Hlt|Hge].
  - by rewrite lookup_resize.
  - rewrite lookup_resize_new by lia.
    by rewrite (lookup_ge_None_2 row j) by lia.
Qed.

(** X6. A data row is read up to the width of the header row and no
    further: cutting a longer row to that width, and filling a shorter one
    up with absent cells, leaves the records as they are. *)
Theorem rows_to_dicts_width (first : list (option string)) (data : grid) :
  rows_to_dicts (first :: data) =
  rows_to_dicts (first :: (resize (length first) None <$> data)).
Proof.
  unfold rows_to_dicts. f_equal. rewrite <- list_fmap_compose.
  apply list_fmap_ext. intros _ row _. simpl.
  apply fill_record_ext. intros j Hj. rewrite length_fmap in Hj.
  symmetry. apply row_at_resize. lia.
Qed.

(** ** What the date coercion can raise *)

Lemma timedelta_of_days_raises (x : float) (e : exn) :
  timedelta_of_days x = Raise e → e = ValueError ∨ e = OverflowError.
Proof.
  unfold timedelta_of_days, microseconds_of_days.
  repeat (case_match; simpl; try congruence); intros [= <-]; auto.
Qed.

Lemma add_days_raises (base : date) (delta : timedelta) (e : exn) :
  add_days base delta = Raise e → e = OverflowError.
Proof. unfold add_days. case_match; congruence. Qed.

Lemma serial_date_raises (cleaned : string) (e : exn) :
  serial_date cleaned = Raise e → e = OverflowError ∧ is_serial cleaned = true.
Proof.
  unfold serial_date. destruct (is_serial cleaned); [|done].
  destruct (float_of_string cleaned) as [x|e1] eqn:Hx; cbn [mbind result_bind].
  - destruct (timedelta_of_days x) as [delta|e2] eqn:Hd; cbn [mbind result_bind].
    + destruct (add_days EPOCH delta) as [d|e3] eqn:Ha; cbn [mbind result_bind]; [done|].
      apply add_days_raises in Ha as ->. by intros [= <-].
    + apply timedelta_of_days_raises in Hd as [->| ->]; [done|]. by intros [= <-].
  - apply float_of_string_raises in Hx as ->. done.
Qed.

Section DateFailure.
Context (fromisoformat : string → option date).

Lemma parse_date_cell_raises (c : option string) (e : exn) :
  parse_date fromisoformat (of_cell c) = Raise e →
  e = OverflowError ∧ ∃ s, c = Some s ∧ is_serial (strip s) = true.
Proof.
  destruct c as [s|]; [|done]. cbn [of_cell parse_date].
  case_bool_decide as Hblank; [done|].
  destruct (serial_date (strip s)) as [[d|]|e'] eqn:Hs; cbn [mbind result_bind].
  - done.
  - intros Hrun.
    assert (is_ok (try_formats FORMATS (strip s)
                     (match fromisoformat (strip s) with
                      | Some d => Ok (Some d)
                      | None => Ok None
                      end)) = true) as Hok.
    { apply try_formats_ok. by destruct (fromisoformat _). }
    by rewrite Hrun in Hok.
  - intros [= <-]. apply serial_date_raises in Hs as [-> Hs]. eauto.
Qed.

(** X7. The only exception that the date coercion lets out on a cell is
    [OverflowError], and it does so only on a cell whose trimmed text is a
    serial number: every other cell coerces to a date or to no date. *)
Theorem parse_date_raises (c : option string) (e : exn) :
  parse_date fromisoformat (of_cell c) = Raise e →
  e = OverflowError ∧ ∃ s, c = Some s ∧ strip s ≠ "" ∧ is_serial (strip s) = true.
Proof.
  intros H. destruct (parse_date_cell_raises c e H) as (-> & s & -> & Hs).
  split; [done|]. exists s. split_and!; [done| |done].
  intros He. by rewrite He in Hs.
Qed.

End DateFailure.

(** ** The class of a customer *)

Lemma append_cons (a : ascii) (s t : string) : String a s +:+ t = String a (s +:+ t).
Proof. done. Qed.

Lemma lower_app (s t : string) : lower (s +:+ t) = lower s +:+ lower t.
Proof.
  induction s as [|a s IH]; [done|].
  rewrite append_cons. cbn [lower]. by rewrite IH.
Qed.

Lemma lower_app_inv (s a b : string) :
  lower s = a +:+ b → ∃ s1 s2, s = s1 +:+ s2 ∧ lower s1 = a ∧ lower s2 = b.
Proof.
  revert s. induction a as [|c a IH]; intros s Hs.
  - by exists "", s.
  - rewrite append_cons in Hs. destruct s as [|x s]; [done|].
    cbn [lower] in Hs. injection Hs as Hx Hs.
    destruct (IH s Hs) as (s1 & s2 & -> & H1 & H2).
    exists (String x s1), s2. split_and!; [done| |done].
    cbn [lower]. by rewrite Hx, H1.
Qed.

Lemma startswith_app (p s : string) : startswith p (p +:+ s) = true.
Proof.
  induction p as [|a p IH]; [done|].
  rewrite append_cons. cbn [startswith]. by rewrite Ascii.eqb_refl, IH.
Qed.

Lemma startswith_inv (p s : string) :
  startswith p s = true → ∃ post, s = p +:+ post.
Proof.
  revert s. induction p as [|a p IH]; intros s Hs; [by exists s|].
  destruct s as [|b s]; [done|]. cbn [startswith] in Hs.
  apply andb_true_iff in Hs as [Hab Hs]. apply Ascii.eqb_eq in Hab as ->.
  destruct (IH s Hs) as [post ->]. by exists post.
Qed.

Lemma contains_iff (needle hay : string) :
  contains needle hay = true ↔ ∃ pre post, hay = pre +:+ needle +:+ post.
Proof.
  split.
  - induction hay as [|c hay IH]; cbn [contains]; intros [H|H]%orb_true_iff; try done.
    + apply startswith_inv in H as [post H]. by exists "", post.
    + apply startswith_inv in H as [post H]. by exists "", post.
    + destruct (IH H) as (pre & post & ->). by exists (String c pre), post.
  - intros (pre & post & ->). induction pre as [|c pre IH].
    + change ("" +:+ needle +:+ post) with (needle +:+ post).
      destruct (needle +:+ post) eqn:E; cbn [contains];
        rewrite <- E, startswith_app; done.
    + rewrite append_cons. cbn [contains]. rewrite IH. apply orb_true_r.
Qed.

(** X8. A name is classed as internal exactly when it holds the five
    letters of ethos in a row, each in either case; any other name is
    external. *)
Theorem classify_customer_spec (name : string) :
  (classify_customer (Some name) = "Internal" ↔
   ∃ pre w post, name = pre +:+ w +:+ post ∧ lower w = "ethos") ∧
  (classify_customer (Some name) ≠ "Internal" →
   classify_customer (Some name) = "External").
Proof.
  split.
  - rewrite classify_customer_internal, contains_iff. split.
    + intros (pre & post & H).
      apply lower_app_inv in H as (s1 & s2 & -> & _ & H).
      apply lower_app_inv in H as (w & s3 & -> & Hw & _).
      by exists s1, w, s3.
    + intros (pre & w & post & -> & Hw).
      exists (lower pre), (lower post). by rewrite !lower_app, Hw.
  - unfold classify_customer. destruct name as [|a name]; [done|].
    by destruct (contains _ _).
Qed.

(** ** The fields of a report *)

Lemma string_snoc_inj (a b : string) (c : ascii) :
  a +:+ String c "" = b +:+ String c "" → a = b.
Proof.
  revert b. induction a as [|x a IH]; intros [|y b] H; try done.
  - rewrite append_cons in H. injection H as _ H. by destruct b.
  - rewrite append_cons in H. injection H as _ H. by destruct a.
  - rewrite !append_cons in H. injection H as -> H. by rewrite (IH b H).
Qed.

Lemma double_quotes_inj (s t : string) :
  double_quotes s = double_quotes t → s = t.
Proof.
  revert t. induction s as [|a s IH]; intros [|b t]; cbn [double_quotes]; try done.
  - by destruct (Ascii.eqb b QUOTE).
  - by destruct (Ascii.eqb a QUOTE).
  - destruct (Ascii.eqb a QUOTE) eqn:Ha, (Ascii.eqb b QUOTE) eqn:Hb;
      intros H; simplify_eq; try congruence.
    + f_equal. by apply IH.
    + f_equal. by apply IH.
Qed.

Lemma needs_quotes_quote (s : string) : needs_quotes (String QUOTE s) = true.
Proof. done. Qed.

(** X9. The field that is written determines the text it was written for:
    two different texts never give the same field.  A field is the text as
    it is, or the text between quotes with each of its quotes doubled, and a
    text that holds a comma, a quote or a line feed is always written in the
    second way. *)
Theorem csv_text_field_injective (s t : string) :
  (csv_text_field s = csv_text_field t → s = t) ∧
  (csv_text_field s = s ∨
   csv_text_field s = String QUOTE (double_quotes s +:+ String QUOTE "")) ∧
  (needs_quotes s = true →
   csv_text_field s = String QUOTE (double_quotes s +:+ String QUOTE "")).
Proof.
  split_and!.
  - unfold csv_text_field.
    destruct (needs_quotes s) eqn:Hs, (needs_quotes t) eqn:Ht.
    + intros [= H]. by apply double_quotes_inj, (string_snoc_inj _ _ QUOTE).
    + intros <-. by rewrite needs_quotes_quote in Ht.
    + intros ->. by rewrite needs_quotes_quote in Hs.
    + done.
  - unfold csv_text_field. destruct (needs_quotes s); [by right|by left].
  - intros H. unfold csv_text_field. by rewrite H.
Qed.

(** ** What a run can raise, and what it has written by then *)

Lemma int_of_string_raises (s : string) (e : exn) :
  int_of_string s = Raise e → e = ValueError.
Proof.
  unfold int_of_string.
  repeat (case_match; try congruence).
Qed.

Lemma list_index_raises {A} (l : list A) (i : Z) (e : exn) :
  list_index l i = Raise e → e = IndexError.
Proof. unfold list_index. repeat (case_match; try congruence). Qed.

Lemma cell_value_raises (shared_strings : list string) (cell : cell_elem) (e : exn) :
  cell_value shared_strings cell = Raise e → e = ValueError ∨ e = IndexError.
Proof.
  unfold cell_value. case_bool_decide.
  - destruct (c_v cell) as [[text|]|]; try done.
    destruct (int_of_string text) as [i|e'] eqn:Hi; simpl.
    + destruct (list_index shared_strings i) as [x|e'] eqn:Hx; simpl; [done|].
      intros [= <-]. right. by eapply list_index_raises.
    + intros [= <-]. left. by eapply int_of_string_raises.
  - case_bool_decide; [by destruct (c_is cell)|by destruct (c_v cell)].
Qed.

Lemma for_each_raises {A S} (body : S → A → result S) (l : list A) (st : S) (e : exn) :
  for_each body l st = Raise e → ∃ st' x, x ∈ l ∧ body st' x = Raise e.
Proof.
  revert st. induction l as [|x l IH]; intros st; cbn [for_each]; [done|].
  destruct (body st x) as [st'|e'] eqn:Hx; cbn [mbind result_bind].
  - intros (st'' & y & Hy & H)%IH. exists st'', y. split; [by right|done].
  - intros [= <-]. exists st, x. split; [by left|done].
Qed.

Lemma parse_sheet_raises (part : option (list (list (option string))))
    (sheet : list (list cell_elem)) (e : exn) :
  parse_sheet part sheet = Raise e →
  e = IndexError ∨ e = AttributeError ∨ e = ValueError.
Proof.
  unfold parse_sheet. intros (rows & row & _ & Hrow)%for_each_raises.
  unfold parse_row in Hrow.
  destruct (for_each _ row _) as [[rv mc]|e'] eqn:Hcells; cbn [mbind result_bind] in Hrow.
  { by case_bool_decide. }
  injection Hrow as ->.
  apply for_each_raises in Hcells as ([rv mc] & cell & _ & Hcell).
  unfold parse_cell in Hcell.
  destruct (c_r cell) as [[|a ref]|]; try done.
  destruct (fst (span is_upper (String a ref))); [injection Hcell as <-; auto|].
  destruct (cell_value _ cell) as [v|e'] eqn:Hv; [done|].
  injection Hcell as ->. apply cell_value_raises in Hv as [->| ->]; auto.
Qed.

Lemma rows_to_dicts_raises (rows : grid) (e : exn) :
  rows_to_dicts rows = Raise e → e = IndexError ∧ rows = [].
Proof. destruct rows; [by intros [= <-]|done]. Qed.

Section RunFailure.
Context (fromisoformat : string → option date) (float_repr : float → string).

Lemma sales_loop_raises (sales : list record) (e : exn) :
  sales_loop fromisoformat sales = Raise e → e = OverflowError.
Proof.
  unfold sales_loop. intros (st & row & _ & H)%for_each_raises.
  rewrite sales_step_eq in H. unfold order_year in H.
  destruct (parse_date fromisoformat _) as [d|e'] eqn:Hd; [done|].
  injection H as ->. by apply parse_date_cell_raises in Hd as [-> _].
Qed.

(** X10. A run that raises has written nothing or the inventory report
    only, never one of the other three reports.  It has written nothing when
    the exception comes from decoding or projecting a sheet ([IndexError],
    [AttributeError] or [ValueError]); otherwise the exception is the
    [OverflowError] of a date in the sales loop, raised when the inventory
    report is on disk already. *)
Theorem main_failure (wb : workbook) (e : exn) :
  outcome (main fromisoformat float_repr wb) = Raise e →
  (written (main fromisoformat float_repr wb) = [] ∧
   (e = IndexError ∨ e = AttributeError ∨ e = ValueError)) ∨
  (e = OverflowError ∧
   ∃ totals,
     written (main fromisoformat float_repr wb) =
     [ (INVENTORY_PATH,
        csv_text float_repr INVENTORY_HEADERS (inventory_output_rows totals)) ]).
Proof.
  unfold main.
  destruct (parse_sheet _ (wb_sheet1 wb)) as [g1|e1] eqn:H1.
  2: { intros [= <-]. left. split; [done|]. by eapply parse_sheet_raises. }
  destruct (parse_sheet _ (wb_sheet2 wb)) as [g2|e2] eqn:H2.
  2: { intros [= <-]. left. split; [done|]. by eapply parse_sheet_raises. }
  run_step.
  destruct (rows_to_dicts g1) as [sales|e3] eqn:H3.
  2: { intros [= <-]. left. split; [done|]. apply rows_to_dicts_raises in H3 as [-> _]. auto. }
  destruct (rows_to_dicts g2) as [inventory|e4] eqn:H4.
  2: { intros [= <-]. left. split; [done|]. apply rows_to_dicts_raises in H4 as [-> _]. auto. }
  run_step.
  destruct (sales_loop fromisoformat sales) as [st|e5] eqn:H5.
  - destruct (reports_written fromisoformat float_repr _ inventory _ H5)
      as (it & pg & cg & _ & _ & _ & ->). done.
  - destruct (reports_abort fromisoformat float_repr _ inventory _ H5) as (it & _ & ->).
    run_step. intros [= <-]. right. split; [by eapply sales_loop_raises|].
    by exists it.
Qed.

(** X11. When each of the two sheets decodes to a header row and nothing
    else, the run ends normally, whatever the headers are, and each of the
    four reports holds its header line only: the names of its columns,
    separated by commas and followed by a line feed. *)
Theorem header_only_run (wb : workbook) (h1 h2 : list (option string)) :
  parse_sheet (wb_shared_strings wb) (wb_sheet1 wb) = Ok [h1] →
  parse_sheet (wb_shared_strings wb) (wb_sheet2 wb) = Ok [h2] →
  main fromisoformat float_repr wb =
  IO [ (INVENTORY_PATH, join "," INVENTORY_HEADERS +:+ NEWLINE);
       (PART_PATH, join "," PART_HEADERS +:+ NEWLINE);
       (CUSTOMER_PATH, join "," CUSTOMER_HEADERS +:+ NEWLINE);
       (COUNT_PATH, join "," COUNT_HEADERS +:+ NEWLINE) ]
     (Ok tt).
Proof.
  intros H1 H2. unfold main. rewrite H1, H2. by vm_compute.
Qed.

End RunFailure.

(** ** The grouping loops *)

Lemma for_each_pure {A S} (body : S → A → result S) (f : S → A → S)
    (l : list A) (st : S) :
  (∀ st x, body st x = Ok (f st x)) → for_each body l st = Ok (foldl f st l).
Proof.
  intros Hbody. revert st. induction l as [|x l IH]; intros st; cbn [for_each foldl]; [done|].
  rewrite Hbody. cbn [mbind result_bind]. apply IH.
Qed.

Lemma foldl_group_step {K V R} `{Countable K} (key : R → K) (valid : R → bool)
    (add : V → R → V) (init : V) (rows : list R) (m : gmap K V) (k : K) :
  foldl (group_step key valid add init) m rows !! k =
  match group_lines key valid k rows with
  | [] => m !! k
  | lines => Some (foldl add (default init (m !! k)) lines)
  end.
Proof.
  revert m. induction rows as [|row rows IH]; intros m; [done|].
  cbn [foldl]. rewrite IH. unfold group_lines. cbn [List.filter].
  unfold group_step. destruct (valid row) eqn:Hv; cbn [andb]; [|done].
  case_bool_decide as Hk.
  - subst k. rewrite lookup_insert_eq. cbn [default foldl].
    by destruct (List.filter _ rows).
  - by rewrite lookup_insert_ne.
Qed.

Lemma elem_of_group_lines {K R} `{EqDecision K} (key : R → K) (valid : R → bool)
    (k : K) (rows : list R) (row : R) :
  row ∈ group_lines key valid k rows ↔ row ∈ rows ∧ valid row = true ∧ key row = k.
Proof.
  unfold group_lines. rewrite !list_elem_of_In, filter_In, andb_true_iff.
  by rewrite bool_decide_eq_true.
Qed.

Lemma elem_of_lines_of {K R} `{EqDecision K} (key : R → K) (k : K) (rows : list R)
    (row : R) :
  row ∈ lines_of key k rows ↔ row ∈ rows ∧ key row = k.
Proof.
  unfold lines_of. rewrite !list_elem_of_In, filter_In.
  by rewrite bool_decide_eq_true.
Qed.

Lemma group_lines_keyed {K R} `{EqDecision K} (key : R → K) (ok : K → bool)
    (k : K) (rows : list R) :
  group_lines key (ok ∘ key) k rows = if ok k then lines_of key k rows else [].
Proof.
  unfold group_lines, lines_of.
  induction rows as [|row rows IH]; cbn [List.filter]; [by destruct (ok k)|].
  rewrite IH. unfold compose. case_bool_decide as Hk.
  - subst k. by destruct (ok (key row)).
  - by rewrite andb_false_r.
Qed.

(** The group a loop that starts from no group holds for a key. *)
Lemma group_lookup_Some {K V R} `{Countable K} (key : R → K) (valid : R → bool)
    (add : V → R → V) (init : V) (rows : list R) (k : K) (g : V) :
  foldl (group_step key valid add init) ∅ rows !! k = Some g ↔
  group_lines key valid k rows ≠ [] ∧
  g = foldl add init (group_lines key valid k rows).
Proof.
  rewrite foldl_group_step, lookup_empty.
  destruct (group_lines key valid k rows) as [|row lines].
  - split; [done|]. by intros [? _].
  - split; [by intros [= <-]|]. by intros [_ ->].
Qed.

Lemma group_keyed_Some {K V R} `{Countable K} (key : R → K) (ok : K → bool)
    (add : V → R → V) (init : V) (rows : list R) (k : K) (g : V) :
  foldl (group_step key (ok ∘ key) add init) ∅ rows !! k = Some g ↔
  ok k = true ∧ lines_of key k rows ≠ [] ∧ g = foldl add init (lines_of key k rows).
Proof.
  rewrite group_lookup_Some, group_lines_keyed.
  destruct (ok k); [|by split; [intros []|intros []]].
  split; [by intros []|by intros (_ & ? & ?)].
Qed.

Lemma keyed_true (k : string * string) : keyed k = true ↔ k.1 ≠ "" ∧ k.2 ≠ "".
Proof. unfold keyed. by rewrite andb_true_iff, !nonempty_true. Qed.

Lemma lines_of_nonempty {K R} `{EqDecision K} (key : R → K) (k : K) (rows : list R) :
  lines_of key k rows ≠ [] ↔ ∃ row, row ∈ rows ∧ key row = k.
Proof.
  split.
  - destruct (lines_of key k rows) as [|row lines] eqn:E; [done|]. intros _.
    exists row. apply elem_of_lines_of. rewrite E. by left.
  - intros (row & Hrow). apply elem_of_lines_of in Hrow.
    intros E. rewrite E in Hrow. by apply elem_of_nil in Hrow.
Qed.

(** ** The inventory totals *)

Lemma inventory_step_group (totals : gmap (string * string) float) (row : record) :
  inventory_step totals row =
  Ok (group_step inventory_key (keyed ∘ inventory_key) add_onhand 0%float totals row).
Proof.
  unfold inventory_step. rewrite to_float_of_cell. cbn [mbind result_bind].
  unfold group_step, keyed, inventory_key, compose, add_onhand, onhand. cbn [fst snd].
  by destruct (_ && _).
Qed.

Lemma foldl_add_onhand (lines : list record) (q : float) :
  foldl add_onhand q lines = foldl PrimFloat.add q (onhand <$> lines).
Proof. revert q. induction lines as [|row lines IH]; intros q; simpl; [done|]. apply IH. Qed.

(** X12. The inventory loop always ends.  It holds a total exactly for
    the pairs of a non-blank trimmed site and a non-blank trimmed part
    number that some inventory record has, and the total of a pair is the
    running float sum, from 0.0 and in sheet order, of the coerced on-hand
    quantities of the records of that pair. *)
Theorem inventory_totals_spec (inventory : list record) :
  ∃ totals,
    for_each inventory_step inventory ∅ = Ok totals ∧
    ∀ k,
      (is_Some (totals !! k) ↔
       k.1 ≠ "" ∧ k.2 ≠ "" ∧ ∃ row, row ∈ inventory ∧ inventory_key row = k) ∧
      (∀ q, totals !! k = Some q →
         q = float_sum (onhand <$> lines_of inventory_key k inventory)).
Proof.
  eexists. split; [apply for_each_pure, inventory_step_group|].
  intros k. split.
  - split.
    + intros [q (Hk & Hne & _)%group_keyed_Some].
      apply keyed_true in Hk as [H1 H2]. by apply lines_of_nonempty in Hne.
    + intros (H1 & H2 & Hrow). eexists. apply group_keyed_Some.
      split_and!; [by apply keyed_true|by apply lines_of_nonempty|done].
  - intros q (_ & _ & ->)%group_keyed_Some. by rewrite foldl_add_onhand.
Qed.

(** ** The keys of the order sums *)

Lemma order_lines_nonempty (o : string) (rows : list record) :
  order_lines o rows ≠ [] ↔ ∃ row, row ∈ rows ∧ order_of row = o.
Proof. apply (lines_of_nonempty order_of o rows). Qed.

Section OrderSums.
Context (fromisoformat : string → option date).

(** X13. When the sales loop ends, it holds a revenue total exactly for
    the non-blank trimmed order numbers of the records it kept.  A cost it
    recorded for an order is never zero, is the coerced cost of a kept
    record of that order, and the order has a revenue total. *)
Theorem order_sums_keys (sales : list record) (st : sales_state) (o : string) :
  sales_loop fromisoformat sales = Ok st →
  (is_Some (order_revenue st !! o) ↔
   o ≠ "" ∧ ∃ row, row ∈ sales ∧ kept fromisoformat row = true ∧ order_of row = o) ∧
  (∀ c, order_cost st !! o = Some c →
        float_truthy c = true ∧ is_Some (order_revenue st !! o) ∧
        ∃ row, row ∈ sales ∧ kept fromisoformat row = true ∧ order_of row = o
               ∧ line_cost row = c).
Proof.
  intros Hst. rewrite (sales_loop_result _ _ _ Hst). cbn [order_revenue order_cost].
  set (rows := List.filter (kept fromisoformat) sales).
  assert (∀ row, row ∈ rows ↔ row ∈ sales ∧ kept fromisoformat row = true) as Hrows.
  { intros row. unfold rows. by rewrite !list_elem_of_In, filter_In. }
  assert (is_Some (foldl revenue_after ∅ rows !! o) ↔
          o ≠ "" ∧ ∃ row, row ∈ sales ∧ kept fromisoformat row = true ∧ order_of row = o)
    as Hrev.
  { destruct (decide (o = "")) as [->|Ho].
    - rewrite revenue_after_blank, lookup_empty. split; [by intros []|by intros []].
    - rewrite revenue_after_is_Some, lookup_empty, order_lines_nonempty by done. split.
      + intros [[]|(row & [Hin Hk]%Hrows & Hrow)]; [done|]. split; [done|]. by exists row.
      + intros (_ & row & Hin & Hk & Hrow). right. exists row. by rewrite Hrows. }
  split; [done|]. intros c Hc.
  destruct (decide (o = "")) as [->|Ho].
  { by rewrite cost_after_blank, lookup_empty in Hc. }
  rewrite cost_after_first, lookup_empty in Hc by done.
  apply head_Some_elem_of, list_elem_of_In, filter_In in Hc as [Hin Htruthy].
  apply list_elem_of_In, list_elem_of_fmap in Hin as (row & -> & Hrow).
  apply list_elem_of_In, filter_In in Hrow as [Hrow Ho'].
  apply list_elem_of_In, Hrows in Hrow as [Hin Hk].
  apply bool_decide_eq_true in Ho'.
  split; [done|]. split.
  - apply Hrev. split; [done|]. by exists row.
  - by exists row.
Qed.

End OrderSums.

(** ** The part groups *)

Lemma part_step_group (groups : gmap (string * string) part_group) (row : sales_row) :
  part_step groups row =
  Ok (group_step part_key (keyed ∘ part_key) add_part_line new_part_group groups row).
Proof.
  unfold part_step, group_step, keyed, part_key, compose, add_part_line, row_qty,
    row_customer, line_qty, customer_of.
  cbn [fst snd].
  destruct (nonempty (get_text (sr_cells row) "Site"));
    destruct (nonempty (get_text (sr_cells row) "Part Number")); cbn [negb orb andb];
    try done.
  by rewrite to_float_of_cell.
Qed.

Lemma part_groups_lookup (rows : list sales_row) :
  ∃ groups,
    for_each part_step rows ∅ = Ok groups ∧
    ∀ k g, groups !! k = Some g →
      g = foldl add_part_line new_part_group (lines_of part_key k rows).
Proof.
  eexists. split; [apply for_each_pure, part_step_group|].
  by intros k g (_ & _ & ->)%group_keyed_Some.
Qed.

Lemma union_singleton_move (c : string) (X L : gset string) :
  ({[c]} ∪ X) ∪ L = X ∪ ({[c]} ∪ L).
Proof. by rewrite (assoc_L (∪) X), (comm_L (∪) X {[c]}). Qed.

Lemma fold_part_customers (lines : list sales_row) (g0 : part_group) :
  pg_customers (foldl add_part_line g0 lines)
    = pg_customers g0 ∪ list_to_set (row_customer <$> lines) ∧
  pg_internal_customers (foldl add_part_line g0 lines)
    = pg_internal_customers g0
      ∪ list_to_set (row_customer <$> List.filter is_internal lines) ∧
  pg_external_customers (foldl add_part_line g0 lines)
    = pg_external_customers g0
      ∪ list_to_set (row_customer <$> List.filter is_external lines).
Proof.
  revert g0. induction lines as [|row lines IH]; intros g0.
  - cbn. by rewrite !(right_id_L ∅ (∪)).
  - cbn [foldl List.filter]. destruct (IH (add_part_line g0 row)) as (-> & -> & ->).
    unfold is_external, is_internal, add_part_line, add_to_part_group.
    cbn [pg_customers pg_internal_customers pg_external_customers].
    destruct (bool_decide _); cbn [negb fmap list_fmap list_to_set];
      split_and!; done || apply union_singleton_move.
Qed.

Lemma fold_part_sums (lines : list sales_row) (g0 : part_group) :
  pg_revenue_gbp (foldl add_part_line g0 lines)
    = foldl PrimFloat.add (pg_revenue_gbp g0) (sr_revenue_gbp <$> lines) ∧
  pg_units (foldl add_part_line g0 lines)
    = foldl PrimFloat.add (pg_units g0) (row_qty <$> lines) ∧
  pg_cost_alloc_usd (foldl add_part_line g0 lines)
    = foldl PrimFloat.add (pg_cost_alloc_usd g0) (get_cost_alloc <$> lines) ∧
  pg_internal_revenue_gbp (foldl add_part_line g0 lines)
    = foldl PrimFloat.add (pg_internal_revenue_gbp g0)
        (sr_revenue_gbp <$> List.filter is_internal lines) ∧
  pg_external_revenue_gbp (foldl add_part_line g0 lines)
    = foldl PrimFloat.add (pg_external_revenue_gbp g0)
        (sr_revenue_gbp <$> List.filter is_external lines) ∧
  pg_internal_units (foldl add_part_line g0 lines)
    = foldl PrimFloat.add (pg_internal_units g0)
        (row_qty <$> List.filter is_internal lines) ∧
  pg_external_units (foldl add_part_line g0 lines)
    = foldl PrimFloat.add (pg_external_units g0)
        (row_qty <$> List.filter is_external lines).
Proof.
  revert g0. induction lines as [|row lines IH]; intros g0; [done|].
  cbn [foldl List.filter].
  destruct (IH (add_part_line g0 row)) as (-> & -> & -> & -> & -> & -> & ->).
  unfold is_external, is_internal, add_part_line, add_to_part_group.
  cbn [pg_revenue_gbp pg_units pg_cost_alloc_usd pg_internal_revenue_gbp
       pg_external_revenue_gbp pg_internal_units pg_external_units].
  by destruct (bool_decide _).
Qed.

Lemma elem_of_filter_fmap {A B} (f : A → B) (p : A → bool) (l : list A) (y : B) :
  y ∈ f <$> List.filter p l ↔ ∃ x, x ∈ l ∧ p x = true ∧ f x = y.
Proof.
  rewrite list_elem_of_fmap. split.
  - intros (x & -> & Hx). apply list_elem_of_In, filter_In in Hx as [Hx Hp].
    exists x. by rewrite list_elem_of_In.
  - intros (x & Hx & Hp & <-). exists x. split; [done|].
    apply list_elem_of_In, filter_In. by rewrite <- list_elem_of_In.
Qed.

(** The customers of a group split by class, given the members of the
    three sets. *)
Lemma customer_split (lines : list sales_row) (all internal external : gset string) :
  all = list_to_set (row_customer <$> lines) →
  internal = list_to_set (row_customer <$> List.filter is_internal lines) →
  external = list_to_set (row_customer <$> List.filter is_external lines) →
  (∀ c, c ∈ all ↔ ∃ row, row ∈ lines ∧ row_customer row = c) ∧
  (∀ c, c ∈ internal ↔ c ∈ all ∧ classify_customer (Some c) = "Internal") ∧
  (∀ c, c ∈ external ↔ c ∈ all ∧ classify_customer (Some c) ≠ "Internal") ∧
  len all = len internal + len external.
Proof.
  intros -> -> ->.
  assert (∀ c, c ∈ (list_to_set (row_customer <$> lines) : gset string) ↔
               ∃ row, row ∈ lines ∧ row_customer row = c) as Hall.
  { intros c. rewrite elem_of_list_to_set, list_elem_of_fmap. split.
    - intros (row & -> & Hrow). by exists row.
    - intros (row & Hrow & <-). by exists row. }
  assert (∀ c, c ∈ (list_to_set (row_customer <$> List.filter is_internal lines)
                     : gset string) ↔
               c ∈ (list_to_set (row_customer <$> lines) : gset string)
               ∧ classify_customer (Some c) = "Internal") as Hint.
  { intros c. rewrite Hall, elem_of_list_to_set, elem_of_filter_fmap. split.
    - intros (row & Hrow & Hi & <-). apply bool_decide_eq_true in Hi. eauto.
    - intros ((row & Hrow & <-) & Hi). exists row. split_and!; [done| |done].
      by apply bool_decide_eq_true. }
  assert (∀ c, c ∈ (list_to_set (row_customer <$> List.filter is_external lines)
                     : gset string) ↔
               c ∈ (list_to_set (row_customer <$> lines) : gset string)
               ∧ classify_customer (Some c) ≠ "Internal") as Hext.
  { intros c. rewrite Hall, elem_of_list_to_set, elem_of_filter_fmap. split.
    - intros (row & Hrow & Hi & <-). apply negb_true_iff, bool_decide_eq_false in Hi. eauto.
    - intros ((row & Hrow & <-) & Hi). exists row. split_and!; [done| |done].
      by apply negb_true_iff, bool_decide_eq_false. }
  split_and!; [done..|].
  unfold len. rewrite <- Nat2Z.inj_add, <- size_union.
  - f_equal. f_equal. apply set_eq. intros c. rewrite elem_of_union, Hint, Hext.
    destruct (decide (classify_customer (Some c) = "Internal")); tauto.
  - apply elem_of_disjoint. intros c. rewrite Hint, Hext. tauto.
Qed.

(** X14. The part loop always ends.  The customers of a group are the
    trimmed customer names of the records of its key, the empty name of a
    record without customer included; the internal customers are those of
    them that are classed internal and the external customers are the
    others, so that the customer count of a group is the sum of its internal
    and external counts. *)
Theorem part_group_customers (rows : list sales_row) :
  ∃ groups,
    for_each part_step rows ∅ = Ok groups ∧
    ∀ k g, groups !! k = Some g →
      (∀ c, c ∈ pg_customers g ↔
            ∃ row, row ∈ rows ∧ part_key row = k ∧ row_customer row = c) ∧
      (∀ c, c ∈ pg_internal_customers g ↔
            c ∈ pg_customers g ∧ classify_customer (Some c) = "Internal") ∧
      (∀ c, c ∈ pg_external_customers g ↔
            c ∈ pg_customers g ∧ classify_customer (Some c) ≠ "Internal") ∧
      len (pg_customers g) = len (pg_internal_customers g) + len (pg_external_customers g).
Proof.
  destruct (part_groups_lookup rows) as (groups & Hrun & Hlook).
  exists groups. split; [done|]. intros k g Hg.
  rewrite (Hlook k g Hg).
  destruct (fold_part_customers (lines_of part_key k rows) new_part_group)
    as (Hall & Hint & Hext).
  cbn [new_part_group pg_customers pg_internal_customers pg_external_customers] in *.
  rewrite (left_id_L ∅ (∪)) in Hall, Hint, Hext.
  destruct (customer_split _ _ _ _ Hall Hint Hext) as (H1 & H2 & H3 & H4).
  split_and!; [|done..].
  intros c. rewrite H1. split.
  - intros (row & [Hrow Hk]%elem_of_lines_of & Hc). eauto.
  - intros (row & Hrow & Hk & Hc). exists row. by rewrite elem_of_lines_of.
Qed.

(** X15. Every sum of a part group is the running float sum, from 0.0 and
    in the order of the working set, over the records of the group's key:
    of their revenues, quantities and allocated costs, and for the internal
    and external sums over the records of that class only. *)
Theorem part_group_sums (rows : list sales_row) :
  ∃ groups,
    for_each part_step rows ∅ = Ok groups ∧
    ∀ k g, groups !! k = Some g →
      let lines := lines_of part_key k rows in
      pg_revenue_gbp g = float_sum (sr_revenue_gbp <$> lines) ∧
      pg_units g = float_sum (row_qty <$> lines) ∧
      pg_cost_alloc_usd g = float_sum (get_cost_alloc <$> lines) ∧
      pg_internal_revenue_gbp g
        = float_sum (sr_revenue_gbp <$> List.filter is_internal lines) ∧
      pg_external_revenue_gbp g
        = float_sum (sr_revenue_gbp <$> List.filter is_external lines) ∧
      pg_internal_units g = float_sum (row_qty <$> List.filter is_internal lines) ∧
      pg_external_units g = float_sum (row_qty <$> List.filter is_external lines).
Proof.
  destruct (part_groups_lookup rows) as (groups & Hrun & Hlook).
  exists groups. split; [done|]. intros k g Hg.
  rewrite (Hlook k g Hg).
  apply (fold_part_sums (lines_of part_key k rows) new_part_group).
Qed.

(** ** The customer groups *)

Lemma customer_step_group (groups : gmap (string * string) customer_group)
    (row : sales_row) :
  customer_step groups row =
  Ok (group_step customer_key (keyed ∘ customer_key) add_customer_line
        new_customer_group groups row).
Proof.
  unfold customer_step, group_step, keyed, customer_key, compose, add_customer_line,
    opportunity_of, row_qty, row_customer, line_qty, customer_of.
  cbn [fst snd].
  destruct (nonempty (get_text (sr_cells row) "Site"));
    destruct (nonempty (get_text (sr_cells row) "Customer Name")); cbn [negb orb andb];
    try done.
  by rewrite to_float_of_cell.
Qed.

Lemma fold_customer_lines (lines : list sales_row) (g0 : customer_group) :
  cg_revenue_gbp (foldl add_customer_line g0 lines)
    = foldl PrimFloat.add (cg_revenue_gbp g0) (sr_revenue_gbp <$> lines) ∧
  cg_units (foldl add_customer_line g0 lines)
    = foldl PrimFloat.add (cg_units g0) (row_qty <$> lines) ∧
  cg_cost_alloc_usd (foldl add_customer_line g0 lines)
    = foldl PrimFloat.add (cg_cost_alloc_usd g0) (get_cost_alloc <$> lines) ∧
  ∀ o, o ∈ cg_opportunities (foldl add_customer_line g0 lines) ↔
       o ∈ cg_opportunities g0 ∨
       (o ≠ "" ∧ ∃ row, row ∈ lines ∧ opportunity_of row = o).
Proof.
  revert g0. induction lines as [|row lines IH]; intros g0.
  - split_and!; try done. intros o. split; [by left|].
    intros [H|(_ & row & Hrow & _)]; [done|]. by apply elem_of_nil in Hrow.
  - cbn [foldl]. destruct (IH (add_customer_line g0 row)) as (-> & -> & -> & Hopp).
    split_and!; try done.
    intros o. rewrite Hopp. unfold add_customer_line at 1. cbn [cg_opportunities].
    destruct (nonempty (opportunity_of row)) eqn:Hne.
    + apply nonempty_true in Hne. rewrite elem_of_union, elem_of_singleton. split.
      * intros [[->|H]|(Ho & r & Hr & Hro)]; [|by left|].
        -- right. split; [done|]. exists row. split; [by left|done].
        -- right. split; [done|]. exists r. split; [by right|done].
      * intros [H|(Ho & r & Hr & Hro)]; [by left; right|].
        apply elem_of_cons in Hr as [->|Hr]; [by left; left|].
        right. split; [done|]. by exists r.
    + apply nonempty_false in Hne. split.
      * intros [H|(Ho & r & Hr & Hro)]; [by left|].
        right. split; [done|]. exists r. split; [by right|done].
      * intros [H|(Ho & r & Hr & Hro)]; [by left|].
        apply elem_of_cons in Hr as [->|Hr]; [congruence|].
        right. split; [done|]. by exists r.
Qed.

(** X16. The customer loop always ends.  It holds a group exactly for the
    pairs of a non-blank site and a non-blank customer that some record of
    the working set has; the sums of a group are the running float sums over
    the records of its key, and its opportunities are the non-blank
    opportunity texts of these records: a blank one is not counted. *)
Theorem customer_groups_spec (rows : list sales_row) :
  ∃ groups,
    for_each customer_step rows ∅ = Ok groups ∧
    ∀ k,
      (is_Some (groups !! k) ↔
       k.1 ≠ "" ∧ k.2 ≠ "" ∧ ∃ row, row ∈ rows ∧ customer_key row = k) ∧
      ∀ g, groups !! k = Some g →
        let lines := lines_of customer_key k rows in
        cg_revenue_gbp g = float_sum (sr_revenue_gbp <$> lines) ∧
        cg_units g = float_sum (row_qty <$> lines) ∧
        cg_cost_alloc_usd g = float_sum (get_cost_alloc <$> lines) ∧
        ∀ o, o ∈ cg_opportunities g ↔
             o ≠ "" ∧ ∃ row, row ∈ rows ∧ customer_key row = k ∧ opportunity_of row = o.
Proof.
  eexists. split; [apply for_each_pure, customer_step_group|].
  intros k. split.
  - split.
    + intros [g (Hk & Hne & _)%group_keyed_Some].
      apply keyed_true in Hk as [H1 H2]. by apply lines_of_nonempty in Hne.
    + intros (H1 & H2 & Hrow). eexists. apply group_keyed_Some.
      split_and!; [by apply keyed_true|by apply lines_of_nonempty|done].
  - intros g (_ & _ & ->)%group_keyed_Some.
    destruct (fold_customer_lines (lines_of customer_key k rows) new_customer_group)
      as (Hrev & Hunits & Hcost & Hopp).
    split_and!; [done..|].
    intros o. rewrite Hopp. cbn [new_customer_group cg_opportunities]. split.
    + intros [H|(Ho & r & [Hr Hkey]%elem_of_lines_of & Hro)]; [by apply elem_of_empty in H|].
      split; [done|]. by exists r.
    + intros (Ho & r & Hr & Hkey & Hro). right. split; [done|].
      exists r. by rewrite elem_of_lines_of.
Qed.

(** ** The customer counts *)

Lemma count_step_group (counts : gmap (string * Z * string) count_group)
    (row : sales_row) :
  count_step counts row =
  group_step count_key counted add_count_line new_count_group counts row.
Proof.
  unfold count_step, group_step, counted, count_key, add_count_line, is_internal,
    row_customer, customer_of.
  destruct (nonempty (get_text (sr_cells row) "Site"));
    destruct (nonempty (get_text (sr_cells row) "Part Number"));
    destruct (sr_parsed_year row =? 0);
    destruct (nonempty (get_text (sr_cells row) "Customer Name")); done.
Qed.

Lemma foldl_count_step (rows : list sales_row)
    (counts : gmap (string * Z * string) count_group) :
  foldl count_step counts rows =
  foldl (group_step count_key counted add_count_line new_count_group) counts rows.
Proof.
  revert counts. induction rows as [|row rows IH]; intros counts; [done|].
  cbn [foldl]. by rewrite count_step_group, IH.
Qed.

Lemma fold_count_customers (lines : list sales_row) (g0 : count_group) :
  ng_customers (foldl add_count_line g0 lines)
    = ng_customers g0 ∪ list_to_set (row_customer <$> lines) ∧
  ng_internal_customers (foldl add_count_line g0 lines)
    = ng_internal_customers g0
      ∪ list_to_set (row_customer <$> List.filter is_internal lines) ∧
  ng_external_customers (foldl add_count_line g0 lines)
    = ng_external_customers g0
      ∪ list_to_set (row_customer <$> List.filter is_external lines).
Proof.
  revert g0. induction lines as [|row lines IH]; intros g0.
  - cbn. by rewrite !(right_id_L ∅ (∪)).
  - cbn [foldl List.filter]. destruct (IH (add_count_line g0 row)) as (-> & -> & ->).
    unfold is_external, add_count_line.
    cbn [ng_customers ng_internal_customers ng_external_customers].
    destruct (is_internal row); cbn [negb fmap list_fmap list_to_set];
      split_and!; done || apply union_singleton_move.
Qed.

(** The group the counting loop holds for a key, and its three sets. *)
Lemma count_group_members (rows : list sales_row) (k : string * Z * string)
    (g : count_group) :
  foldl count_step ∅ rows !! k = Some g →
  (∃ row, row ∈ rows ∧ counted row = true ∧ count_key row = k) ∧
  (∀ c, c ∈ ng_customers g ↔
        ∃ row, row ∈ rows ∧ counted row = true ∧ count_key row = k
               ∧ row_customer row = c) ∧
  (∀ c, c ∈ ng_internal_customers g ↔
        c ∈ ng_customers g ∧ classify_customer (Some c) = "Internal") ∧
  (∀ c, c ∈ ng_external_customers g ↔
        c ∈ ng_customers g ∧ classify_customer (Some c) ≠ "Internal") ∧
  1 ≤ len (ng_customers g) ∧
  len (ng_customers g) = len (ng_internal_customers g) + len (ng_external_customers g).
Proof.
  rewrite foldl_count_step. intros [Hne ->]%group_lookup_Some.
  destruct (fold_count_customers (group_lines count_key counted k rows) new_count_group)
    as (Hall & Hint & Hext).
  cbn [new_count_group ng_customers ng_internal_customers ng_external_customers] in *.
  rewrite (left_id_L ∅ (∪)) in Hall, Hint, Hext.
  destruct (customer_split _ _ _ _ Hall Hint Hext) as (H1 & H2 & H3 & H4).
  destruct (group_lines count_key counted k rows) as [|row lines] eqn:E; [done|].
  assert (row ∈ rows ∧ counted row = true ∧ count_key row = k) as Hrow.
  { apply elem_of_group_lines. rewrite E. by left. }
  split_and!; [by exists row| |done|done| |done].
  - intros c. rewrite H1, <- E. split.
    + intros (r & (Hr & Hc & Hk)%elem_of_group_lines & Hrc). by exists r.
    + intros (r & Hr & Hc & Hk & Hrc). exists r. by rewrite elem_of_group_lines.
  - assert (row_customer row ∈ ng_customers
              (foldl add_count_line new_count_group (row :: lines))) as Hin.
    { rewrite H1. exists row. split; [by left|done]. }
    unfold len. apply elem_of_subseteq_singleton, subseteq_size in Hin.
    rewrite size_singleton in Hin. lia.
Qed.

(** X17. The counting loop holds a group exactly for the keys (site, year,
    part) of the records whose site, part, year and customer are all truthy.
    The customers of a group are the customer names of these records, never
    the empty name; they split into the internal and the external ones by
    their class, and the count is the sum of the two partial counts. *)
Theorem count_groups_spec (rows : list sales_row) (k : string * Z * string) :
  (is_Some (foldl count_step ∅ rows !! k) ↔
   ∃ row, row ∈ rows ∧ counted row = true ∧ count_key row = k) ∧
  ∀ g, foldl count_step ∅ rows !! k = Some g →
    (∀ c, c ∈ ng_customers g ↔
          ∃ row, row ∈ rows ∧ counted row = true ∧ count_key row = k
                 ∧ row_customer row = c) ∧
    (∀ c, c ∈ ng_internal_customers g ↔
          c ∈ ng_customers g ∧ classify_customer (Some c) = "Internal") ∧
    (∀ c, c ∈ ng_external_customers g ↔
          c ∈ ng_customers g ∧ classify_customer (Some c) ≠ "Internal") ∧
    ("" ∉ ng_customers g) ∧
    len (ng_customers g) = len (ng_internal_customers g) + len (ng_external_customers g).
Proof.
  split.
  - split.
    + intros [g Hg]. by destruct (count_group_members _ _ _ Hg) as [Hrow _].
    + intros (row & Hrow). apply elem_of_group_lines in Hrow.
      rewrite foldl_count_step. eexists. apply group_lookup_Some. split; [|done].
      intros E. rewrite E in Hrow. by apply elem_of_nil in Hrow.
  - intros g Hg.
    destruct (count_group_members _ _ _ Hg) as (_ & Hmem & Hint & Hext & _ & Hsum).
    split_and!; [done..| |done].
    rewrite Hmem. intros (r & _ & Hc & _ & Hrc).
    unfold counted in Hc. rewrite Hrc in Hc.
    by rewrite andb_false_r in Hc.
Qed.

Section CountReport.
Context (fromisoformat : string → option date).

(** X18. Every data row of the counts report of a run has a non-blank
    site, a non-blank part number and a year from 2019 to 2025; it counts at
    least one customer, and its customer count is the sum of its internal
    and external counts. *)
Theorem count_report_rows (sales : list record) (st : sales_state)
    (line : list csv_cell) :
  sales_loop fromisoformat sales = Ok st →
  line ∈ count_table (allocate st) →
  ∃ site y part n n_int n_ext,
    line = [CStr site; CInt y; CStr part; CInt n; CInt n_int; CInt n_ext] ∧
    site ≠ "" ∧ part ≠ "" ∧ 2019 ≤ y ≤ 2025 ∧ 1 ≤ n ∧ n = n_int + n_ext.
Proof.
  intros Hst. unfold count_table, count_rows.
  intros ([[[site y] part] g] & -> & Hitem)%list_elem_of_fmap.
  apply elem_of_sorted_items in Hitem.
  destruct (count_group_members _ _ _ Hitem)
    as ((row & Hrow & Hc & Hk) & _ & _ & _ & Hone & Hsum).
  destruct (elem_of_allocate fromisoformat _ _ _ Hst Hrow) as (_ & Hkept & Hyear & _).
  apply kept_iff in Hkept as (y' & Hy' & Hwin).
  unfold parsed_year in Hyear. rewrite Hy' in Hyear.
  unfold count_key in Hk. injection Hk as Hs Hy Hp.
  unfold counted in Hc. rewrite Hs, Hp in Hc.
  apply andb_true_iff in Hc as [[[Hsite Hpart]%andb_true_iff _]%andb_true_iff _].
  apply nonempty_true in Hsite, Hpart.
  eexists site, y, part, _, _, _. split; [done|].
  split_and!; try done; lia.
Qed.

End CountReport.

(** ** The rows of a report and the groups *)

Lemma sorted_items_keys {K V} `{Countable K} (leb : K → K → bool) (d : gmap K V)
    (f : K * V → list csv_cell) (key : list csv_cell → K) :
  (∀ item, key (f item) = item.1) →
  key <$> (f <$> sorted_items leb d) ≡ₚ (map_to_list d).*1.
Proof.
  intros Hkey. rewrite <- list_fmap_compose. unfold sorted_items.
  rewrite merge_sort_Permutation.
  assert (key ∘ f <$> map_to_list d = (map_to_list d).*1) as ->; [|done].
  apply list_fmap_ext. intros _ item _. apply Hkey.
Qed.

Lemma sorted_items_length {K V} `{Countable K} (leb : K → K → bool) (d : gmap K V)
    (f : K * V → list csv_cell) :
  length (f <$> sorted_items leb d) = size d.
Proof.
  unfold sorted_items.
  by rewrite length_fmap, merge_sort_Permutation, length_map_to_list.
Qed.

(** X19. Each report has exactly one data row for each group of its
    dictionary: the keys that its data rows start with are the keys of the
    dictionary, each of them once, and there are as many data rows as
    groups. *)
Theorem report_rows_of_groups (totals : gmap (string * string) float)
    (part_groups : gmap (string * string) part_group)
    (customer_groups : gmap (string * string) customer_group)
    (customer_counts : gmap (string * Z * string) count_group) :
  row_key2 <$> inventory_output_rows totals ≡ₚ (map_to_list totals).*1 ∧
  row_key2 <$> part_rows totals part_groups ≡ₚ (map_to_list part_groups).*1 ∧
  row_key2 <$> customer_rows customer_groups ≡ₚ (map_to_list customer_groups).*1 ∧
  row_key3 <$> count_rows customer_counts ≡ₚ (map_to_list customer_counts).*1 ∧
  length (inventory_output_rows totals) = size totals ∧
  length (part_rows totals part_groups) = size part_groups ∧
  length (customer_rows customer_groups) = size customer_groups ∧
  length (count_rows customer_counts) = size customer_counts.
Proof.
  split_and!; try apply sorted_items_length.
  - apply sorted_items_keys. by intros [[] ?].
  - apply sorted_items_keys. by intros [[] ?].
  - apply sorted_items_keys. by intros [[] ?].
  - apply sorted_items_keys. by intros [[[] ?] ?].
Qed.

(** ** The rows of the two pareto reports *)

(** X20. Every data row of the part report has fifteen cells.  It starts
    with a non-blank site and a non-blank part number; it counts at least
    one customer, and its customer count is the sum of its internal and
    external counts; its last two cells, under Revenue_USD and Margin_USD,
    are empty. *)
Theorem part_report_rows (totals : gmap (string * string) float)
    (rows : list sales_row) (table : list (list csv_cell)) (line : list csv_cell) :
  part_table totals rows = Ok table →
  line ∈ table →
  ∃ site part n n_int n_ext,
    length line = 15%nat ∧
    line !! 0%nat = Some (CStr site) ∧ line !! 1%nat = Some (CStr part) ∧
    line !! 4%nat = Some (CInt n) ∧
    line !! 9%nat = Some (CInt n_int) ∧ line !! 10%nat = Some (CInt n_ext) ∧
    line !! 13%nat = Some (CStr "") ∧ line !! 14%nat = Some (CStr "") ∧
    site ≠ "" ∧ part ≠ "" ∧ 1 ≤ n ∧ n = n_int + n_ext.
Proof.
  unfold part_table. rewrite (for_each_pure _ _ _ _ part_step_group).
  intros [= <-]. unfold part_rows.
  intros ([[site part] g] & -> & Hitem)%list_elem_of_fmap.
  apply elem_of_sorted_items, group_keyed_Some in Hitem as (Hk & Hne & ->).
  apply keyed_true in Hk as [Hsite Hpart].
  destruct (fold_part_customers (lines_of part_key (site, part) rows) new_part_group)
    as (Hall & Hint & Hext).
  cbn [new_part_group pg_customers pg_internal_customers pg_external_customers] in *.
  rewrite (left_id_L ∅ (∪)) in Hall, Hint, Hext.
  destruct (customer_split _ _ _ _ Hall Hint Hext) as (H1 & _ & _ & Hsum).
  eexists site, part, _, _, _. cbn [part_row].
  split_and!; try done.
  destruct (lines_of part_key (site, part) rows) as [|row lines] eqn:E; [done|].
  assert (row_customer row
            ∈ pg_customers (foldl add_part_line new_part_group (row :: lines))) as Hin.
  { rewrite H1. exists row. split; [by left|done]. }
  unfold len. apply elem_of_subseteq_singleton, subseteq_size in Hin.
  rewrite size_singleton in Hin. lia.
Qed.

(** X21. Every data row of the customer report has nine cells.  It starts
    with a non-blank site and a non-blank customer name that a record of the
    working set has; its third cell is the class of this customer, and its
    last two cells, under Revenue_USD and Margin_USD, are empty. *)
Theorem customer_report_rows (rows : list sales_row) (table : list (list csv_cell))
    (line : list csv_cell) :
  customer_table rows = Ok table →
  line ∈ table →
  ∃ site customer,
    length line = 9%nat ∧
    line !! 0%nat = Some (CStr site) ∧ line !! 1%nat = Some (CStr customer) ∧
    line !! 2%nat = Some (CStr (classify_customer (Some customer))) ∧
    line !! 7%nat = Some (CStr "") ∧ line !! 8%nat = Some (CStr "") ∧
    site ≠ "" ∧ customer ≠ "" ∧
    ∃ row, row ∈ rows ∧ customer_key row = (site, customer).
Proof.
  unfold customer_table. rewrite (for_each_pure _ _ _ _ customer_step_group).
  intros [= <-]. unfold customer_rows.
  intros ([[site customer] g] & -> & Hitem)%list_elem_of_fmap.
  apply elem_of_sorted_items, group_keyed_Some in Hitem as (Hk & Hne & ->).
  apply keyed_true in Hk as [Hsite Hcustomer].
  apply lines_of_nonempty in Hne.
  exists site, customer. cbn [customer_row]. by split_and!.
Qed.

(** ** Instances *)

(** The coercion on a text of blanks and commas, and on a number with a
    thousands separator. *)
Lemma to_float_spec_witness :
  to_float (VStr " , ") = Ok 0%float ∧ to_float (VStr "12,5") = Ok 125%float.
Proof.
  destruct to_float_spec as (_ & _ & Hblank & Hnum & _).
  split.
  - apply Hblank. by vm_compute.
  - apply Hnum; by vm_compute.
Defined.

(** The allocation on an order of two line items, 60 and 40, with cost 10. *)
Lemma allocation_spec_witness :
  sales_loop iso_none two_line_order = Ok (final_state two_line_order) ∧
  sr_cost_alloc_usd <$>
    List.filter (fun row => bool_decide (order_of (sr_cells row) = "SO-1"))
      (allocate (final_state two_line_order))
  = [Some 6%float; Some 4%float] ∧
  PrimFloat.add 6 4 = 10%float.
Proof.
  assert (sales_loop iso_none two_line_order = Ok (final_state two_line_order)) as Hst.
  { by vm_compute. }
  split; [exact Hst|].
  apply (proj2 (allocation_spec iso_none two_line_order _ Hst) "SO-1").
  - discriminate.
  - by vm_compute.
  - by vm_compute.
Defined.

(** Five records dated 2018, 2019, 2025, 2026 and undated: the second and
    the third are kept, and the run is the run on these two. *)
Lemma year_filter_spec_witness :
  sales_loop iso_none dated_sales = Ok (final_state dated_sales) ∧
  order_of <$> List.filter (kept iso_none) dated_sales = ["B"; "C"] ∧
  reports iso_none repr_none (List.filter (kept iso_none) dated_sales) []
  = reports iso_none repr_none dated_sales [].
Proof.
  assert (sales_loop iso_none dated_sales = Ok (final_state dated_sales)) as Hst.
  { by vm_compute. }
  split; [exact Hst|]. split; [by vm_compute|].
  destruct (year_filter_spec iso_none repr_none dated_sales []) as (_ & _ & _ & Hrun & _).
  apply (Hrun _ Hst).
Defined.

(** An order whose line items carry the costs 0, 7 and 9: 7 is recorded. *)
Lemma first_nonzero_cost_wins_witness :
  sales_loop iso_none costed_order = Ok (final_state costed_order) ∧
  order_cost (final_state costed_order) !! "SO-9" = Some 7%float.
Proof.
  assert (sales_loop iso_none costed_order = Ok (final_state costed_order)) as Hst.
  { by vm_compute. }
  split; [exact Hst|].
  assert ("SO-9" ≠ "") as Hne by discriminate.
  rewrite (proj1 (first_nonzero_cost_wins iso_none costed_order _ "SO-9" Hst Hne)).
  by vm_compute.
Defined.

(** A sheet whose first and third columns are both headed A, with a row of
    three cells and a row of one: under A the records hold the third cell of
    the first row, "3" and not "1", and nothing for the second row. *)
Lemma duplicate_header_rightmost_witness :
  (fun r : record => r !! "A")
    <$> from_ok [] (rows_to_dicts (duplicate_first :: duplicate_data))
    = [Some (Some "3"); Some None] ∧
  ∃ records,
    rows_to_dicts (duplicate_first :: duplicate_data) = Ok records ∧
    length records = length duplicate_data ∧
    (∀ k row, duplicate_data !! k = Some row →
       ∃ r, records !! k = Some r ∧
         (∀ v, row !! 2%nat = Some v → r !! "A" = Some v) ∧
         ((length row ≤ 2)%nat → r !! "A" = Some None)) ∧
    (∀ data',
       Forall2 (fun row row' : list (option string) =>
                  ∀ p, ((normalize_header <$> duplicate_first) !! p = Some "A" → p = 2%nat) →
                       row !! p = row' !! p) duplicate_data data' →
       rows_to_dicts (duplicate_first :: data') = Ok records).
Proof.
  split; [by vm_compute|].
  apply (duplicate_header_rightmost duplicate_first duplicate_data "A" 2).
  - discriminate.
  - by vm_compute.
  - intros j Hj. destruct j as [|[|[|j]]]; [lia..|]. discriminate.
Defined.


(** A sheet of two shared-string cells, a one-row grid and the dated records. *)
Lemma stages_return_witness :
  Forall (Forall (cell_decodes (parse_shared_strings shared_part))) shared_sheet ∧
  [duplicate_first] ≠ [] ∧
  Forall (coerces iso_none) dated_sales ∧
  parse_sheet shared_part shared_sheet = Ok [[Some "Site"; Some "Part No"]] ∧
  outcome (reports iso_none repr_none dated_sales []) = Ok tt.
Proof.
  assert (Forall (Forall (cell_decodes (parse_shared_strings shared_part))) shared_sheet)
    as Hsheet.
  { constructor; [|constructor].
    constructor; [|constructor; [|constructor]];
      intros ref [= <-] _; (split; [discriminate|]);
      intros _ text [= <-]; eexists; (split; [by vm_compute|]);
      unfold shared_part; simpl; lia. }
  assert ([duplicate_first] ≠ []) as Hrows by discriminate.
  assert (Forall (coerces iso_none) dated_sales) as Hs.
  { repeat constructor; by vm_compute. }
  split_and!; [exact Hsheet|exact Hrows|exact Hs|by vm_compute|].
  apply (stages_return iso_none repr_none shared_part shared_sheet
           [duplicate_first] dated_sales [] Hsheet Hrows Hs).
Defined.

(** The run on an external line without a cost followed by an internal
    line that carries the cost; and the part groups of the two-line order: a
    group for (S1, P1), none for a key (S9, P9) that no sales record has. *)
Lemma part_level_spec_witness :
  (outcome (reports iso_none repr_none
              [part_line "50" "5" "Acme" ""; part_line "1e2" "10" "ETHOS plc" "30"]
              [inventory_line]) = Ok tt ∧
   written (reports iso_none repr_none
              [part_line "50" "5" "Acme" ""; part_line "1e2" "10" "ETHOS plc" "30"]
              [inventory_line]) !! 1%nat =
     Some (PART_PATH, csv_text repr_none PART_HEADERS [example_part_row])) ∧
  for_each part_step (allocate (final_state two_line_order)) ∅
    = Ok (from_ok ∅ (for_each part_step (allocate (final_state two_line_order)) ∅)) ∧
  is_Some (from_ok ∅ (for_each part_step (allocate (final_state two_line_order)) ∅)
             !! ("S1", "P1")) ∧
  ¬ is_Some (from_ok ∅ (for_each part_step (allocate (final_state two_line_order)) ∅)
               !! ("S9", "P9")).
Proof.
  destruct (part_level_spec iso_none repr_none) as (Hrun & _ & _ & Hjoin).
  split.
  { apply (Hrun _ _ _ "SO-1").
    - discriminate.
    - by vm_compute.
    - by vm_compute.
    - by vm_compute.
    - by vm_compute.
    - right. repeat split; by vm_compute.
    - by vm_compute.
    - by vm_compute.
    - by vm_compute.
    - by vm_compute. }
  assert (for_each part_step (allocate (final_state two_line_order)) ∅
    = Ok (from_ok ∅ (for_each part_step (allocate (final_state two_line_order)) ∅)))
    as Hpg.
  { by vm_compute. }
  split; [exact Hpg|].
  destruct (Hjoin ∅ _ _ Hpg) as [_ Hkeys].
  assert (forallb (fun row => bool_decide (part_key row = ("S1", "P1")))
            (allocate (final_state two_line_order)) = true) as Hall.
  { vm_compute. reflexivity. }
  rewrite forallb_forall in Hall.
  split.
  - apply Hkeys.
    destruct (allocate (final_state two_line_order)) as [|r rows'] eqn:Erows.
    { vm_compute in Erows. discriminate Erows. }
    exists r. split; [by left|].
    specialize (Hall r (or_introl eq_refl)).
    apply bool_decide_eq_true_1 in Hall. rewrite Hall. done.
  - rewrite Hkeys. intros (row & Hin & Hkey & _).
    apply list_elem_of_In in Hin. specialize (Hall row Hin).
    apply bool_decide_eq_true_1 in Hall. rewrite Hall in Hkey. discriminate.
Defined.

(** Two references whose letters differ. *)
Lemma col_to_idx_letters_witness :
  (col_to_idx "AZ" = col_to_idx "BA" → "AZ" = "BA") ∧
  ("AZ" ≠ "" → 0 ≤ col_to_idx "AZ") ∧
  (∀ c, is_upper c = true →
     col_to_idx ("AZ" +:+ String c "") = 26 * (col_to_idx "AZ" + 1) + (code c - 65)).
Proof. apply (col_to_idx_letters "AZ" "BA"); reflexivity. Defined.

(** A sheet with a gap, a row without references and a repeated column. *)
Lemma parse_sheet_rows_witness :
  parse_sheet None gapped_sheet = Ok [[Some "Site"; None; Some "Qty"]; [None; Some "2"]] ∧
  Forall2 row_width (List.filter (existsb referenced) gapped_sheet)
    [[Some "Site"; None; Some "Qty"]; [None; Some "2"]].
Proof.
  split; [reflexivity|]. apply (parse_sheet_rows None gapped_sheet). reflexivity.
Defined.

Lemma parse_sheet_cells_witness :
  parse_sheet None gapped_sheet = Ok [[Some "Site"; None; Some "Qty"]; [None; Some "2"]] ∧
  Forall2 (row_content (parse_shared_strings None))
    (List.filter (existsb referenced) gapped_sheet)
    [[Some "Site"; None; Some "Qty"]; [None; Some "2"]].
Proof.
  split; [reflexivity|]. apply (parse_sheet_cells None gapped_sheet). reflexivity.
Defined.

(** A serial number beyond the last day of the calendar. *)
Lemma parse_date_raises_witness :
  parse_date iso_none (of_cell (Some " 3000000 ")) = Raise OverflowError ∧
  OverflowError = OverflowError ∧
  ∃ s, Some " 3000000 " = Some s ∧ strip s ≠ "" ∧ is_serial (strip s) = true.
Proof.
  assert (parse_date iso_none (of_cell (Some " 3000000 ")) = Raise OverflowError) as H
    by (vm_compute; reflexivity).
  split; [exact H|]. exact (parse_date_raises iso_none (Some " 3000000 ") OverflowError H).
Defined.

(** The run on a workbook whose sales sheet holds such a serial number. *)
Lemma main_failure_witness :
  outcome (main iso_none repr_none overflow_workbook) = Raise OverflowError ∧
  ((written (main iso_none repr_none overflow_workbook) = [] ∧
    (OverflowError = IndexError ∨ OverflowError = AttributeError
     ∨ OverflowError = ValueError)) ∨
   (OverflowError = OverflowError ∧
    ∃ totals,
      written (main iso_none repr_none overflow_workbook) =
      [ (INVENTORY_PATH,
         csv_text repr_none INVENTORY_HEADERS (inventory_output_rows totals)) ])).
Proof.
  assert (outcome (main iso_none repr_none overflow_workbook) = Raise OverflowError) as H
    by (vm_compute; reflexivity).
  split; [exact H|]. exact (main_failure iso_none repr_none overflow_workbook OverflowError H).
Defined.

(** The run on a workbook of two header rows. *)
Lemma header_only_run_witness :
  parse_sheet None [[text_cell "A1" "Site"]] = Ok [[Some "Site"]] ∧
  parse_sheet None [[text_cell "B1" "Part No"]] = Ok [[None; Some "Part No"]] ∧
  main iso_none repr_none header_workbook =
  IO [ (INVENTORY_PATH, join "," INVENTORY_HEADERS +:+ NEWLINE);
       (PART_PATH, join "," PART_HEADERS +:+ NEWLINE);
       (CUSTOMER_PATH, join "," CUSTOMER_HEADERS +:+ NEWLINE);
       (COUNT_PATH, join "," COUNT_HEADERS +:+ NEWLINE) ]
     (Ok tt).
Proof.
  split; [reflexivity|]. split; [reflexivity|].
  apply (header_only_run iso_none repr_none header_workbook
           [Some "Site"] [None; Some "Part No"]); reflexivity.
Defined.

(** The order of three line items: it has a total, and its cost is 7. *)
Lemma order_sums_keys_witness :
  sales_loop iso_none costed_order = Ok (final_state costed_order) ∧
  is_Some (order_revenue (final_state costed_order) !! "SO-9") ∧
  order_cost (final_state costed_order) !! "SO-9" = Some 7%float.
Proof.
  assert (sales_loop iso_none costed_order = Ok (final_state costed_order)) as Hst.
  { by vm_compute. }
  split; [exact Hst|].
  destruct (order_sums_keys iso_none costed_order _ "SO-9" Hst) as [Hrev _].
  split.
  - apply Hrev. split; [discriminate|].
    exists (sales_record "2024-01-06" "SO-9" "10" "7").
    split; [right; left|]. split; by vm_compute.
  - by vm_compute.
Defined.

(** Three records of one site, part and year, one without customer. *)
Lemma count_report_rows_witness :
  sales_loop iso_none counted_sales = Ok (final_state counted_sales) ∧
  [CStr "S1"; CInt 2024; CStr "P1"; CInt 2; CInt 1; CInt 1]
    ∈ count_table (allocate (final_state counted_sales)) ∧
  ∃ site y part n n_int n_ext,
    [CStr "S1"; CInt 2024; CStr "P1"; CInt 2; CInt 1; CInt 1]
      = [CStr site; CInt y; CStr part; CInt n; CInt n_int; CInt n_ext] ∧
    site ≠ "" ∧ part ≠ "" ∧ 2019 ≤ y ≤ 2025 ∧ 1 ≤ n ∧ n = n_int + n_ext.
Proof.
  assert (sales_loop iso_none counted_sales = Ok (final_state counted_sales)) as Hst.
  { by vm_compute. }
  assert ([CStr "S1"; CInt 2024; CStr "P1"; CInt 2; CInt 1; CInt 1]
            ∈ count_table (allocate (final_state counted_sales))) as Hin.
  { assert (count_table (allocate (final_state counted_sales))
            = [[CStr "S1"; CInt 2024; CStr "P1"; CInt 2; CInt 1; CInt 1]]) as ->
      by (vm_compute; reflexivity).
    by left. }
  split; [exact Hst|]. split; [exact Hin|].
  exact (count_report_rows iso_none counted_sales _ _ Hst Hin).
Defined.

(** The part and customer reports on the three records above. *)
Lemma part_report_rows_witness :
  part_table ∅ (allocate (final_state counted_sales)) = Ok [counted_part_row] ∧
  ∃ site part n n_int n_ext,
    length counted_part_row = 15%nat ∧
    counted_part_row !! 0%nat = Some (CStr site) ∧
    counted_part_row !! 1%nat = Some (CStr part) ∧
    counted_part_row !! 4%nat = Some (CInt n) ∧
    counted_part_row !! 9%nat = Some (CInt n_int) ∧
    counted_part_row !! 10%nat = Some (CInt n_ext) ∧
    counted_part_row !! 13%nat = Some (CStr "") ∧
    counted_part_row !! 14%nat = Some (CStr "") ∧
    site ≠ "" ∧ part ≠ "" ∧ 1 ≤ n ∧ n = n_int + n_ext.
Proof.
  assert (part_table ∅ (allocate (final_state counted_sales)) = Ok [counted_part_row])
    as Htable by (vm_compute; reflexivity).
  split; [exact Htable|].
  apply (part_report_rows ∅ (allocate (final_state counted_sales)) _ _ Htable).
  by left.
Defined.

Lemma customer_report_rows_witness :
  customer_table (allocate (final_state counted_sales))
    = Ok [counted_acme_row; counted_ethos_row] ∧
  ∃ site customer,
    length counted_ethos_row = 9%nat ∧
    counted_ethos_row !! 0%nat = Some (CStr site) ∧
    counted_ethos_row !! 1%nat = Some (CStr customer) ∧
    counted_ethos_row !! 2%nat = Some (CStr (classify_customer (Some customer))) ∧
    counted_ethos_row !! 7%nat = Some (CStr "") ∧
    counted_ethos_row !! 8%nat = Some (CStr "") ∧
    site ≠ "" ∧ customer ≠ "" ∧
    ∃ row, row ∈ allocate (final_state counted_sales) ∧ customer_key row = (site, customer).
Proof.
  assert (customer_table (allocate (final_state counted_sales))
            = Ok [counted_acme_row; counted_ethos_row])
    as Htable by (vm_compute; reflexivity).
  split; [exact Htable|].
  apply (customer_report_rows (allocate (final_state counted_sales)) _ _ Htable).
  right. by left.
Defined.

End BuildTables.
